(** * CustomNavbarEffects: a shallow embedding of [src/index.js]

    The class [CustomNavbarEffects] hides a navbar when the page is scrolled
    down and shows it again when the page is scrolled up.  Its methods mutate
    the controller object ([this]) and the inline style and class list of a
    handful of DOM nodes.

    Modelling choices, all read off the source:
    - numbers (scroll offsets, pixel widths, milliseconds) are integers [Z];
      [offsetWidth] is integral in the DOM and the arithmetic of
      [handleScroll] is one subtraction and two comparisons;
    - a DOM node reference is a [node] id and the mutable part of the nodes
      (class list, inline style, rendered width) lives in one store, so two
      roles that resolve to the same node alias each other as they do in the
      browser;
    - [null] and [undefined] are both [None]: the code only tests such values
      for truthiness or dereferences them;
    - an inline style property holds the text last assigned to it (the
      empty string when never assigned); a number inside a template
      literal is printed in decimal;
    - [document.querySelector] is the document's answer: an element, null,
      or a SyntaxError thrown for a selector that is not valid;
    - [offsetWidth] is what layout last rendered: it changes between
      events, not while a handler runs;
    - a method is a state transformer that either returns or throws, and
      what was mutated before a throw stays mutated;
    - the constructor and the events of the page (scroll, resize,
      DOMContentLoaded, layout) together with the public methods
      [updateConfig] and [destroy] generate the worlds a controller can be
      in. *)

From Stdlib Require Import ZArith String List Lia.
From stdpp Require Import base option list gmap strings pretty.

Open Scope Z_scope.

(** ** Data model *)

Definition node := nat.

(** [this.config] (lines 18-27). *)
Record Config := mkConfig {
  containerSelector : string;
  ctaBtnContainerSelector : string;
  logoContainerSelector : string;
  navbarMainSectionSelector : string;
  navbarItemsSectionSelector : string;
  scrollThreshold : Z;
  transitionDuration : Z
}.

(** A partial configuration: the [options] of the constructor and the
    [newConfig] of [updateConfig].  [None] is a key that is not there. *)
Record Options := mkOptions {
  opt_containerSelector : option string;
  opt_ctaBtnContainerSelector : option string;
  opt_logoContainerSelector : option string;
  opt_navbarMainSectionSelector : option string;
  opt_navbarItemsSectionSelector : option string;
  opt_scrollThreshold : option Z;
  opt_transitionDuration : option Z
}.

(** [this.elements]. *)
Record Elements := mkElements {
  container : option node;
  ctaBtnContainer : option node;
  logoContainer : option node;
  navbarMainSection : option node;
  navbarItemsSection : option node;
  leftEmpty : option node;
  rightEmpty : option node
}.

(** [this.dimensions]. *)
Record Dimensions := mkDimensions {
  leftEmptyWidth : option Z;
  rightEmptyWidth : option Z
}.

(** [this.scrollState] (lines 31-35). *)
Record ScrollState := mkScrollState {
  lastScrollY : Z;
  isScrollingUp : bool;
  isInitialized : bool
}.

(** The controller object. *)
Record Controller := mkController {
  this_config : Config;
  this_elements : Elements;
  this_dimensions : Dimensions;
  this_scrollState : ScrollState
}.

(** The inline style of a node, restricted to the three properties the
    controller writes. *)
Record Style := mkStyle {
  transition : string;
  opacity : string;
  width : string
}.

(** The mutable state of a DOM node. *)
Record Element := mkElement {
  classList : list string;
  style : Style;
  offsetWidth : Z
}.

Inductive JsError :=
| Error (message : string)
| TypeError (message : string)
| SyntaxError (message : string).

(** What a call of [document.querySelector] does: it returns the first
    matching element or null, or it throws (a SyntaxError, when the
    selector is not a valid one). *)
Inductive Lookup :=
| Returns (found : option node)
| Throws (e : JsError).

(** The structure of the document, which the controller only reads. *)
Record Document := mkDocument {
  querySelector : string → Lookup;
  parentElement : node → option node;
  children : node → list node
}.

Inductive ReadyState := loading | interactive | complete.

(** Which of the three bound handlers are registered. *)
Record Listeners := mkListeners {
  on_scroll : bool;
  on_resize : bool;
  on_DOMContentLoaded : bool
}.

(** Everything a method can read or write. *)
Record World := mkWorld {
  this : Controller;
  nodes : gmap node Element;
  scrollY : Z;
  readyState : ReadyState;
  listeners : Listeners;
  console : list (string * JsError)
}.

(** A page before the script runs. *)
Record Page := mkPage {
  page_nodes : gmap node Element;
  page_scrollY : Z;
  page_readyState : ReadyState
}.

(** ** JavaScript primitives *)

(** Truthiness of an object reference and of a number. *)
Definition truthy_ref (o : option node) : bool :=
  match o with Some _ => true | None => false end.

Definition truthy_num (o : option Z) : bool :=
  match o with Some n => negb (n =? 0) | None => false end.

(** The double-quote character, for the selectors that contain it. *)
Definition dq : string :=
  String (Ascii.Ascii false true false false false true false false) EmptyString.

(** A number inside a template literal. *)
Definition Number_toString (n : Z) : string := pretty n.

(** [Array.prototype.join]. *)
Fixpoint join (sep : string) (l : list string) : string :=
  match l with
  | [] => EmptyString
  | [x] => x
  | x :: rest => x +:+ sep +:+ join sep rest
  end.

(** [{ ...base, ...over }]: a key of [over] wins. *)
Definition spread (base : Config) (over : Options) : Config :=
  {| containerSelector :=
       default (containerSelector base) (opt_containerSelector over);
     ctaBtnContainerSelector :=
       default (ctaBtnContainerSelector base) (opt_ctaBtnContainerSelector over);
     logoContainerSelector :=
       default (logoContainerSelector base) (opt_logoContainerSelector over);
     navbarMainSectionSelector :=
       default (navbarMainSectionSelector base)
               (opt_navbarMainSectionSelector over);
     navbarItemsSectionSelector :=
       default (navbarItemsSectionSelector base)
               (opt_navbarItemsSectionSelector over);
     scrollThreshold := default (scrollThreshold base) (opt_scrollThreshold over);
     transitionDuration :=
       default (transitionDuration base) (opt_transitionDuration over) |}.

(** [classList.remove] and [classList.add] on a token list. *)
Definition classList_remove (token : string) (l : list string) : list string :=
  List.filter (fun c => negb (String.eqb c token)) l.

Definition classList_add (token : string) (l : list string) : list string :=
  if existsb (String.eqb token) l then l else l ++ [token].

(** ** The node store *)

(** A node nothing was recorded for: no class, no inline style. *)
Definition blank : Element :=
  {| classList := []; style := mkStyle EmptyString EmptyString EmptyString; offsetWidth := 0 |}.

Definition node_get (n : node) (w : World) : Element :=
  default blank (nodes w !! n).

Definition with_nodes (f : gmap node Element → gmap node Element) (w : World)
  : World :=
  {| this := this w; nodes := f (nodes w); scrollY := scrollY w;
     readyState := readyState w; listeners := listeners w;
     console := console w |}.

Definition node_update (n : node) (f : Element → Element) (w : World) : World :=
  with_nodes (fun m => <[n := f (default blank (m !! n))]> m) w.

Definition with_classList (f : list string → list string) (e : Element)
  : Element :=
  {| classList := f (classList e); style := style e;
     offsetWidth := offsetWidth e |}.

Definition with_transition (v : string) (e : Element) : Element :=
  {| classList := classList e;
     style := {| transition := v; opacity := opacity (style e);
                 width := width (style e) |};
     offsetWidth := offsetWidth e |}.

Definition with_opacity (v : string) (e : Element) : Element :=
  {| classList := classList e;
     style := {| transition := transition (style e); opacity := v;
                 width := width (style e) |};
     offsetWidth := offsetWidth e |}.

Definition with_width (v : string) (e : Element) : Element :=
  {| classList := classList e;
     style := {| transition := transition (style e);
                 opacity := opacity (style e); width := v |};
     offsetWidth := offsetWidth e |}.

Definition with_offsetWidth (v : Z) (e : Element) : Element :=
  {| classList := classList e; style := style e; offsetWidth := v |}.

(** ** Updating the controller *)

Definition with_this (f : Controller → Controller) (w : World) : World :=
  {| this := f (this w); nodes := nodes w; scrollY := scrollY w;
     readyState := readyState w; listeners := listeners w;
     console := console w |}.

Definition with_config (c : Config) (t : Controller) : Controller :=
  {| this_config := c; this_elements := this_elements t;
     this_dimensions := this_dimensions t;
     this_scrollState := this_scrollState t |}.

Definition with_elements (e : Elements) (t : Controller) : Controller :=
  {| this_config := this_config t; this_elements := e;
     this_dimensions := this_dimensions t;
     this_scrollState := this_scrollState t |}.

Definition with_dimensions (d : Dimensions) (t : Controller) : Controller :=
  {| this_config := this_config t; this_elements := this_elements t;
     this_dimensions := d; this_scrollState := this_scrollState t |}.

Definition with_scrollState (s : ScrollState) (t : Controller) : Controller :=
  {| this_config := this_config t; this_elements := this_elements t;
     this_dimensions := this_dimensions t; this_scrollState := s |}.

Definition with_leftEmpty (o : option node) (e : Elements) : Elements :=
  {| container := container e; ctaBtnContainer := ctaBtnContainer e;
     logoContainer := logoContainer e;
     navbarMainSection := navbarMainSection e;
     navbarItemsSection := navbarItemsSection e;
     leftEmpty := o; rightEmpty := rightEmpty e |}.

Definition with_rightEmpty (o : option node) (e : Elements) : Elements :=
  {| container := container e; ctaBtnContainer := ctaBtnContainer e;
     logoContainer := logoContainer e;
     navbarMainSection := navbarMainSection e;
     navbarItemsSection := navbarItemsSection e;
     leftEmpty := leftEmpty e; rightEmpty := o |}.

Definition with_leftEmptyWidth (v : Z) (d : Dimensions) : Dimensions :=
  {| leftEmptyWidth := Some v; rightEmptyWidth := rightEmptyWidth d |}.

Definition with_rightEmptyWidth (v : Z) (d : Dimensions) : Dimensions :=
  {| leftEmptyWidth := leftEmptyWidth d; rightEmptyWidth := Some v |}.

Definition with_lastScrollY (y : Z) (s : ScrollState) : ScrollState :=
  {| lastScrollY := y; isScrollingUp := isScrollingUp s;
     isInitialized := isInitialized s |}.

Definition with_isInitialized (b : bool) (s : ScrollState) : ScrollState :=
  {| lastScrollY := lastScrollY s; isScrollingUp := isScrollingUp s;
     isInitialized := b |}.

Definition with_listeners (l : Listeners) (w : World) : World :=
  {| this := this w; nodes := nodes w; scrollY := scrollY w;
     readyState := readyState w; listeners := l; console := console w |}.

Definition with_scrollY (y : Z) (w : World) : World :=
  {| this := this w; nodes := nodes w; scrollY := y;
     readyState := readyState w; listeners := listeners w;
     console := console w |}.

Definition with_readyState (r : ReadyState) (w : World) : World :=
  {| this := this w; nodes := nodes w; scrollY := scrollY w;
     readyState := r; listeners := listeners w; console := console w |}.

Definition console_error (label : string) (e : JsError) (w : World) : World :=
  {| this := this w; nodes := nodes w; scrollY := scrollY w;
     readyState := readyState w; listeners := listeners w;
     console := console w ++ [(label, e)] |}.

(** Shorthands for the fields the methods read. *)
Definition config (w : World) : Config := this_config (this w).
Definition elems (w : World) : Elements := this_elements (this w).
Definition dimensions (w : World) : Dimensions := this_dimensions (this w).
Definition scrollState (w : World) : ScrollState := this_scrollState (this w).

(** ** Methods as state transformers that may throw *)

Inductive Completion (A : Type) :=
| Normal (a : A)
| Throw (e : JsError).
Arguments Normal {A} a.
Arguments Throw {A} e.

Definition M (A : Type) : Type := World → Completion A * World.

Definition ret {A} (a : A) : M A := fun w => (Normal a, w).

Definition bind {A B} (m : M A) (k : A → M B) : M B :=
  fun w =>
    match m w with
    | (Normal a, w') => k a w'
    | (Throw e, w') => (Throw e, w')
    end.

Definition throw {A} (e : JsError) : M A := fun w => (Throw e, w).

Definition try_catch {A} (m : M A) (handler : JsError → M A) : M A :=
  fun w =>
    match m w with
    | (Normal a, w') => (Normal a, w')
    | (Throw e, w') => handler e w'
    end.

Definition read {A} (f : World → A) : M A := fun w => (Normal (f w), w).
Definition update (f : World → World) : M unit := fun w => (Normal tt, f w).

Declare Scope js_scope.
Delimit Scope js_scope with js.
Notation "'let!' x ':=' m 'in' k" := (bind m (fun x => k))
  (at level 10, x name, m at level 100, k at level 200, only parsing)
  : js_scope.
Notation "m ';;;' k" := (bind m (fun _ => k))
  (at level 100, k at level 200, right associativity, only parsing)
  : js_scope.
Open Scope js_scope.

(** [if (ref) { body(ref) }] for an element reference. *)
Definition when_present (o : option node) (body : node → M unit) : M unit :=
  match o with
  | Some n => body n
  | None => ret tt
  end.

(** Dereferencing [o.prop] throws on null or undefined. *)
Definition deref (o : option node) (prop : string) : M node :=
  match o with
  | Some n => ret n
  | None =>
      throw (TypeError ("Cannot read properties of null (reading '" +:+ prop
                        +:+ "')"))
  end.

Definition set_transition (n : node) (v : string) : M unit :=
  update (node_update n (with_transition v)).
Definition set_opacity (n : node) (v : string) : M unit :=
  update (node_update n (with_opacity v)).
Definition set_width (n : node) (v : string) : M unit :=
  update (node_update n (with_width v)).
Definition classList_do (n : node) (f : list string → list string) : M unit :=
  update (node_update n (with_classList f)).

(** ** The class [CustomNavbarEffects] *)

Section CustomNavbarEffects.

Variable document : Document.

(** [const requiredElements] (line 74). *)
Definition requiredElements : list string :=
  ["container"; "navbarMainSection"; "navbarItemsSection"].

(** [this.elements[key]]. *)
Definition element_at (key : string) (e : Elements) : option node :=
  if String.eqb key "container" then container e
  else if String.eqb key "ctaBtnContainer" then ctaBtnContainer e
  else if String.eqb key "logoContainer" then logoContainer e
  else if String.eqb key "navbarMainSection" then navbarMainSection e
  else if String.eqb key "navbarItemsSection" then navbarItemsSection e
  else if String.eqb key "leftEmpty" then leftEmpty e
  else if String.eqb key "rightEmpty" then rightEmpty e
  else None.

(** [requiredElements.filter(key => !this.elements[key])]. *)
Definition missingElements (e : Elements) : list string :=
  List.filter (fun key => negb (truthy_ref (element_at key e))) requiredElements.

(** [document.querySelector(selector)] as a step of a method. *)
Definition query (selector : string) : M (option node) :=
  match querySelector document selector with
  | Returns found => ret found
  | Throws e => throw e
  end.

(** [cacheElements] (lines 64-85).  The five lookups of the object literal
    run in source order; when one of them throws, [this.elements] is not
    assigned. *)
Definition cacheElements : M unit :=
  let! cfg := read config in
  let! c := query (containerSelector cfg) in
  let! cta := query (ctaBtnContainerSelector cfg) in
  let! logo := query (logoContainerSelector cfg) in
  let! main := query (navbarMainSectionSelector cfg) in
  let! items := query (navbarItemsSectionSelector cfg) in
  update (with_this (with_elements
    {| container := c;
       ctaBtnContainer := cta;
       logoContainer := logo;
       navbarMainSection := main;
       navbarItemsSection := items;
       leftEmpty := None;
       rightEmpty := None |})) ;;;
  let! e := read elems in
  if (0 <? length (missingElements e))%nat then
    throw (Error ("Required elements not found: "
                  +:+ join ", " (missingElements e)))
  else
    let! main := deref (navbarMainSection e) "parentElement" in
    let! parent := deref (parentElement document main) "children" in
    let parentChildren := children document parent in
    update (with_this (fun t =>
      with_elements (with_leftEmpty (parentChildren !! 0%nat) (this_elements t)) t)) ;;;
    update (with_this (fun t =>
      with_elements (with_rightEmpty (parentChildren !! 2%nat) (this_elements t)) t)).

(** [setupTransitions] (lines 91-106). *)
Definition setupTransitions : M unit :=
  let! cfg := read config in
  let transitionStyle :=
    "opacity " +:+ Number_toString (transitionDuration cfg) +:+ "ms ease-in-out" in
  let widthTransitionStyle :=
    "width " +:+ Number_toString (transitionDuration cfg) +:+ "ms ease-in-out" in
  let! e := read elems in
  when_present (navbarItemsSection e) (fun n => set_transition n transitionStyle) ;;;
  let! e := read elems in
  when_present (leftEmpty e) (fun n => set_transition n widthTransitionStyle) ;;;
  let! e := read elems in
  when_present (rightEmpty e) (fun n => set_transition n widthTransitionStyle).

(** [updateDimensions] (lines 127-137). *)
Definition updateDimensions : M unit :=
  let! e := read elems in
  when_present (leftEmpty e) (fun n =>
    let! measured := read (fun w => offsetWidth (node_get n w)) in
    update (with_this (fun t =>
      with_dimensions (with_leftEmptyWidth measured (this_dimensions t)) t)) ;;;
    set_width n (Number_toString measured +:+ "px")) ;;;
  let! e := read elems in
  when_present (rightEmpty e) (fun n =>
    let! measured := read (fun w => offsetWidth (node_get n w)) in
    update (with_this (fun t =>
      with_dimensions (with_rightEmptyWidth measured (this_dimensions t)) t)) ;;;
    set_width n (Number_toString measured +:+ "px")).

(** [handleLoad] (lines 227-231). *)
Definition handleLoad : M unit :=
  updateDimensions ;;;
  let! y := read scrollY in
  update (with_this (fun t =>
    with_scrollState (with_lastScrollY y (this_scrollState t)) t)).

(** [bindEvents] (lines 112-121). *)
Definition bindEvents : M unit :=
  update (fun w => with_listeners
    {| on_scroll := true; on_resize := on_resize (listeners w);
       on_DOMContentLoaded := on_DOMContentLoaded (listeners w) |} w) ;;;
  update (fun w => with_listeners
    {| on_scroll := on_scroll (listeners w); on_resize := true;
       on_DOMContentLoaded := on_DOMContentLoaded (listeners w) |} w) ;;;
  let! state := read readyState in
  match state with
  | loading =>
      update (fun w => with_listeners
        {| on_scroll := on_scroll (listeners w);
           on_resize := on_resize (listeners w);
           on_DOMContentLoaded := true |} w)
  | _ => handleLoad
  end.

(** [init] (lines 48-58). *)
Definition init : M unit :=
  try_catch
    (cacheElements ;;;
     setupTransitions ;;;
     bindEvents ;;;
     updateDimensions ;;;
     update (with_this (fun t =>
       with_scrollState (with_isInitialized true (this_scrollState t)) t)))
    (fun error =>
       update (console_error "CustomNavbarEffects initialization failed:" error)).

(** [showNavbar] (lines 177-192). *)
Definition showNavbar : M unit :=
  let! e := read elems in
  let! c := deref (container e) "classList" in
  classList_do c (classList_remove "scroll-down") ;;;
  let! e := read elems in
  let! c := deref (container e) "classList" in
  classList_do c (classList_add "scroll-up") ;;;
  let! e := read elems in
  when_present (navbarItemsSection e) (fun n => set_opacity n "1") ;;;
  let! e := read elems in
  let! d := read dimensions in
  match leftEmpty e, leftEmptyWidth d with
  | Some n, Some measured =>
      if truthy_num (Some measured)
      then set_width n (Number_toString measured +:+ "px")
      else ret tt
  | _, _ => ret tt
  end ;;;
  let! e := read elems in
  let! d := read dimensions in
  match rightEmpty e, rightEmptyWidth d with
  | Some n, Some measured =>
      if truthy_num (Some measured)
      then set_width n (Number_toString measured +:+ "px")
      else ret tt
  | _, _ => ret tt
  end.

(** [hideNavbar] (lines 198-213). *)
Definition hideNavbar : M unit :=
  let! e := read elems in
  let! c := deref (container e) "classList" in
  classList_do c (classList_remove "scroll-up") ;;;
  let! e := read elems in
  let! c := deref (container e) "classList" in
  classList_do c (classList_add "scroll-down") ;;;
  let! e := read elems in
  when_present (navbarItemsSection e) (fun n => set_opacity n "0") ;;;
  let! e := read elems in
  when_present (leftEmpty e) (fun n => set_width n "0px") ;;;
  let! e := read elems in
  when_present (rightEmpty e) (fun n => set_width n "0px").

(** [updateNavbarState] (lines 165-171). *)
Definition updateNavbarState (isScrollingUp : bool) : M unit :=
  if isScrollingUp then showNavbar else hideNavbar.

(** [handleScroll] (lines 143-158). *)
Definition handleScroll : M unit :=
  let! s := read scrollState in
  if negb (isInitialized s) then ret tt else
  let! currentScrollY := read scrollY in
  let! s := read scrollState in
  let scrollDelta := Z.abs (currentScrollY - lastScrollY s) in
  let! cfg := read config in
  if scrollDelta <? scrollThreshold cfg then ret tt else
  let! s := read scrollState in
  let isScrollingUp := currentScrollY <? lastScrollY s in
  updateNavbarState isScrollingUp ;;;
  update (with_this (fun t =>
    with_scrollState (with_lastScrollY currentScrollY (this_scrollState t)) t)).

(** [handleResize] (lines 219-221). *)
Definition handleResize : M unit := updateDimensions.

(** [updateConfig] (lines 238-244).  A number is truthy when it is not 0. *)
Definition updateConfig (newConfig : Options) : M unit :=
  update (with_this (fun t => with_config (spread (this_config t) newConfig) t)) ;;;
  if truthy_num (opt_transitionDuration newConfig) then setupTransitions
  else ret tt.

(** [destroy] (lines 250-256). *)
Definition destroy : M unit :=
  update (fun w => with_listeners
    {| on_scroll := false; on_resize := on_resize (listeners w);
       on_DOMContentLoaded := on_DOMContentLoaded (listeners w) |} w) ;;;
  update (fun w => with_listeners
    {| on_scroll := on_scroll (listeners w); on_resize := false;
       on_DOMContentLoaded := on_DOMContentLoaded (listeners w) |} w) ;;;
  update (fun w => with_listeners
    {| on_scroll := on_scroll (listeners w);
       on_resize := on_resize (listeners w);
       on_DOMContentLoaded := false |} w) ;;;
  update (with_this (fun t =>
    with_scrollState (with_isInitialized false (this_scrollState t)) t)).

(** [getScrollState] (lines 263-265) and [getConfig] (lines 272-274): a
    shallow copy of a record of primitives is the record. *)
Definition getScrollState (w : World) : ScrollState :=
  {| lastScrollY := lastScrollY (scrollState w);
     isScrollingUp := isScrollingUp (scrollState w);
     isInitialized := isInitialized (scrollState w) |}.

Definition getConfig (w : World) : Config :=
  {| containerSelector := containerSelector (config w);
     ctaBtnContainerSelector := ctaBtnContainerSelector (config w);
     logoContainerSelector := logoContainerSelector (config w);
     navbarMainSectionSelector := navbarMainSectionSelector (config w);
     navbarItemsSectionSelector := navbarItemsSectionSelector (config w);
     scrollThreshold := scrollThreshold (config w);
     transitionDuration := transitionDuration (config w) |}.

(** The defaults of the constructor (lines 19-25). *)
Definition framer_name (name : string) : string :=
  "[data-framer-name=" +:+ dq +:+ name +:+ dq +:+ "]".

Definition defaults : Config :=
  {| containerSelector := framer_name "Main Navbar";
     ctaBtnContainerSelector := framer_name "CTA Container";
     logoContainerSelector := framer_name "Logo";
     navbarMainSectionSelector := framer_name "Navbar Main Section";
     navbarItemsSectionSelector := framer_name "Nav Items";
     scrollThreshold := 10;
     transitionDuration := 200 |}.

(** [constructor] (lines 17-42): the object is built on a page and [init]
    runs.  [init] catches what it throws, so [new] always yields the object. *)
Definition fresh (options : Options) (page : Page) : World :=
  {| this :=
       {| this_config := spread defaults options;
          this_elements := mkElements None None None None None None None;
          this_dimensions := mkDimensions None None;
          this_scrollState :=
            {| lastScrollY := 0; isScrollingUp := false;
               isInitialized := false |} |};
     nodes := page_nodes page;
     scrollY := page_scrollY page;
     readyState := page_readyState page;
     listeners := mkListeners false false false;
     console := [] |}.

Definition new_CustomNavbarEffects (options : Options) (page : Page) : World :=
  snd (init (fresh options page)).

(** ** The page after construction *)

(** What happens to the page and the controller once it exists: the user
    scrolls, layout changes the rendered width of a node, the window is
    resized, the document finishes parsing, or the owner of the object calls
    one of its public methods. *)
Inductive Event :=
| ScrollTo (y : Z)
| Layout (n : node) (rendered : Z)
| Resize
| DOMContentLoaded
| CallUpdateConfig (newConfig : Options)
| CallDestroy.

(** The browser runs a handler only while it is registered, and reports what
    the handler throws. *)
Definition dispatch (registered : bool) (handler : M unit) (w : World) : World :=
  if registered then
    match handler w with
    | (Normal _, w') => w'
    | (Throw e, w') => console_error "Uncaught" e w'
    end
  else w.

Definition step (ev : Event) (w : World) : World :=
  match ev with
  | ScrollTo y =>
      let w := with_scrollY y w in
      dispatch (on_scroll (listeners w)) handleScroll w
  | Layout n rendered => node_update n (with_offsetWidth rendered) w
  | Resize => dispatch (on_resize (listeners w)) handleResize w
  | DOMContentLoaded =>
      match readyState w with
      | loading =>
          let w := with_readyState interactive w in
          dispatch (on_DOMContentLoaded (listeners w)) handleLoad w
      | _ => w
      end
  | CallUpdateConfig newConfig => snd (updateConfig newConfig w)
  | CallDestroy => snd (destroy w)
  end.

Definition run (evs : list Event) (w : World) : World :=
  fold_left (fun w ev => step ev w) evs w.

(** The worlds a controller can be in. *)
Inductive reachable : World → Prop :=
| reachable_new options page :
    reachable (new_CustomNavbarEffects options page)
| reachable_step ev w :
    reachable w → reachable (step ev w).

End CustomNavbarEffects.

(** ** Vocabulary of the statements *)

(** [if (ref) { write on ref }], as a function on worlds. *)
Definition opt_update (o : option node) (f : Element → Element) (w : World)
  : World :=
  match o with
  | Some n => node_update n f w
  | None => w
  end.

(** The text of [`${n}px`]. *)
Definition px (n : Z) : string := Number_toString n +:+ "px".

(** One branch of [updateDimensions]: measure a spacer, record the width,
    pin it. *)
Definition measure (spacer : option node) (record : Z → Dimensions → Dimensions)
  (w : World) : World :=
  match spacer with
  | Some n =>
      node_update n (with_width (px (offsetWidth (node_get n w))))
        (with_this (fun t =>
           with_dimensions
             (record (offsetWidth (node_get n w)) (this_dimensions t)) t) w)
  | None => w
  end.

(** One branch of [showNavbar]: give a spacer its recorded width back. *)
Definition restore (spacer : option node) (measured : option Z) (w : World)
  : World :=
  match spacer, measured with
  | Some n, Some m =>
      if truthy_num (Some m) then node_update n (with_width (px m)) w else w
  | _, _ => w
  end.

(** The width on record for the spacer [n]. *)
Definition recorded_width (n : node) (w : World) : option Z :=
  if decide (leftEmpty (elems w) = Some n)
  then leftEmptyWidth (dimensions w) else rightEmptyWidth (dimensions w).

(** The marker classes of the container after [showNavbar] and after
    [hideNavbar]. *)
Definition mark (c : node) (gone there : string) (w : World) : World :=
  node_update c (with_classList (classList_add there))
    (node_update c (with_classList (classList_remove gone)) w).

Definition shown (c : node) (w : World) : World :=
  restore (rightEmpty (elems w)) (rightEmptyWidth (dimensions w))
    (restore (leftEmpty (elems w)) (leftEmptyWidth (dimensions w))
       (opt_update (navbarItemsSection (elems w)) (with_opacity "1")
          (mark c "scroll-down" "scroll-up" w))).

Definition hidden (c : node) (w : World) : World :=
  opt_update (rightEmpty (elems w)) (with_width "0px")
    (opt_update (leftEmpty (elems w)) (with_width "0px")
       (opt_update (navbarItemsSection (elems w)) (with_opacity "0")
          (mark c "scroll-up" "scroll-down" w))).

(** The object literal of [cacheElements] (lines 65-71): the five lookups
    in source order.  It yields the element record when all five return,
    and the error of the first lookup that throws otherwise. *)
Definition lookups (document : Document) (cfg : Config) : Completion Elements :=
  match querySelector document (containerSelector cfg) with
  | Throws e => Throw e
  | Returns c =>
  match querySelector document (ctaBtnContainerSelector cfg) with
  | Throws e => Throw e
  | Returns cta =>
  match querySelector document (logoContainerSelector cfg) with
  | Throws e => Throw e
  | Returns logo =>
  match querySelector document (navbarMainSectionSelector cfg) with
  | Throws e => Throw e
  | Returns main =>
  match querySelector document (navbarItemsSectionSelector cfg) with
  | Throws e => Throw e
  | Returns items =>
      Normal {| container := c; ctaBtnContainer := cta;
                logoContainer := logo; navbarMainSection := main;
                navbarItemsSection := items;
                leftEmpty := None; rightEmpty := None |}
  end end end end end.

(** The required roles that an element record lacks, by field: the names
    the error message of [cacheElements] is to list, in the order of
    [requiredElements]. *)
Definition missing_roles (e : Elements) : list string :=
  match container e with Some _ => [] | None => ["container"] end
  ++ match navbarMainSection e with
     | Some _ => [] | None => ["navbarMainSection"] end
  ++ match navbarItemsSection e with
     | Some _ => [] | None => ["navbarItemsSection"] end.

Definition measured (w : World) : World :=
  measure (rightEmpty (elems w)) with_rightEmptyWidth
    (measure (leftEmpty (elems w)) with_leftEmptyWidth w).

(** What [bindEvents] leaves behind. *)
Definition bound (w : World) : World :=
  match readyState w with
  | loading => with_listeners (mkListeners true true true) w
  | _ =>
      with_this (fun t =>
        with_scrollState (with_lastScrollY (scrollY w) (this_scrollState t)) t)
        (measured
           (with_listeners
              (mkListeners true true (on_DOMContentLoaded (listeners w))) w))
  end.

(** The last two statements of the [try] block of [init]. *)
Definition initialized (w : World) : World :=
  with_this (fun t =>
    with_scrollState (with_isInitialized true (this_scrollState t)) t)
    (measured w).

Definition transitions_set (w : World) : World :=
  let duration := Number_toString (transitionDuration (config w)) in
  opt_update (rightEmpty (elems w))
    (with_transition ("width " +:+ duration +:+ "ms ease-in-out"))
    (opt_update (leftEmpty (elems w))
       (with_transition ("width " +:+ duration +:+ "ms ease-in-out"))
       (opt_update (navbarItemsSection (elems w))
          (with_transition ("opacity " +:+ duration +:+ "ms ease-in-out"))
          w)).

(** A spacer that is present has been measured, and a spacer measured at
    zero width is pinned at zero width. *)
Definition spacer_ok (spacer : option node) (measured : option Z) (w : World)
  : Prop :=
  ∀ n, spacer = Some n →
    ∃ m, measured = Some m ∧ (m = 0 → width (style (node_get n w)) = "0px").

(** What holds of the controller between two events. *)
Record consistent (w : World) : Prop := mkConsistent {
  initialized_listens :
    isInitialized (scrollState w) = true → on_scroll (listeners w) = true;
  initialized_container :
    isInitialized (scrollState w) = true → is_Some (container (elems w));
  initialized_items :
    isInitialized (scrollState w) = true →
    is_Some (navbarItemsSection (elems w));
  left_spacer_ok :
    spacer_ok (leftEmpty (elems w)) (leftEmptyWidth (dimensions w)) w;
  right_spacer_ok :
    spacer_ok (rightEmpty (elems w)) (rightEmptyWidth (dimensions w)) w;
  one_node_one_width :
    ∀ n, leftEmpty (elems w) = Some n → rightEmpty (elems w) = Some n →
      leftEmptyWidth (dimensions w) = rightEmptyWidth (dimensions w)
}.

(** The configuration fields by name, for statements about "every field". *)
Inductive Field :=
| f_containerSelector
| f_ctaBtnContainerSelector
| f_logoContainerSelector
| f_navbarMainSectionSelector
| f_navbarItemsSectionSelector
| f_scrollThreshold
| f_transitionDuration.

Definition field_type (x : Field) : Type :=
  match x with
  | f_scrollThreshold | f_transitionDuration => Z
  | _ => string
  end.

(** [c.x] *)
Definition field_get (x : Field) (c : Config) : field_type x :=
  match x with
  | f_containerSelector => containerSelector c
  | f_ctaBtnContainerSelector => ctaBtnContainerSelector c
  | f_logoContainerSelector => logoContainerSelector c
  | f_navbarMainSectionSelector => navbarMainSectionSelector c
  | f_navbarItemsSectionSelector => navbarItemsSectionSelector c
  | f_scrollThreshold => scrollThreshold c
  | f_transitionDuration => transitionDuration c
  end.

Definition no_options : Options :=
  mkOptions None None None None None None None.

(** [{x: v}] *)
Definition only (x : Field) : field_type x → Options :=
  match x with
  | f_containerSelector => fun v =>
      mkOptions (Some v) None None None None None None
  | f_ctaBtnContainerSelector => fun v =>
      mkOptions None (Some v) None None None None None
  | f_logoContainerSelector => fun v =>
      mkOptions None None (Some v) None None None None
  | f_navbarMainSectionSelector => fun v =>
      mkOptions None None None (Some v) None None None
  | f_navbarItemsSectionSelector => fun v =>
      mkOptions None None None None (Some v) None None
  | f_scrollThreshold => fun v =>
      mkOptions None None None None None (Some v) None
  | f_transitionDuration => fun v =>
      mkOptions None None None None None None (Some v)
  end.

(** ** A page with the markup of the README *)

(** What a document throws for the empty selector. *)
Definition empty_selector : JsError :=
  SyntaxError "Failed to execute 'querySelector' on 'Document': The provided selector is empty.".

(** [nav] is node 0; its children are the left padding (1), the main
    section (2) and the right padding (3); the main section holds the logo
    (4), the nav items (5) and the CTA container (6). *)
Definition readme_document : Document :=
  {| querySelector := fun selector =>
       if String.eqb selector EmptyString then Throws empty_selector
       else if String.eqb selector (framer_name "Main Navbar")
       then Returns (Some 0%nat)
       else if String.eqb selector (framer_name "Navbar Main Section")
       then Returns (Some 2%nat)
       else if String.eqb selector (framer_name "Logo")
       then Returns (Some 4%nat)
       else if String.eqb selector (framer_name "Nav Items")
       then Returns (Some 5%nat)
       else if String.eqb selector (framer_name "CTA Container")
       then Returns (Some 6%nat)
       else Returns None;
     parentElement := fun n =>
       match n with
       | 1%nat | 2%nat | 3%nat => Some 0%nat
       | 4%nat | 5%nat | 6%nat => Some 2%nat
       | _ => None
       end;
     children := fun n =>
       match n with
       | 0%nat => [1; 2; 3]%nat
       | 2%nat => [4; 5; 6]%nat
       | _ => []
       end |}.

(** A node rendered at some width, with no class and no inline style. *)
Definition rendered_at (width : Z) : Element :=
  {| classList := []; style := style blank; offsetWidth := width |}.

(** The paddings are 80 and 60 pixels wide, the page is loaded and at the
    top. *)
Definition readme_page : Page :=
  {| page_nodes := <[1%nat := rendered_at 80]> (<[3%nat := rendered_at 60]> ∅);
     page_scrollY := 0;
     page_readyState := complete |}.

(** The same page scrolled to offset 100 when the script runs. *)
Definition readme_page_at_100 : Page :=
  {| page_nodes := page_nodes readme_page;
     page_scrollY := 100;
     page_readyState := complete |}.

(** A document in which no selector matches. *)
Definition empty_document : Document :=
  {| querySelector := fun selector =>
       if String.eqb selector EmptyString then Throws empty_selector
       else Returns None;
     parentElement := fun _ => None;
     children := fun _ => [] |}.

(** The README markup without its nav items. *)
Definition no_items_document : Document :=
  {| querySelector := fun selector =>
       if String.eqb selector (framer_name "Nav Items") then Returns None
       else querySelector readme_document selector;
     parentElement := parentElement readme_document;
     children := children readme_document |}.

(** The README markup without its right padding. *)
Definition two_children_document : Document :=
  {| querySelector := querySelector readme_document;
     parentElement := parentElement readme_document;
     children := fun n =>
       match n with
       | 0%nat => [1; 2]%nat
       | 2%nat => [4; 5; 6]%nat
       | _ => []
       end |}.

Definition readme_world : World :=
  new_CustomNavbarEffects readme_document no_options readme_page.

(** The README page after its left padding collapsed to zero width and the
    window was resized. *)
Definition collapsed_world : World :=
  step Resize (step (Layout 1%nat 0) readme_world).

(** ** Vocabulary of the further statements *)

(** The events of the page, as opposed to calls of the public methods. *)
Definition page_event (ev : Event) : bool :=
  match ev with
  | CallUpdateConfig _ | CallDestroy => false
  | _ => true
  end.

(** The two class names the controller toggles. *)
Definition marker (token : string) : bool :=
  String.eqb token "scroll-up" || String.eqb token "scroll-down".

(** The text of the two transition declarations for a duration. *)
Definition opacity_transition (duration : Z) : string :=
  "opacity " +:+ Number_toString duration +:+ "ms ease-in-out".

Definition width_transition (duration : Z) : string :=
  "width " +:+ Number_toString duration +:+ "ms ease-in-out".

(** While the controller is initialized it listens for resize. *)
Definition resize_listens (w : World) : Prop :=
  isInitialized (scrollState w) = true → on_resize (listeners w) = true.

(** The README page while the document is still being parsed. *)
Definition loading_page : Page :=
  {| page_nodes := page_nodes readme_page;
     page_scrollY := 0;
     page_readyState := loading |}.

(** A document whose main section is the root element: every required
    selector matches, and the main section has no parent element. *)
Definition orphan_document : Document :=
  {| querySelector := querySelector readme_document;
     parentElement := fun _ => None;
     children := children readme_document |}.

(** The five lookups of [cacheElements] return, the three required ones
    with an element, and the main section has a parent element: what
    [cacheElements] needs to return. *)
Definition resolvable (document : Document) (cfg : Config) : Prop :=
  ∃ c cta logo main i parent,
    querySelector document (containerSelector cfg) = Returns (Some c)
    ∧ querySelector document (ctaBtnContainerSelector cfg) = Returns cta
    ∧ querySelector document (logoContainerSelector cfg) = Returns logo
    ∧ querySelector document (navbarMainSectionSelector cfg)
      = Returns (Some main)
    ∧ querySelector document (navbarItemsSectionSelector cfg)
      = Returns (Some i)
    ∧ parentElement document main = Some parent.

(** ** Proof tools *)

Ltac js_unfold :=
  unfold handleScroll, updateNavbarState, showNavbar, hideNavbar, handleResize,
    handleLoad, updateDimensions, setupTransitions, updateConfig, destroy,
    bindEvents, classList_do, set_width, set_opacity, set_transition,
    when_present, deref, bind, read, update, ret, throw in *.

Ltac split_world w :=
  destruct w as [[? [? ? ? ? ? ? ?] [? ?] [? ? ?]] ? ? ? ? ?];
  unfold elems, config, dimensions, scrollState in *; simpl in *.

(** ** The node store *)

Lemma node_get_update n m f w :
  node_get m (node_update n f w)
  = if decide (n = m) then f (node_get n w) else node_get m w.
Proof.
  unfold node_get, node_update, with_nodes; simpl.
  rewrite lookup_insert. case_decide; reflexivity.
Qed.

Lemma node_get_opt_update o m f w :
  node_get m (opt_update o f w)
  = if decide (o = Some m) then f (node_get m w) else node_get m w.
Proof.
  destruct o as [n|]; unfold opt_update.
  - rewrite node_get_update.
    destruct (decide (n = m)), (decide (Some n = Some m)); congruence.
  - destruct (decide (None = Some m)); [discriminate | reflexivity].
Qed.


Lemma this_opt_update o f w : this (opt_update o f w) = this w.
Proof. destruct o; reflexivity. Qed.


(** ** The class list *)

Lemma classList_remove_gone token l : ¬ In token (classList_remove token l).
Proof.
  unfold classList_remove. rewrite filter_In. intros [_ H].
  rewrite String.eqb_refl in H. discriminate.
Qed.


Lemma classList_add_there token l : In token (classList_add token l).
Proof.
  unfold classList_add. destruct (existsb (String.eqb token) l) eqn:E.
  - apply existsb_exists in E as (x & Hin & Heq).
    apply String.eqb_eq in Heq. subst. exact Hin.
  - apply in_or_app. right. left. reflexivity.
Qed.

Lemma classList_add_other token other l :
  other ≠ token → In other (classList_add token l) ↔ In other l.
Proof.
  intros Hne. unfold classList_add.
  destruct (existsb (String.eqb token) l); [tauto|].
  rewrite in_app_iff. simpl. split; [|tauto].
  intros [H | [H | []]]; [exact H | congruence].
Qed.

(** ** What each method does, as a function on worlds *)

Arguments Number_toString : simpl never.


Lemma updateDimensions_eq w : updateDimensions w = (Normal tt, measured w).
Proof.
  split_world w. js_unfold. unfold measured, measure, elems, px; simpl.
  destruct leftEmpty0, rightEmpty0; reflexivity.
Qed.

Lemma setupTransitions_eq w :
  setupTransitions w = (Normal tt, transitions_set w).
Proof.
  split_world w. js_unfold.
  unfold transitions_set, opt_update, elems, config; simpl.
  destruct navbarItemsSection0, leftEmpty0, rightEmpty0; reflexivity.
Qed.

Lemma showNavbar_eq w c :
  container (elems w) = Some c → showNavbar w = (Normal tt, shown c w).
Proof.
  split_world w. intros ->. js_unfold.
  unfold shown, restore, mark, opt_update, elems, dimensions, px,
    node_update, with_nodes; simpl.
  destruct navbarItemsSection0, leftEmpty0, rightEmpty0,
    leftEmptyWidth0 as [[|l|l]|], rightEmptyWidth0 as [[|r|r]|]; reflexivity.
Qed.

Lemma hideNavbar_eq w c :
  container (elems w) = Some c → hideNavbar w = (Normal tt, hidden c w).
Proof.
  split_world w. intros ->. js_unfold.
  unfold hidden, mark, opt_update, elems; simpl.
  destruct navbarItemsSection0, leftEmpty0, rightEmpty0; reflexivity.
Qed.

Lemma handleLoad_eq w :
  handleLoad w
  = (Normal tt,
     with_this (fun t =>
       with_scrollState (with_lastScrollY (scrollY w) (this_scrollState t)) t)
       (measured w)).
Proof.
  unfold handleLoad, bind. rewrite updateDimensions_eq.
  unfold read, update.
  replace (scrollY (measured w)) with (scrollY w); [reflexivity|].
  unfold measured, measure.
  destruct (rightEmpty _), (leftEmpty _); reflexivity.
Qed.

Lemma handleScroll_eq w c :
  isInitialized (scrollState w) = true →
  scrollThreshold (config w) ≤ Z.abs (scrollY w - lastScrollY (scrollState w)) →
  container (elems w) = Some c →
  handleScroll w
  = (Normal tt,
     with_this (fun t =>
       with_scrollState (with_lastScrollY (scrollY w) (this_scrollState t)) t)
       (if scrollY w <? lastScrollY (scrollState w)
        then shown c w else hidden c w)).
Proof.
  intros Hinit Hfar Hc. unfold handleScroll, bind, read, ret.
  rewrite Hinit. simpl.
  apply Z.ltb_ge in Hfar. rewrite Hfar.
  unfold updateNavbarState.
  destruct (scrollY w <? lastScrollY (scrollState w)).
  - rewrite (showNavbar_eq w c Hc). reflexivity.
  - rewrite (hideNavbar_eq w c Hc). reflexivity.
Qed.

(** ** Sub-threshold scrolling *)

Lemma handleScroll_uninitialized w :
  isInitialized (scrollState w) = false → handleScroll w = (Normal tt, w).
Proof.
  intros H. unfold handleScroll, bind, read, ret. rewrite H. reflexivity.
Qed.

Lemma handleScroll_quiet w :
  Z.abs (scrollY w - lastScrollY (scrollState w)) < scrollThreshold (config w) →
  handleScroll w = (Normal tt, w).
Proof.
  intros Hlt. unfold handleScroll, bind, read, ret.
  destruct (isInitialized (scrollState w)); simpl; [|reflexivity].
  apply Z.ltb_lt in Hlt. rewrite Hlt. reflexivity.
Qed.

Lemma dispatch_returns registered handler w :
  handler w = (Normal tt, w) → dispatch registered handler w = w.
Proof. intros H. unfold dispatch. rewrite H. destruct registered; reflexivity. Qed.

(** C3: a scroll event whose distance from the last recorded offset is below
    the threshold changes nothing: the handler returns the world it was
    given, so no class, no style and no field of the scroll state (among
    them [lastScrollY]) is touched, and the event as a whole leaves
    everything but the window's own scroll offset as it was. *)
Theorem sub_threshold_scroll_changes_nothing (w : World) (y : Z) :
  Z.abs (y - lastScrollY (scrollState w)) < scrollThreshold (config w) →
  handleScroll (with_scrollY y w) = (Normal tt, with_scrollY y w)
  ∧ step (ScrollTo y) w = with_scrollY y w
  ∧ nodes (step (ScrollTo y) w) = nodes w
  ∧ this (step (ScrollTo y) w) = this w
  ∧ lastScrollY (getScrollState (step (ScrollTo y) w))
    = lastScrollY (getScrollState w).
Proof.
  intros Hlt.
  assert (Hq : handleScroll (with_scrollY y w) = (Normal tt, with_scrollY y w))
    by (apply handleScroll_quiet; exact Hlt).
  assert (Hs : step (ScrollTo y) w = with_scrollY y w)
    by (simpl; apply dispatch_returns; exact Hq).
  rewrite Hs. split; [exact Hq|]. repeat (split; [reflexivity|]). reflexivity.
Qed.

Lemma sub_threshold_scroll_changes_nothing_witness :
  step (ScrollTo 3) readme_world = with_scrollY 3 readme_world
  ∧ lastScrollY (getScrollState (step (ScrollTo 3) readme_world)) = 0.
Proof.
  destruct (sub_threshold_scroll_changes_nothing readme_world 3)
    as (_ & Hstep & _ & _ & Hlast).
  - vm_compute. reflexivity.
  - split; [exact Hstep | rewrite Hlast; vm_compute; reflexivity].
Defined.

(** ** Frames: what the world functions leave alone *)

Lemma this_restore o d w : this (restore o d w) = this w.
Proof.
  unfold restore. destruct o, d; try reflexivity.
  destruct (truthy_num _); reflexivity.
Qed.


Lemma this_shown c w : this (shown c w) = this w.
Proof.
  unfold shown. rewrite !this_restore, this_opt_update. reflexivity.
Qed.

Lemma this_hidden c w : this (hidden c w) = this w.
Proof. unfold hidden. rewrite !this_opt_update. reflexivity. Qed.

Lemma this_transitions_set w : this (transitions_set w) = this w.
Proof. unfold transitions_set. rewrite !this_opt_update. reflexivity. Qed.

Lemma rest_opt_update o f w :
  listeners (opt_update o f w) = listeners w
  ∧ console (opt_update o f w) = console w.
Proof. destruct o; split; reflexivity. Qed.

Lemma rest_restore o d w :
  listeners (restore o d w) = listeners w
  ∧ console (restore o d w) = console w.
Proof.
  unfold restore. destruct o, d; try (split; reflexivity).
  destruct (truthy_num _); split; reflexivity.
Qed.

Lemma rest_shown c w :
  listeners (shown c w) = listeners w ∧ console (shown c w) = console w.
Proof.
  unfold shown.
  destruct (rest_restore (rightEmpty (elems w)) (rightEmptyWidth (dimensions w))
    (restore (leftEmpty (elems w)) (leftEmptyWidth (dimensions w))
       (opt_update (navbarItemsSection (elems w)) (with_opacity "1")
          (mark c "scroll-down" "scroll-up" w)))) as [-> ->].
  destruct (rest_restore (leftEmpty (elems w)) (leftEmptyWidth (dimensions w))
       (opt_update (navbarItemsSection (elems w)) (with_opacity "1")
          (mark c "scroll-down" "scroll-up" w))) as [-> ->].
  destruct (rest_opt_update (navbarItemsSection (elems w)) (with_opacity "1")
          (mark c "scroll-down" "scroll-up" w)) as [-> ->].
  split; reflexivity.
Qed.

Lemma rest_hidden c w :
  listeners (hidden c w) = listeners w ∧ console (hidden c w) = console w.
Proof.
  unfold hidden.
  destruct (rightEmpty (elems w)), (leftEmpty (elems w)),
    (navbarItemsSection (elems w)); split; reflexivity.
Qed.

Lemma rest_transitions_set w :
  listeners (transitions_set w) = listeners w
  ∧ console (transitions_set w) = console w.
Proof.
  unfold transitions_set.
  destruct (rightEmpty (elems w)), (leftEmpty (elems w)),
    (navbarItemsSection (elems w)); split; reflexivity.
Qed.

Lemma frame_measured w :
  config (measured w) = config w
  ∧ elems (measured w) = elems w
  ∧ scrollState (measured w) = scrollState w
  ∧ listeners (measured w) = listeners w
  ∧ console (measured w) = console w.
Proof.
  unfold measured, measure.
  destruct (rightEmpty (elems w)), (leftEmpty (elems w));
    repeat (split; [reflexivity|]); reflexivity.
Qed.

(** ** Inline widths *)

Lemma node_get_restore o d m w :
  node_get m (restore o d w)
  = if decide (o = Some m) then
      match d with
      | Some x =>
          if truthy_num (Some x) then with_width (px x) (node_get m w)
          else node_get m w
      | None => node_get m w
      end
    else node_get m w.
Proof.
  unfold restore. destruct o as [n|], d as [x|];
    try (destruct (decide _); [discriminate || reflexivity | reflexivity]).
  - destruct (truthy_num (Some x)).
    + rewrite node_get_update.
      destruct (decide (n = m)), (decide (Some n = Some m)); congruence.
    + destruct (decide _); reflexivity.
Qed.

Lemma width_mark c gone there n w :
  width (style (node_get n (mark c gone there w))) = width (style (node_get n w)).
Proof.
  unfold mark. rewrite !node_get_update.
  destruct (decide (c = n)) as [->|]; [|reflexivity].
  destruct (decide (n = n)); [reflexivity | congruence].
Qed.

Lemma width_opt_update_opacity o v n w :
  width (style (node_get n (opt_update o (with_opacity v) w)))
  = width (style (node_get n w)).
Proof. rewrite node_get_opt_update. destruct (decide _); reflexivity. Qed.

Lemma width_opt_update_transition o v n w :
  width (style (node_get n (opt_update o (with_transition v) w)))
  = width (style (node_get n w)).
Proof. rewrite node_get_opt_update. destruct (decide _); reflexivity. Qed.

Lemma width_transitions_set n w :
  width (style (node_get n (transitions_set w))) = width (style (node_get n w)).
Proof.
  unfold transitions_set. rewrite !width_opt_update_transition. reflexivity.
Qed.

Lemma width_hidden c n w :
  leftEmpty (elems w) = Some n ∨ rightEmpty (elems w) = Some n →
  width (style (node_get n (hidden c w))) = "0px".
Proof.
  intros Hn. unfold hidden. rewrite !node_get_opt_update.
  destruct (decide (rightEmpty (elems w) = Some n)); [reflexivity|].
  destruct (decide (leftEmpty (elems w) = Some n)); [reflexivity|].
  tauto.
Qed.

Lemma width_shown_inner c n w :
  width (style (node_get n
    (opt_update (navbarItemsSection (elems w)) (with_opacity "1")
       (mark c "scroll-down" "scroll-up" w))))
  = width (style (node_get n w)).
Proof. rewrite width_opt_update_opacity, width_mark. reflexivity. Qed.

Lemma truthy_num_0 : truthy_num (Some 0) = false.
Proof. reflexivity. Qed.

Lemma width_restored x e :
  (x = 0 → width (style e) = "0px") →
  width (style (if truthy_num (Some x) then with_width (px x) e else e)) = px x.
Proof.
  intros Hz. unfold truthy_num. destruct (Z.eqb_spec x 0) as [->|_]; simpl.
  - rewrite Hz; reflexivity.
  - reflexivity.
Qed.

(** After [showNavbar] a spacer that is present has its recorded width. *)
Lemma width_shown_left c n m w :
  consistent w →
  leftEmpty (elems w) = Some n → leftEmptyWidth (dimensions w) = Some m →
  width (style (node_get n (shown c w))) = px m.
Proof.
  intros Hw Hn Hm. unfold shown. rewrite !node_get_restore.
  destruct (left_spacer_ok w Hw n Hn) as (m' & Hm' & Hzero).
  assert (m' = m) by congruence. subst m'.
  rewrite Hn, Hm.
  destruct (decide (Some n = Some n)); [|congruence].
  destruct (decide (rightEmpty (elems w) = Some n)) as [Hr|_].
  - rewrite <- (one_node_one_width w Hw n Hn Hr), Hm.
    apply width_restored. intros ->. rewrite truthy_num_0.
    rewrite width_shown_inner. auto.
  - apply width_restored. rewrite width_shown_inner. exact Hzero.
Qed.

Lemma width_shown_right c n m w :
  consistent w →
  rightEmpty (elems w) = Some n → rightEmptyWidth (dimensions w) = Some m →
  width (style (node_get n (shown c w))) = px m.
Proof.
  intros Hw Hn Hm. unfold shown. rewrite !node_get_restore.
  destruct (right_spacer_ok w Hw n Hn) as (m' & Hm' & Hzero).
  assert (m' = m) by congruence. subst m'.
  rewrite Hn, Hm.
  destruct (decide (Some n = Some n)); [|congruence].
  apply width_restored. intros ->.
  destruct (decide (leftEmpty (elems w) = Some n)) as [Hl|_].
  - rewrite (one_node_one_width w Hw n Hl Hn), Hm, truthy_num_0.
    rewrite width_shown_inner. auto.
  - rewrite width_shown_inner. auto.
Qed.

(** ** The controller stays consistent *)

Lemma consistent_frame w w' :
  elems w' = elems w → dimensions w' = dimensions w →
  isInitialized (scrollState w') = isInitialized (scrollState w) →
  listeners w' = listeners w →
  (∀ n, width (style (node_get n w')) = width (style (node_get n w))) →
  consistent w → consistent w'.
Proof.
  intros He Hd Hi Hl Hw [H1 H2 H3 H4 H5 H6].
  split; rewrite ?He, ?Hd, ?Hi, ?Hl; try assumption.
  - intros n Hn. destruct (H4 n Hn) as (m & ? & ?).
    exists m. rewrite Hw. auto.
  - intros n Hn. destruct (H5 n Hn) as (m & ? & ?).
    exists m. rewrite Hw. auto.
Qed.

Lemma consistent_shown c w : consistent w → consistent (shown c w).
Proof.
  intros Hw.
  assert (Ht := this_shown c w). destruct (rest_shown c w) as [Hl _].
  split; unfold elems, dimensions, scrollState in *; rewrite ?Ht, ?Hl;
    try apply Hw.
  - intros n Hn. destruct (left_spacer_ok w Hw n Hn) as (m & Hm & _).
    exists m. split; [exact Hm|]. intros ->.
    exact (width_shown_left c n 0 w Hw Hn Hm).
  - intros n Hn. destruct (right_spacer_ok w Hw n Hn) as (m & Hm & _).
    exists m. split; [exact Hm|]. intros ->.
    exact (width_shown_right c n 0 w Hw Hn Hm).
Qed.

Lemma consistent_hidden c w : consistent w → consistent (hidden c w).
Proof.
  intros Hw.
  assert (Ht := this_hidden c w). destruct (rest_hidden c w) as [Hl _].
  split; unfold elems, dimensions, scrollState in *; rewrite ?Ht, ?Hl;
    try apply Hw.
  - intros n Hn. destruct (left_spacer_ok w Hw n Hn) as (m & Hm & _).
    exists m. split; [exact Hm|]. intros _. apply width_hidden. left. exact Hn.
  - intros n Hn. destruct (right_spacer_ok w Hw n Hn) as (m & Hm & _).
    exists m. split; [exact Hm|]. intros _. apply width_hidden. right. exact Hn.
Qed.

Lemma node_get_with_this n f w : node_get n (with_this f w) = node_get n w.
Proof. reflexivity. Qed.

Lemma node_get_measure o record m w :
  node_get m (measure o record w)
  = if decide (o = Some m)
    then with_width (px (offsetWidth (node_get m w))) (node_get m w)
    else node_get m w.
Proof.
  unfold measure. destruct o as [n|].
  - rewrite node_get_update, !node_get_with_this.
    destruct (decide (n = m)), (decide (Some n = Some m)); congruence.
  - destruct (decide _); [discriminate | reflexivity].
Qed.

Lemma offsetWidth_measure o record m w :
  offsetWidth (node_get m (measure o record w)) = offsetWidth (node_get m w).
Proof. rewrite node_get_measure. destruct (decide _); reflexivity. Qed.

Lemma dimensions_measure o record w :
  dimensions (measure o record w)
  = match o with
    | Some n => record (offsetWidth (node_get n w)) (dimensions w)
    | None => dimensions w
    end.
Proof. destruct o; reflexivity. Qed.


(** [updateDimensions] establishes the spacer part from any world. *)
Lemma measured_spacers w :
  spacer_ok (leftEmpty (elems w)) (leftEmptyWidth (dimensions (measured w)))
    (measured w)
  ∧ spacer_ok (rightEmpty (elems w)) (rightEmptyWidth (dimensions (measured w)))
      (measured w)
  ∧ (∀ n, leftEmpty (elems w) = Some n → rightEmpty (elems w) = Some n →
       leftEmptyWidth (dimensions (measured w))
       = rightEmptyWidth (dimensions (measured w))).
Proof.
  unfold measured, spacer_ok.
  rewrite !dimensions_measure.
  split; [|split].
  - intros n Hn. rewrite Hn.
    exists (offsetWidth (node_get n w)). split.
    + destruct (rightEmpty (elems w)); reflexivity.
    + intros Hz. rewrite !node_get_measure.
      destruct (decide (Some n = Some n)); [|congruence].
      destruct (decide (rightEmpty (elems w) = Some n)); simpl;
        rewrite ?Hz; reflexivity.
  - intros n Hn. rewrite Hn. cbn [rightEmptyWidth with_rightEmptyWidth].
    eexists. split; [reflexivity|].
    intros Hz. rewrite node_get_measure.
    destruct (decide (Some n = Some n)); [|congruence].
    cbn [width style with_width]. rewrite Hz. reflexivity.
  - intros n Hl Hr. rewrite Hl, Hr.
    cbn [rightEmptyWidth with_rightEmptyWidth leftEmptyWidth
         with_leftEmptyWidth].
    rewrite offsetWidth_measure. reflexivity.
Qed.

Lemma consistent_measured w : consistent w → consistent (measured w).
Proof.
  intros Hw.
  destruct (frame_measured w) as (_ & He & Hs & Hl & _).
  destruct (measured_spacers w) as (H4 & H5 & H6).
  split; rewrite ?He, ?Hs, ?Hl; try apply Hw; assumption.
Qed.

Lemma consistent_last y w :
  consistent w →
  consistent (with_this (fun t =>
    with_scrollState (with_lastScrollY y (this_scrollState t)) t) w).
Proof. apply consistent_frame; reflexivity. Qed.

Lemma consistent_handleScroll w :
  consistent w → consistent (snd (handleScroll w)).
Proof.
  intros Hw.
  destruct (isInitialized (scrollState w)) eqn:Hinit.
  2: { rewrite handleScroll_uninitialized by exact Hinit. exact Hw. }
  destruct (Z_lt_le_dec (Z.abs (scrollY w - lastScrollY (scrollState w)))
                        (scrollThreshold (config w))) as [Hnear|Hfar].
  { rewrite handleScroll_quiet by exact Hnear. exact Hw. }
  destruct (initialized_container w Hw Hinit) as [c Hc].
  rewrite (handleScroll_eq w c Hinit Hfar Hc). simpl.
  apply consistent_last.
  destruct (scrollY w <? lastScrollY (scrollState w)).
  - apply consistent_shown, Hw.
  - apply consistent_hidden, Hw.
Qed.

Lemma handleScroll_returns w :
  consistent w → fst (handleScroll w) = Normal tt.
Proof.
  intros Hw.
  destruct (isInitialized (scrollState w)) eqn:Hinit.
  2: { rewrite handleScroll_uninitialized by exact Hinit. reflexivity. }
  destruct (Z_lt_le_dec (Z.abs (scrollY w - lastScrollY (scrollState w)))
                        (scrollThreshold (config w))) as [Hnear|Hfar].
  { rewrite handleScroll_quiet by exact Hnear. reflexivity. }
  destruct (initialized_container w Hw Hinit) as [c Hc].
  rewrite (handleScroll_eq w c Hinit Hfar Hc). reflexivity.
Qed.

Lemma consistent_step ev w : consistent w → consistent (step ev w).
Proof.
  intros Hw. destruct ev as [y|n rendered| | |newConfig|]; simpl.
  - assert (Hy : consistent (with_scrollY y w))
      by (revert Hw; apply consistent_frame; reflexivity).
    unfold dispatch. destruct (on_scroll (listeners w)); [|exact Hy].
    pose proof (consistent_handleScroll _ Hy) as H.
    pose proof (handleScroll_returns _ Hy) as Hr.
    destruct (handleScroll (with_scrollY y w)) as [[a|e] w'];
      [exact H | discriminate].
  - revert Hw. apply consistent_frame; try reflexivity.
    intros m. rewrite node_get_update. destruct (decide _); subst; reflexivity.
  - unfold dispatch, handleResize. rewrite updateDimensions_eq.
    destruct (on_resize (listeners w)); [|exact Hw].
    apply consistent_measured, Hw.
  - destruct (readyState w); try exact Hw.
    assert (Hr : consistent (with_readyState interactive w))
      by (revert Hw; apply consistent_frame; reflexivity).
    unfold dispatch. rewrite handleLoad_eq.
    destruct (on_DOMContentLoaded _); [|exact Hr].
    apply consistent_last, consistent_measured, Hr.
  - unfold updateConfig, bind, update.
    assert (Hc : consistent (with_this (fun t =>
               with_config (spread (this_config t) newConfig) t) w))
      by (revert Hw; apply consistent_frame; reflexivity).
    destruct (truthy_num _); [|exact Hc].
    rewrite setupTransitions_eq. simpl.
    revert Hc. apply consistent_frame;
      unfold elems, dimensions, scrollState;
      rewrite ?this_transitions_set; try reflexivity.
    + apply rest_transitions_set.
    + intros n. apply width_transitions_set.
  - split; simpl; try discriminate; apply Hw.
Qed.

(** ** Construction *)

Lemma missingElements_spec key e :
  In key (missingElements e)
  ↔ In key requiredElements ∧ element_at key e = None.
Proof.
  unfold missingElements. rewrite filter_In.
  destruct (element_at key e); simpl; intuition congruence.
Qed.

Lemma missingElements_nil e :
  missingElements e = []
  ↔ is_Some (container e) ∧ is_Some (navbarMainSection e)
    ∧ is_Some (navbarItemsSection e).
Proof.
  unfold missingElements, requiredElements, element_at. simpl.
  destruct (container e), (navbarMainSection e), (navbarItemsSection e);
    simpl; split; try discriminate; try (intros (H1 & H2 & H3));
    try (repeat split; eauto; fail);
    try (exfalso; first [apply is_Some_None in H1 | apply is_Some_None in H2
                        | apply is_Some_None in H3]; assumption).
Qed.

Lemma elems_with_elements e w : elems (with_this (with_elements e) w) = e.
Proof. reflexivity. Qed.

(** The names [missingElements] lists are the required roles whose field
    is empty, role by role. *)
Lemma missingElements_roles e : missingElements e = missing_roles e.
Proof.
  unfold missingElements, missing_roles, requiredElements, element_at.
  cbn [List.filter String.eqb Ascii.eqb Bool.eqb].
  destruct (container e), (navbarMainSection e), (navbarItemsSection e);
    reflexivity.
Qed.

Lemma lookups_spacers document cfg e :
  lookups document cfg = Normal e →
  leftEmpty e = None ∧ rightEmpty e = None.
Proof.
  unfold lookups. intros H.
  repeat match type of H with
         | match ?q with Returns _ => _ | Throws _ => _ end = _ =>
             destruct q; [|discriminate]
         end.
  injection H as <-. split; reflexivity.
Qed.

(** [cacheElements], lookups first. *)
Lemma cacheElements_eq document w :
  cacheElements document w
  = match lookups document (config w) with
    | Throw err => (Throw err, w)
    | Normal e =>
        if (0 <? length (missingElements e))%nat then
          (Throw (Error ("Required elements not found: "
                         +:+ join ", " (missingElements e))),
           with_this (with_elements e) w)
        else
          match navbarMainSection e with
          | None =>
              (Throw (TypeError
                 "Cannot read properties of null (reading 'parentElement')"),
               with_this (with_elements e) w)
          | Some main =>
              match parentElement document main with
              | None =>
                  (Throw (TypeError
                     "Cannot read properties of null (reading 'children')"),
                   with_this (with_elements e) w)
              | Some parent =>
                  (Normal tt,
                   with_this (with_elements
                     (with_rightEmpty (children document parent !! 2%nat)
                        (with_leftEmpty (children document parent !! 0%nat)
                           e))) w)
              end
          end
    end.
Proof.
  unfold cacheElements, lookups, query, bind, read, update, throw, deref, ret.
  destruct (querySelector document (containerSelector (config w)));
    [|reflexivity].
  destruct (querySelector document (ctaBtnContainerSelector (config w)));
    [|reflexivity].
  destruct (querySelector document (logoContainerSelector (config w)));
    [|reflexivity].
  destruct (querySelector document (navbarMainSectionSelector (config w)))
    as [main|]; [|reflexivity].
  destruct (querySelector document (navbarItemsSectionSelector (config w)));
    [|reflexivity].
  rewrite !elems_with_elements.
  destruct (0 <? length (missingElements _))%nat; [reflexivity|].
  cbn [navbarMainSection]. destruct main as [main|]; [|reflexivity].
  destruct (parentElement document main); reflexivity.
Qed.

Lemma cacheElements_invalid document w err :
  lookups document (config w) = Throw err →
  cacheElements document w = (Throw err, w).
Proof. intros H. rewrite cacheElements_eq, H. reflexivity. Qed.

Lemma cacheElements_missing document w e :
  lookups document (config w) = Normal e →
  missingElements e ≠ [] →
  cacheElements document w
  = (Throw (Error ("Required elements not found: "
                   +:+ join ", " (missingElements e))),
     with_this (with_elements e) w).
Proof.
  intros He Hm. rewrite cacheElements_eq, He.
  destruct (missingElements e); [congruence | reflexivity].
Qed.

Lemma cacheElements_found document w e main parent :
  lookups document (config w) = Normal e →
  missingElements e = [] →
  navbarMainSection e = Some main →
  parentElement document main = Some parent →
  cacheElements document w
  = (Normal tt,
     with_this (with_elements
       (with_rightEmpty (children document parent !! 2%nat)
          (with_leftEmpty (children document parent !! 0%nat) e))) w).
Proof.
  intros He Hm Hmain Hparent.
  rewrite cacheElements_eq, He, Hm, Hmain, Hparent. reflexivity.
Qed.

Lemma cacheElements_orphan document w e main :
  lookups document (config w) = Normal e →
  missingElements e = [] →
  navbarMainSection e = Some main →
  parentElement document main = None →
  ∃ message,
    cacheElements document w
    = (Throw (TypeError message), with_this (with_elements e) w).
Proof.
  intros He Hm Hmain Hparent.
  rewrite cacheElements_eq, He, Hm, Hmain, Hparent. eauto.
Qed.

Lemma bindEvents_eq w : bindEvents w = (Normal tt, bound w).
Proof.
  unfold bindEvents, bound, bind, read, update. simpl.
  destruct (readyState w) eqn:E; try reflexivity.
  - rewrite handleLoad_eq. reflexivity.
  - rewrite handleLoad_eq. reflexivity.
Qed.

Lemma init_ok document w w1 :
  cacheElements document w = (Normal tt, w1) →
  init document w = (Normal tt, initialized (bound (transitions_set w1))).
Proof.
  intros Hc. unfold init, try_catch, bind. rewrite Hc.
  rewrite setupTransitions_eq, bindEvents_eq, updateDimensions_eq.
  reflexivity.
Qed.

Lemma init_failed document w e w1 :
  cacheElements document w = (Throw e, w1) →
  init document w
  = (Normal tt,
     console_error "CustomNavbarEffects initialization failed:" e w1).
Proof.
  intros Hc. unfold init, try_catch, bind. rewrite Hc. reflexivity.
Qed.

(** [init] catches whatever it throws. *)
Lemma init_returns document w : fst (init document w) = Normal tt.
Proof.
  destruct (cacheElements document w) as [[[]|e] w1] eqn:Hc.
  - rewrite (init_ok _ _ _ Hc). reflexivity.
  - rewrite (init_failed _ _ _ _ Hc). reflexivity.
Qed.

Lemma frame_bound w :
  config (bound w) = config w
  ∧ elems (bound w) = elems w
  ∧ isInitialized (scrollState (bound w)) = isInitialized (scrollState w)
  ∧ on_scroll (listeners (bound w)) = true
  ∧ console (bound w) = console w.
Proof.
  unfold bound. destruct (readyState w);
    try (repeat (split; [reflexivity|]); reflexivity).
  all: match goal with
       | |- context [measured ?x] =>
           destruct (frame_measured x) as (Hc & He & Hs & Hl & Ho)
       end.
  all: unfold config, elems, scrollState in *; simpl.
  all: rewrite ?Hc, ?He, ?Hs, ?Hl, ?Ho; repeat (split; [reflexivity|]); reflexivity.
Qed.

Lemma consistent_initialized w :
  is_Some (container (elems w)) → is_Some (navbarItemsSection (elems w)) →
  on_scroll (listeners w) = true →
  consistent (initialized w).
Proof.
  intros Hc Hi Hl. unfold initialized.
  destruct (frame_measured w) as (_ & He & _ & Hl' & _).
  destruct (measured_spacers w) as (H4 & H5 & H6).
  split; unfold elems, dimensions, scrollState in *; simpl; rewrite ?He, ?Hl';
    auto.
Qed.

(** How [cacheElements] can end on the object the constructor has just
    built: it throws, with no spacer in the element cache, or it returns
    with the three required elements and the spacers in it. *)
Lemma cacheElements_cases document options page :
  (∃ err els,
     leftEmpty els = None ∧ rightEmpty els = None
     ∧ cacheElements document (fresh options page)
       = (Throw err, with_this (with_elements els) (fresh options page)))
  ∨ (∃ e main parent,
       lookups document (spread defaults options) = Normal e
       ∧ missingElements e = []
       ∧ navbarMainSection e = Some main
       ∧ parentElement document main = Some parent
       ∧ cacheElements document (fresh options page)
         = (Normal tt,
            with_this (with_elements
              (with_rightEmpty (children document parent !! 2%nat)
                 (with_leftEmpty (children document parent !! 0%nat) e)))
              (fresh options page))).
Proof.
  destruct (lookups document (spread defaults options)) as [e|err] eqn:He.
  2: { left. exists err, (mkElements None None None None None None None).
       split; [reflexivity|]. split; [reflexivity|].
       apply (cacheElements_invalid document (fresh options page) err He). }
  destruct (lookups_spacers _ _ _ He) as [Hl Hr].
  destruct (missingElements e) as [|k ks] eqn:Hm.
  - destruct (proj1 (missingElements_nil _) Hm) as (_ & [main Hmain] & _).
    destruct (parentElement document main) as [parent|] eqn:Hp.
    + right. exists e, main, parent.
      split; [reflexivity|]. split; [exact Hm|]. split; [exact Hmain|].
      split; [exact Hp|].
      apply (cacheElements_found document (fresh options page) e main parent
               He Hm Hmain Hp).
    + left.
      destruct (cacheElements_orphan document (fresh options page) e main
                  He Hm Hmain Hp) as [message Hthrow].
      exists (TypeError message), e. auto.
  - left. eexists. exists e. split; [exact Hl|]. split; [exact Hr|].
    apply (cacheElements_missing document (fresh options page) e He).
    rewrite Hm. discriminate.
Qed.

Lemma consistent_new document options page :
  consistent (new_CustomNavbarEffects document options page).
Proof.
  unfold new_CustomNavbarEffects.
  destruct (cacheElements_cases document options page)
    as [(err & els & Hl & Hr & He) | (e & main & parent & _ & Hm & _ & _ & Hc)].
  - rewrite (init_failed _ _ _ _ He). cbn [snd].
    split; unfold elems, dimensions, scrollState, spacer_ok;
      cbn [this console_error with_this this_elements with_elements
           this_scrollState this_dimensions fresh isInitialized];
      rewrite ?Hl, ?Hr; discriminate.
  - rewrite (init_ok _ _ _ Hc). cbn [snd].
    apply missingElements_nil in Hm as (Hcont & _ & Hitems).
    match goal with |- consistent (initialized (bound ?x)) =>
      destruct (frame_bound x) as (_ & He & _ & Hl & _) end.
    apply consistent_initialized; rewrite ?He; unfold elems;
      rewrite ?this_transitions_set; assumption.
Qed.

Theorem reachable_consistent document w :
  reachable document w → consistent w.
Proof.
  induction 1 as [options page | ev w _ IH].
  - apply consistent_new.
  - apply consistent_step, IH.
Qed.

(** ** Scrolling while the controller is not initialized *)

Lemma step_scroll_uninitialized y w :
  isInitialized (scrollState w) = false →
  step (ScrollTo y) w = with_scrollY y w.
Proof.
  intros H. simpl. apply dispatch_returns.
  apply handleScroll_uninitialized. exact H.
Qed.

Lemma run_cons ev evs w : run (ev :: evs) w = run evs (step ev w).
Proof. reflexivity. Qed.

Lemma run_scrolls_uninitialized ys w :
  isInitialized (scrollState w) = false →
  this (run (map ScrollTo ys) w) = this w
  ∧ nodes (run (map ScrollTo ys) w) = nodes w
  ∧ listeners (run (map ScrollTo ys) w) = listeners w
  ∧ console (run (map ScrollTo ys) w) = console w.
Proof.
  revert w. induction ys as [|y ys IH]; intros w H.
  - repeat split.
  - change (map ScrollTo (y :: ys)) with (ScrollTo y :: map ScrollTo ys).
    rewrite run_cons, step_scroll_uninitialized by exact H.
    apply (IH (with_scrollY y w)). exact H.
Qed.

(** ** A scroll event past the threshold *)

Lemma step_scroll_far w y c :
  consistent w →
  isInitialized (scrollState w) = true →
  scrollThreshold (config w) ≤ Z.abs (y - lastScrollY (scrollState w)) →
  container (elems w) = Some c →
  step (ScrollTo y) w
  = with_this (fun t =>
      with_scrollState (with_lastScrollY y (this_scrollState t)) t)
      (if y <? lastScrollY (scrollState w)
       then shown c (with_scrollY y w) else hidden c (with_scrollY y w)).
Proof.
  intros Hw Hinit Hfar Hc. simpl.
  rewrite (initialized_listens w Hw Hinit). unfold dispatch.
  rewrite (handleScroll_eq (with_scrollY y w) c Hinit Hfar Hc). reflexivity.
Qed.

Lemma classList_mark c gone there w :
  classList (node_get c (mark c gone there w))
  = classList_add there (classList_remove gone (classList (node_get c w))).
Proof.
  unfold mark. rewrite !node_get_update.
  destruct (decide (c = c)); [reflexivity | congruence].
Qed.

Lemma classList_restore o d n w :
  classList (node_get n (restore o d w)) = classList (node_get n w).
Proof.
  rewrite node_get_restore. destruct (decide _); [|reflexivity].
  destruct d; [|reflexivity]. destruct (truthy_num _); reflexivity.
Qed.

Lemma opacity_restore o d n w :
  opacity (style (node_get n (restore o d w))) = opacity (style (node_get n w)).
Proof.
  rewrite node_get_restore. destruct (decide _); [|reflexivity].
  destruct d; [|reflexivity]. destruct (truthy_num _); reflexivity.
Qed.

Lemma classList_opt_update_opacity o v n w :
  classList (node_get n (opt_update o (with_opacity v) w))
  = classList (node_get n w).
Proof. rewrite node_get_opt_update. destruct (decide _); reflexivity. Qed.

Lemma classList_opt_update_width o v n w :
  classList (node_get n (opt_update o (with_width v) w))
  = classList (node_get n w).
Proof. rewrite node_get_opt_update. destruct (decide _); reflexivity. Qed.

Lemma opacity_opt_update_width o v n w :
  opacity (style (node_get n (opt_update o (with_width v) w)))
  = opacity (style (node_get n w)).
Proof. rewrite node_get_opt_update. destruct (decide _); reflexivity. Qed.

Lemma opacity_opt_update_here n v w :
  opacity (style (node_get n (opt_update (Some n) (with_opacity v) w))) = v.
Proof.
  rewrite node_get_opt_update.
  destruct (decide (Some n = Some n)); [reflexivity | congruence].
Qed.

Lemma classList_shown c w :
  classList (node_get c (shown c w))
  = classList_add "scroll-up"
      (classList_remove "scroll-down" (classList (node_get c w))).
Proof.
  unfold shown.
  rewrite !classList_restore, classList_opt_update_opacity, classList_mark.
  reflexivity.
Qed.

Lemma classList_hidden c w :
  classList (node_get c (hidden c w))
  = classList_add "scroll-down"
      (classList_remove "scroll-up" (classList (node_get c w))).
Proof.
  unfold hidden.
  rewrite !classList_opt_update_width, classList_opt_update_opacity,
    classList_mark.
  reflexivity.
Qed.

Lemma opacity_shown c i w :
  navbarItemsSection (elems w) = Some i →
  opacity (style (node_get i (shown c w))) = "1".
Proof.
  intros Hi. unfold shown. rewrite !opacity_restore, Hi.
  apply opacity_opt_update_here.
Qed.

Lemma opacity_hidden c i w :
  navbarItemsSection (elems w) = Some i →
  opacity (style (node_get i (hidden c w))) = "0".
Proof.
  intros Hi. unfold hidden. rewrite !opacity_opt_update_width, Hi.
  apply opacity_opt_update_here.
Qed.

Lemma markers_swapped gone there l :
  there ≠ gone →
  ¬ In gone (classList_add there (classList_remove gone l))
  ∧ In there (classList_add there (classList_remove gone l)).
Proof.
  intros Hne. split; [|apply classList_add_there].
  rewrite classList_add_other by congruence. apply classList_remove_gone.
Qed.

(** Without a recorded width [showNavbar] leaves the inline width of a
    spacer as it is. *)
Lemma width_shown_unmeasured_left c n w :
  leftEmpty (elems w) = Some n → leftEmptyWidth (dimensions w) = None →
  rightEmpty (elems w) ≠ Some n →
  width (style (node_get n (shown c w))) = width (style (node_get n w)).
Proof.
  intros Hn Hm Hr. unfold shown. rewrite !node_get_restore, Hm.
  destruct (decide (rightEmpty (elems w) = Some n)); [contradiction|].
  destruct (decide _); apply width_shown_inner.
Qed.

Lemma width_shown_unmeasured_right c n w :
  rightEmpty (elems w) = Some n → rightEmptyWidth (dimensions w) = None →
  leftEmpty (elems w) ≠ Some n →
  width (style (node_get n (shown c w))) = width (style (node_get n w)).
Proof.
  intros Hn Hm Hl. unfold shown. rewrite !node_get_restore, Hm.
  destruct (decide (leftEmpty (elems w) = Some n)); [contradiction|].
  destruct (decide _); apply width_shown_inner.
Qed.

(** C1: after successful initialization, a scroll event at least the
    threshold away from the last recorded offset and toward the top of the
    page leaves the controller in the shown state: the container has lost
    'scroll-down' and has 'scroll-up', the inline opacity of the items
    section is '1', and every spacer that is present has its recorded
    width as inline width; nothing is thrown.  A spacer for which no width
    is recorded keeps the inline width it has (last two parts, about
    [showNavbar] in any world). *)
Theorem scroll_up_shows (document : Document) (w : World) (y : Z) :
  reachable document w →
  isInitialized (scrollState w) = true →
  scrollThreshold (config w) ≤ Z.abs (y - lastScrollY (scrollState w)) →
  y < lastScrollY (scrollState w) →
  (∃ c i,
     container (elems w) = Some c ∧ navbarItemsSection (elems w) = Some i
     ∧ ¬ In "scroll-down" (classList (node_get c (step (ScrollTo y) w)))
     ∧ In "scroll-up" (classList (node_get c (step (ScrollTo y) w)))
     ∧ opacity (style (node_get i (step (ScrollTo y) w))) = "1")
  ∧ (∀ n, leftEmpty (elems w) = Some n →
       ∃ m, leftEmptyWidth (dimensions w) = Some m
            ∧ width (style (node_get n (step (ScrollTo y) w))) = px m)
  ∧ (∀ n, rightEmpty (elems w) = Some n →
       ∃ m, rightEmptyWidth (dimensions w) = Some m
            ∧ width (style (node_get n (step (ScrollTo y) w))) = px m)
  ∧ console (step (ScrollTo y) w) = console w
  ∧ (∀ v c n, container (elems v) = Some c →
       leftEmpty (elems v) = Some n → leftEmptyWidth (dimensions v) = None →
       rightEmpty (elems v) ≠ Some n →
       width (style (node_get n (snd (showNavbar v))))
       = width (style (node_get n v)))
  ∧ (∀ v c n, container (elems v) = Some c →
       rightEmpty (elems v) = Some n → rightEmptyWidth (dimensions v) = None →
       leftEmpty (elems v) ≠ Some n →
       width (style (node_get n (snd (showNavbar v))))
       = width (style (node_get n v))).
Proof.
  intros Hreach Hinit Hfar Hup.
  pose proof (reachable_consistent document w Hreach) as Hw.
  destruct (initialized_container w Hw Hinit) as [c Hc].
  destruct (initialized_items w Hw Hinit) as [i Hi].
  rewrite (step_scroll_far w y c Hw Hinit Hfar Hc).
  apply Z.ltb_lt in Hup. rewrite Hup.
  assert (Hy : consistent (with_scrollY y w))
    by (revert Hw; apply consistent_frame; reflexivity).
  split; [|split; [|split; [|split; [|split]]]].
  - exists c, i. split; [exact Hc|]. split; [exact Hi|].
    rewrite !node_get_with_this, classList_shown.
    split; [|split].
    + apply markers_swapped. discriminate.
    + apply markers_swapped. discriminate.
    + apply opacity_shown. exact Hi.
  - intros n Hn. destruct (left_spacer_ok w Hw n Hn) as (m & Hm & _).
    exists m. split; [exact Hm|]. rewrite node_get_with_this.
    exact (width_shown_left c n m (with_scrollY y w) Hy Hn Hm).
  - intros n Hn. destruct (right_spacer_ok w Hw n Hn) as (m & Hm & _).
    exists m. split; [exact Hm|]. rewrite node_get_with_this.
    exact (width_shown_right c n m (with_scrollY y w) Hy Hn Hm).
  - simpl. apply (proj2 (rest_shown c (with_scrollY y w))).
  - intros v c' n Hc' Hn Hm Hr. rewrite (showNavbar_eq v c' Hc').
    apply width_shown_unmeasured_left; assumption.
  - intros v c' n Hc' Hn Hm Hl. rewrite (showNavbar_eq v c' Hc').
    apply width_shown_unmeasured_right; assumption.
Qed.

Lemma readme_world_reachable : reachable readme_document readme_world.
Proof. apply reachable_new. Qed.

Lemma scroll_up_shows_witness :
  isInitialized (scrollState (step (ScrollTo 50) readme_world)) = true
  ∧ width (style (node_get 1%nat
       (step (ScrollTo 5) (step (ScrollTo 50) readme_world)))) = "80px"
  ∧ width (style (node_get 3%nat
       (step (ScrollTo 5) (step (ScrollTo 50) readme_world)))) = "60px".
Proof.
  assert (Hinit : isInitialized (scrollState (step (ScrollTo 50) readme_world))
                  = true) by (vm_compute; reflexivity).
  split; [exact Hinit|].
  destruct (scroll_up_shows readme_document (step (ScrollTo 50) readme_world) 5)
    as (_ & Hl & Hr & _).
  - apply reachable_step, readme_world_reachable.
  - exact Hinit.
  - vm_compute. discriminate.
  - vm_compute. reflexivity.
  - destruct (Hl 1%nat) as (m & Hm & Hwl); [vm_compute; reflexivity|].
    destruct (Hr 3%nat) as (m' & Hm' & Hwr); [vm_compute; reflexivity|].
    vm_compute in Hm. vm_compute in Hm'.
    injection Hm as <-. injection Hm' as <-.
    split; [exact Hwl | exact Hwr].
Defined.

(** C2: after successful initialization, a scroll event at least the
    threshold away from the last recorded offset and not toward the top of
    the page leaves the controller in the hidden state: the container has
    lost 'scroll-up' and has 'scroll-down', the inline opacity of the items
    section is '0', and every spacer that is present has inline width
    '0px'; nothing is thrown. *)
Theorem scroll_down_hides (document : Document) (w : World) (y : Z) :
  reachable document w →
  isInitialized (scrollState w) = true →
  scrollThreshold (config w) ≤ Z.abs (y - lastScrollY (scrollState w)) →
  lastScrollY (scrollState w) ≤ y →
  (∃ c i,
     container (elems w) = Some c ∧ navbarItemsSection (elems w) = Some i
     ∧ ¬ In "scroll-up" (classList (node_get c (step (ScrollTo y) w)))
     ∧ In "scroll-down" (classList (node_get c (step (ScrollTo y) w)))
     ∧ opacity (style (node_get i (step (ScrollTo y) w))) = "0")
  ∧ (∀ n, leftEmpty (elems w) = Some n →
       width (style (node_get n (step (ScrollTo y) w))) = "0px")
  ∧ (∀ n, rightEmpty (elems w) = Some n →
       width (style (node_get n (step (ScrollTo y) w))) = "0px")
  ∧ console (step (ScrollTo y) w) = console w.
Proof.
  intros Hreach Hinit Hfar Hdown.
  pose proof (reachable_consistent document w Hreach) as Hw.
  destruct (initialized_container w Hw Hinit) as [c Hc].
  destruct (initialized_items w Hw Hinit) as [i Hi].
  rewrite (step_scroll_far w y c Hw Hinit Hfar Hc).
  apply Z.ltb_ge in Hdown. rewrite Hdown.
  split; [|split; [|split]].
  - exists c, i. split; [exact Hc|]. split; [exact Hi|].
    rewrite !node_get_with_this, classList_hidden.
    split; [|split].
    + apply markers_swapped. discriminate.
    + apply markers_swapped. discriminate.
    + apply opacity_hidden. exact Hi.
  - intros n Hn. rewrite node_get_with_this.
    apply width_hidden. left. exact Hn.
  - intros n Hn. rewrite node_get_with_this.
    apply width_hidden. right. exact Hn.
  - simpl. apply (proj2 (rest_hidden c (with_scrollY y w))).
Qed.

Lemma scroll_down_hides_witness :
  isInitialized (scrollState readme_world) = true
  ∧ width (style (node_get 1%nat (step (ScrollTo 50) readme_world))) = "0px"
  ∧ width (style (node_get 3%nat (step (ScrollTo 50) readme_world))) = "0px"
  ∧ console (step (ScrollTo 50) readme_world) = [].
Proof.
  assert (Hinit : isInitialized (scrollState readme_world) = true)
    by (vm_compute; reflexivity).
  split; [exact Hinit|].
  destruct (scroll_down_hides readme_document readme_world 50)
    as (_ & Hl & Hr & Hconsole).
  - apply readme_world_reachable.
  - exact Hinit.
  - vm_compute. discriminate.
  - vm_compute. discriminate.
  - split; [apply Hl; vm_compute; reflexivity|].
    split; [apply Hr; vm_compute; reflexivity|].
    rewrite Hconsole. vm_compute. reflexivity.
Defined.

(** ** Hiding and showing a spacer *)

(** What [showNavbar] does to the inline width of a spacer. *)
Lemma width_shown_spacer c n w :
  leftEmpty (elems w) ≠ rightEmpty (elems w) →
  leftEmpty (elems w) = Some n ∨ rightEmpty (elems w) = Some n →
  width (style (node_get n (shown c w)))
  = match recorded_width n w with
    | Some m =>
        if truthy_num (Some m) then px m else width (style (node_get n w))
    | None => width (style (node_get n w))
    end.
Proof.
  intros Hne Hn. unfold shown, recorded_width.
  rewrite !node_get_restore.
  destruct (decide (leftEmpty (elems w) = Some n)) as [Hl|Hl].
  - destruct (decide (rightEmpty (elems w) = Some n)) as [Hr|_];
      [congruence|].
    destruct (leftEmptyWidth (dimensions w)) as [m|];
      [destruct (truthy_num (Some m))|];
      reflexivity || apply width_shown_inner.
  - destruct Hn as [Hn|Hn]; [contradiction|].
    destruct (decide (rightEmpty (elems w) = Some n)); [|contradiction].
    destruct (rightEmptyWidth (dimensions w)) as [m|];
      [destruct (truthy_num (Some m))|];
      reflexivity || apply width_shown_inner.
Qed.

(** C10: hiding sets the inline width of a present spacer to '0px' whatever
    was measured; showing writes the recorded width only when it is a
    number other than zero, and otherwise leaves the inline width alone.  So
    a present spacer whose recorded width is zero or missing still has
    inline width '0px' after it was hidden and then shown.  The two spacers
    are different nodes (children 0 and 2 of one parent). *)
Theorem hide_show_asymmetry (w : World) (c n : node) :
  container (elems w) = Some c →
  leftEmpty (elems w) ≠ rightEmpty (elems w) →
  leftEmpty (elems w) = Some n ∨ rightEmpty (elems w) = Some n →
  hideNavbar w = (Normal tt, hidden c w)
  ∧ showNavbar w = (Normal tt, shown c w)
  ∧ showNavbar (hidden c w) = (Normal tt, shown c (hidden c w))
  ∧ width (style (node_get n (hidden c w))) = "0px"
  ∧ (∀ m, recorded_width n w = Some m → m ≠ 0 →
       width (style (node_get n (shown c w))) = px m)
  ∧ (truthy_num (recorded_width n w) = false →
       width (style (node_get n (shown c w))) = width (style (node_get n w))
       ∧ width (style (node_get n (shown c (hidden c w)))) = "0px").
Proof.
  intros Hc Hne Hn.
  assert (Hsame : this (hidden c w) = this w) by apply this_hidden.
  assert (Hrec : recorded_width n (hidden c w) = recorded_width n w)
    by (unfold recorded_width, elems, dimensions; rewrite Hsame; reflexivity).
  split; [apply hideNavbar_eq; exact Hc|].
  split; [apply showNavbar_eq; exact Hc|].
  split; [apply showNavbar_eq; unfold elems; rewrite Hsame; exact Hc|].
  split; [apply width_hidden; exact Hn|].
  split.
  - intros m Hm Hnz. rewrite (width_shown_spacer c n w Hne Hn), Hm.
    unfold truthy_num. destruct (Z.eqb_spec m 0); [contradiction|reflexivity].
  - intros Hfalsy.
    rewrite (width_shown_spacer c n w Hne Hn).
    rewrite (width_shown_spacer c n (hidden c w)), Hrec;
      unfold elems; rewrite ?Hsame; try assumption.
    destruct (recorded_width n w) as [m|]; [rewrite Hfalsy|];
      (split; [reflexivity | apply width_hidden; exact Hn]).
Qed.

Lemma hide_show_asymmetry_witness :
  leftEmptyWidth (dimensions collapsed_world) = Some 0
  ∧ width (style (node_get 1%nat (hidden 0%nat collapsed_world))) = "0px"
  ∧ width (style (node_get 1%nat
       (shown 0%nat (hidden 0%nat collapsed_world)))) = "0px".
Proof.
  split; [vm_compute; reflexivity|].
  destruct (hide_show_asymmetry collapsed_world 0%nat 1%nat)
    as (_ & _ & _ & Hhide & _ & Hshow).
  - vm_compute. reflexivity.
  - vm_compute. discriminate.
  - left. vm_compute. reflexivity.
  - split; [exact Hhide|]. apply Hshow. vm_compute. reflexivity.
Defined.

(** ** Construction without the required elements *)

Lemma lookups_returned document cfg c cta logo main items :
  querySelector document (containerSelector cfg) = Returns c →
  querySelector document (ctaBtnContainerSelector cfg) = Returns cta →
  querySelector document (logoContainerSelector cfg) = Returns logo →
  querySelector document (navbarMainSectionSelector cfg) = Returns main →
  querySelector document (navbarItemsSectionSelector cfg) = Returns items →
  lookups document cfg
  = Normal (mkElements c cta logo main items None None).
Proof.
  intros Hc Hcta Hlogo Hmain Hitems. unfold lookups.
  rewrite Hc, Hcta, Hlogo, Hmain, Hitems. reflexivity.
Qed.

Lemma missing_roles_in e :
  (In "container" (missing_roles e) ↔ container e = None)
  ∧ (In "navbarMainSection" (missing_roles e) ↔ navbarMainSection e = None)
  ∧ (In "navbarItemsSection" (missing_roles e)
     ↔ navbarItemsSection e = None)
  ∧ (∀ key, In key (missing_roles e) → In key requiredElements).
Proof.
  unfold missing_roles, requiredElements.
  destruct (container e), (navbarMainSection e), (navbarItemsSection e);
    cbn [app In]; repeat split; intros; try discriminate; try tauto;
    repeat match goal with
           | H : _ ∨ _ |- _ => destruct H
           | H : False |- _ => destruct H
           | H : _ = _ |- _ => discriminate H
           end; subst; tauto.
Qed.

(** C4, as amended: when none of the five selector lookups throws and one
    or more of the container, the main section and the items section is not
    found, [init] throws one Error whose message lists the missing required
    roles, each role being named exactly when its own lookup found nothing;
    the error is caught and logged ([init] returns and the constructor
    yields the object), the controller is left un-initialized with no
    listener registered, and scroll events after that change no node, no
    field of the controller and log nothing. *)
Theorem missing_required_elements
  (document : Document) (options : Options) (page : Page)
  (c cta logo main items : option node) (ys : list Z) :
  querySelector document (containerSelector (spread defaults options))
  = Returns c →
  querySelector document (ctaBtnContainerSelector (spread defaults options))
  = Returns cta →
  querySelector document (logoContainerSelector (spread defaults options))
  = Returns logo →
  querySelector document (navbarMainSectionSelector (spread defaults options))
  = Returns main →
  querySelector document (navbarItemsSectionSelector (spread defaults options))
  = Returns items →
  c = None ∨ main = None ∨ items = None →
  fst (init document (fresh options page)) = Normal tt
  ∧ console (new_CustomNavbarEffects document options page)
    = [("CustomNavbarEffects initialization failed:",
        Error ("Required elements not found: "
               +:+ join ", "
                     (match c with Some _ => [] | None => ["container"] end
                      ++ match main with
                         | Some _ => [] | None => ["navbarMainSection"] end
                      ++ match items with
                         | Some _ => []
                         | None => ["navbarItemsSection"]
                         end)))]
  ∧ elems (new_CustomNavbarEffects document options page)
    = mkElements c cta logo main items None None
  ∧ isInitialized
      (getScrollState (new_CustomNavbarEffects document options page)) = false
  ∧ listeners (new_CustomNavbarEffects document options page)
    = mkListeners false false false
  ∧ nodes (new_CustomNavbarEffects document options page) = page_nodes page
  ∧ nodes (run (map ScrollTo ys)
             (new_CustomNavbarEffects document options page))
    = page_nodes page
  ∧ this (run (map ScrollTo ys)
            (new_CustomNavbarEffects document options page))
    = this (new_CustomNavbarEffects document options page)
  ∧ console (run (map ScrollTo ys)
               (new_CustomNavbarEffects document options page))
    = console (new_CustomNavbarEffects document options page).
Proof.
  intros Hc Hcta Hlogo Hmain Hitems Hmissing.
  pose proof (lookups_returned document (spread defaults options)
                c cta logo main items Hc Hcta Hlogo Hmain Hitems) as Hlook.
  set (e := mkElements c cta logo main items None None) in *.
  assert (Hne : missingElements e ≠ []).
  { intros Hnil. apply missingElements_nil in Hnil as (H1 & H2 & H3).
    subst e. cbn [container navbarMainSection navbarItemsSection] in *.
    destruct Hmissing as [H|[H|H]]; rewrite H in *;
      eapply is_Some_None; eassumption. }
  pose proof (cacheElements_missing document (fresh options page) e Hlook Hne)
    as Hthrow.
  rewrite missingElements_roles in Hthrow.
  split; [apply init_returns|].
  unfold new_CustomNavbarEffects. rewrite (init_failed _ _ _ _ Hthrow).
  cbn [snd].
  match goal with |- context [run _ ?x] => set (w := x) end.
  assert (Hun : isInitialized (scrollState w) = false) by reflexivity.
  destruct (run_scrolls_uninitialized ys w Hun) as (Ht & Hn & _ & Hco).
  rewrite Ht, Hn, Hco.
  repeat (split; [reflexivity|]). reflexivity.
Qed.

Lemma missing_required_elements_witness :
  console (new_CustomNavbarEffects no_items_document no_options readme_page)
  = [("CustomNavbarEffects initialization failed:",
      Error "Required elements not found: navbarItemsSection")]
  ∧ console (new_CustomNavbarEffects empty_document no_options readme_page)
    = [("CustomNavbarEffects initialization failed:",
        Error "Required elements not found: container, navbarMainSection, navbarItemsSection")]
  ∧ nodes (run (map ScrollTo [50; 5])
             (new_CustomNavbarEffects no_items_document no_options
                readme_page))
    = page_nodes readme_page.
Proof.
  destruct (missing_required_elements no_items_document no_options readme_page
              (Some 0%nat) (Some 6%nat) (Some 4%nat) (Some 2%nat) None [50; 5])
    as (_ & Hconsole & _ & _ & _ & _ & Hnodes & _);
    [reflexivity | reflexivity | reflexivity | reflexivity | reflexivity
    | right; right; reflexivity |].
  destruct (missing_required_elements empty_document no_options readme_page
              None None None None None [])
    as (_ & Hall & _);
    [reflexivity | reflexivity | reflexivity | reflexivity | reflexivity
    | left; reflexivity |].
  split; [rewrite Hconsole; reflexivity|].
  split; [rewrite Hall; reflexivity | exact Hnodes].
Defined.

(** C4 as it was stated fails when a lookup throws: in a document where
    nothing matches, so that the container cannot be located, and with the
    empty string as logo selector, the third lookup throws a SyntaxError
    before the validation runs, and that is the one error logged: it names
    no missing role. *)
Lemma missing_required_elements_counterexample :
  querySelector empty_document
    (containerSelector
       (spread defaults (only f_logoContainerSelector EmptyString)))
  = Returns None
  ∧ console (new_CustomNavbarEffects empty_document
               (only f_logoContainerSelector EmptyString) readme_page)
    = [("CustomNavbarEffects initialization failed:", empty_selector)]
  ∧ ¬ (∃ message,
         console (new_CustomNavbarEffects empty_document
                    (only f_logoContainerSelector EmptyString) readme_page)
         = [("CustomNavbarEffects initialization failed:", Error message)])
  ∧ isInitialized (getScrollState
      (new_CustomNavbarEffects empty_document
         (only f_logoContainerSelector EmptyString) readme_page)) = false.
Proof.
  split; [reflexivity|].
  assert (H : console (new_CustomNavbarEffects empty_document
                         (only f_logoContainerSelector EmptyString) readme_page)
              = [("CustomNavbarEffects initialization failed:", empty_selector)])
    by (vm_compute; reflexivity).
  split; [exact H|]. split; [|vm_compute; reflexivity].
  intros [message Hm]. rewrite H in Hm. discriminate Hm.
Qed.

(** ** Teardown *)

Lemma destroy_eq w :
  destroy w
  = (Normal tt,
     with_this (fun t =>
       with_scrollState (with_isInitialized false (this_scrollState t)) t)
       (with_listeners (mkListeners false false false) w)).
Proof. reflexivity. Qed.

(** C8: [destroy] returns, switches the three listeners off and clears the
    initialized flag; it leaves the element cache, the dimension cache, the
    configuration, the rest of the scroll state and every node as they
    were, so they read as before.  Any scroll events dispatched after it
    change no node and no field of the controller and log nothing; even a
    late call of the handler itself returns without touching the world. *)
Theorem destroy_stops_scrolling (w : World) (ys : list Z) (y : Z) :
  fst (destroy w) = Normal tt
  ∧ isInitialized (getScrollState (step CallDestroy w)) = false
  ∧ lastScrollY (getScrollState (step CallDestroy w))
    = lastScrollY (getScrollState w)
  ∧ isScrollingUp (getScrollState (step CallDestroy w))
    = isScrollingUp (getScrollState w)
  ∧ getConfig (step CallDestroy w) = getConfig w
  ∧ elems (step CallDestroy w) = elems w
  ∧ dimensions (step CallDestroy w) = dimensions w
  ∧ nodes (step CallDestroy w) = nodes w
  ∧ listeners (step CallDestroy w) = mkListeners false false false
  ∧ nodes (run (map ScrollTo ys) (step CallDestroy w)) = nodes w
  ∧ this (run (map ScrollTo ys) (step CallDestroy w))
    = this (step CallDestroy w)
  ∧ console (run (map ScrollTo ys) (step CallDestroy w)) = console w
  ∧ handleScroll (with_scrollY y (step CallDestroy w))
    = (Normal tt, with_scrollY y (step CallDestroy w)).
Proof.
  cbn [step]. rewrite destroy_eq. cbn [fst snd].
  match goal with |- context [run _ ?x] => set (w' := x) end.
  assert (Hun : isInitialized (scrollState w') = false) by reflexivity.
  destruct (run_scrolls_uninitialized ys w' Hun) as (Ht & Hn & _ & Hco).
  rewrite Ht, Hn, Hco.
  repeat (split; [reflexivity|]).
  apply handleScroll_uninitialized. exact Hun.
Qed.

(** ** The spacers *)

Lemma frame_init_tail w :
  elems (initialized (bound (transitions_set w))) = elems w
  ∧ console (initialized (bound (transitions_set w))) = console w
  ∧ isInitialized (scrollState (initialized (bound (transitions_set w))))
    = true.
Proof.
  destruct (frame_bound (transitions_set w)) as (_ & He & _ & _ & Hco).
  destruct (frame_measured (bound (transitions_set w)))
    as (_ & He' & _ & _ & Hco').
  split; [|split].
  - transitivity (elems (measured (bound (transitions_set w))));
      [reflexivity|].
    rewrite He', He. unfold elems. rewrite this_transitions_set. reflexivity.
  - transitivity (console (measured (bound (transitions_set w))));
      [reflexivity|].
    rewrite Hco', Hco. apply rest_transitions_set.
  - reflexivity.
Qed.

Lemma cacheElements_resolved
  document options page c cta logo main i parent :
  querySelector document (containerSelector (spread defaults options))
  = Returns (Some c) →
  querySelector document (ctaBtnContainerSelector (spread defaults options))
  = Returns cta →
  querySelector document (logoContainerSelector (spread defaults options))
  = Returns logo →
  querySelector document (navbarMainSectionSelector (spread defaults options))
  = Returns (Some main) →
  querySelector document (navbarItemsSectionSelector (spread defaults options))
  = Returns (Some i) →
  parentElement document main = Some parent →
  cacheElements document (fresh options page)
  = (Normal tt,
     with_this (with_elements
       (mkElements (Some c) cta logo (Some main) (Some i)
          (children document parent !! 0%nat)
          (children document parent !! 2%nat)))
       (fresh options page)).
Proof.
  intros Hc Hcta Hlogo Hmain Hi Hparent.
  pose proof (lookups_returned document (spread defaults options)
                (Some c) cta logo (Some main) (Some i)
                Hc Hcta Hlogo Hmain Hi) as Hlook.
  apply (cacheElements_found document (fresh options page) _ main parent Hlook);
    [|reflexivity | exact Hparent].
  apply missingElements_nil.
  cbn [container navbarMainSection navbarItemsSection]. eauto.
Qed.

(** C9: once the lookups of [cacheElements] have returned with the three
    required elements found (and the main section has a parent element),
    [cacheElements] returns, and the left and the right spacer are the
    children at indices 0 and 2 of that parent, whatever the selectors are;
    with fewer than three children the right spacer is absent, with none
    the left one is, and in both cases nothing is thrown or logged and the
    controller ends up initialized.  The five lookups run in one object
    literal, the optional ones before the main section's: the required
    elements are resolved only if all five lookups return. *)
Theorem spacers_by_position
  (document : Document) (options : Options) (page : Page)
  (c main i parent : node) (cta logo : option node) :
  querySelector document (containerSelector (spread defaults options))
  = Returns (Some c) →
  querySelector document (ctaBtnContainerSelector (spread defaults options))
  = Returns cta →
  querySelector document (logoContainerSelector (spread defaults options))
  = Returns logo →
  querySelector document (navbarMainSectionSelector (spread defaults options))
  = Returns (Some main) →
  querySelector document (navbarItemsSectionSelector (spread defaults options))
  = Returns (Some i) →
  parentElement document main = Some parent →
  fst (cacheElements document (fresh options page)) = Normal tt
  ∧ leftEmpty (elems (snd (cacheElements document (fresh options page))))
    = children document parent !! 0%nat
  ∧ rightEmpty (elems (snd (cacheElements document (fresh options page))))
    = children document parent !! 2%nat
  ∧ leftEmpty (elems (new_CustomNavbarEffects document options page))
    = children document parent !! 0%nat
  ∧ rightEmpty (elems (new_CustomNavbarEffects document options page))
    = children document parent !! 2%nat
  ∧ ((length (children document parent) < 3)%nat →
       rightEmpty (elems (new_CustomNavbarEffects document options page))
       = None)
  ∧ (children document parent = [] →
       leftEmpty (elems (new_CustomNavbarEffects document options page))
       = None)
  ∧ console (new_CustomNavbarEffects document options page) = []
  ∧ isInitialized (scrollState (new_CustomNavbarEffects document options page))
    = true.
Proof.
  intros Hc Hcta Hlogo Hmain Hi Hparent.
  pose proof (cacheElements_resolved document options page c cta logo main i
                parent Hc Hcta Hlogo Hmain Hi Hparent) as Hfound.
  unfold new_CustomNavbarEffects. rewrite (init_ok _ _ _ Hfound), Hfound.
  cbn [fst snd].
  match goal with |- context [initialized (bound (transitions_set ?x))] =>
    destruct (frame_init_tail x) as (He & Hco & Hinit)
  end.
  rewrite He, Hco, Hinit.
  split; [reflexivity|]. split; [reflexivity|]. split; [reflexivity|].
  split; [reflexivity|]. split; [reflexivity|].
  split; [|split; [|split]].
  - intros Hlen. apply lookup_ge_None. simpl. lia.
  - intros Hnil. cbn. rewrite Hnil. reflexivity.
  - reflexivity.
  - reflexivity.
Qed.

Lemma spacers_by_position_witness :
  leftEmpty (elems (new_CustomNavbarEffects two_children_document no_options
                      readme_page)) = Some 1%nat
  ∧ rightEmpty (elems (new_CustomNavbarEffects two_children_document
                         no_options readme_page)) = None
  ∧ console (new_CustomNavbarEffects two_children_document no_options
               readme_page) = [].
Proof.
  destruct (spacers_by_position two_children_document no_options readme_page
              0%nat 2%nat 5%nat 0%nat (Some 6%nat) (Some 4%nat))
    as (_ & _ & _ & Hl & _ & Hr & _ & Hco & _);
    try reflexivity.
  split; [rewrite Hl; reflexivity|].
  split; [apply Hr; simpl; lia | exact Hco].
Defined.

(** ** Reconfiguration *)

Lemma updateConfig_eq newConfig w :
  updateConfig newConfig w
  = (Normal tt,
     let w' := with_this (fun t =>
                 with_config (spread (this_config t) newConfig) t) w in
     if truthy_num (opt_transitionDuration newConfig)
     then transitions_set w' else w').
Proof.
  unfold updateConfig, bind, update. cbn zeta.
  destruct (truthy_num _); [apply setupTransitions_eq | reflexivity].
Qed.

Lemma updateConfig_config newConfig w :
  config (snd (updateConfig newConfig w)) = spread (config w) newConfig.
Proof.
  rewrite updateConfig_eq. cbn [snd]. cbn zeta.
  destruct (truthy_num _); [|reflexivity].
  unfold config. rewrite this_transitions_set. reflexivity.
Qed.

(** [updateConfig] never looks the elements up again. *)
Lemma updateConfig_elems newConfig w :
  elems (snd (updateConfig newConfig w)) = elems w.
Proof.
  rewrite updateConfig_eq. cbn [snd]. cbn zeta.
  destruct (truthy_num _); [|reflexivity].
  unfold elems. rewrite this_transitions_set. reflexivity.
Qed.

(** A partial record whose duration is missing or zero leaves every node as
    it was. *)
Lemma updateConfig_falsy_duration newConfig w :
  truthy_num (opt_transitionDuration newConfig) = false →
  nodes (snd (updateConfig newConfig w)) = nodes w.
Proof. intros H. rewrite updateConfig_eq, H. reflexivity. Qed.

Lemma getConfig_config w : getConfig w = config w.
Proof. unfold getConfig. destruct (config w). reflexivity. Qed.

(** C6: after [updateConfig({x: v})], [getConfig()] has [v] in field [x] and,
    in every other field, the value that was there before; [updateConfig]
    returns normally. *)
Theorem updateConfig_then_getConfig (x : Field) (v : field_type x) (w : World) :
  fst (updateConfig (only x v) w) = Normal tt
  ∧ field_get x (getConfig (snd (updateConfig (only x v) w))) = v
  ∧ (∀ y, y ≠ x →
       field_get y (getConfig (snd (updateConfig (only x v) w)))
       = field_get y (getConfig w)).
Proof.
  rewrite !getConfig_config, updateConfig_config.
  split; [rewrite updateConfig_eq; reflexivity|].
  split.
  - destruct x; reflexivity.
  - intros y Hy. destruct x, y; try reflexivity; congruence.
Qed.

Lemma updateConfig_then_getConfig_witness :
  field_get f_scrollThreshold
    (getConfig (snd (updateConfig (only f_scrollThreshold 15) readme_world)))
  = 15
  ∧ field_get f_transitionDuration
      (getConfig (snd (updateConfig (only f_scrollThreshold 15) readme_world)))
    = 200.
Proof.
  destruct (updateConfig_then_getConfig f_scrollThreshold 15 readme_world)
    as (_ & Hx & Hy).
  split; [exact Hx|].
  rewrite (Hy f_transitionDuration); [reflexivity | discriminate].
Defined.

(** C7, at [updateConfig({transitionDuration: 0})] on the README page: the
    duration field is present in the partial record and ends up in the
    configuration, but the guard [if (newConfig.transitionDuration)] is
    false for 0, so [setupTransitions] is not run again and the inline
    transitions still carry the 200 ms of the construction; a controller
    constructed with the same duration 0 does get '0ms'. *)
Theorem updateConfig_zero_duration :
  transitionDuration
    (getConfig (step (CallUpdateConfig (only f_transitionDuration 0))
                  readme_world)) = 0
  ∧ nodes (step (CallUpdateConfig (only f_transitionDuration 0)) readme_world)
    = nodes readme_world
  ∧ transition (style (node_get 5%nat
      (step (CallUpdateConfig (only f_transitionDuration 0)) readme_world)))
    = "opacity 200ms ease-in-out"
  ∧ transition (style (node_get 1%nat
      (step (CallUpdateConfig (only f_transitionDuration 0)) readme_world)))
    = "width 200ms ease-in-out"
  ∧ transition (style (node_get 5%nat
      (step (CallUpdateConfig (only f_transitionDuration 300)) readme_world)))
    = "opacity 300ms ease-in-out"
  ∧ transition (style (node_get 5%nat
      (new_CustomNavbarEffects readme_document (only f_transitionDuration 0)
         readme_page)))
    = "opacity 0ms ease-in-out".
Proof.
  split; [vm_compute; reflexivity|].
  split; [apply updateConfig_falsy_duration; reflexivity|].
  repeat (split; [vm_compute; reflexivity|]). vm_compute. reflexivity.
Qed.

(** ** The direction field *)

Lemma isScrollingUp_measured w :
  isScrollingUp (scrollState (measured w)) = isScrollingUp (scrollState w).
Proof. destruct (frame_measured w) as (_ & _ & -> & _). reflexivity. Qed.

Lemma isScrollingUp_step ev w :
  consistent w →
  isScrollingUp (scrollState (step ev w)) = isScrollingUp (scrollState w).
Proof.
  intros Hw. destruct ev as [y|n rendered| | |newConfig|]; cbn [step].
  - assert (Hy : consistent (with_scrollY y w))
      by (revert Hw; apply consistent_frame; reflexivity).
    unfold dispatch. destruct (on_scroll _); [|reflexivity].
    destruct (isInitialized (scrollState (with_scrollY y w))) eqn:Hinit.
    2: { rewrite handleScroll_uninitialized by exact Hinit. reflexivity. }
    destruct (Z_lt_le_dec
                (Z.abs (scrollY (with_scrollY y w)
                        - lastScrollY (scrollState (with_scrollY y w))))
                (scrollThreshold (config (with_scrollY y w)))) as [Hnear|Hfar].
    { rewrite handleScroll_quiet by exact Hnear. reflexivity. }
    destruct (initialized_container _ Hy Hinit) as [c Hc].
    rewrite (handleScroll_eq _ c Hinit Hfar Hc).
    unfold scrollState. cbn [this with_this this_scrollState with_scrollState
                             isScrollingUp with_lastScrollY].
    destruct (_ <? _); rewrite ?this_shown, ?this_hidden; reflexivity.
  - reflexivity.
  - unfold dispatch, handleResize. rewrite updateDimensions_eq.
    destruct (on_resize _); [apply isScrollingUp_measured | reflexivity].
  - destruct (readyState w); try reflexivity.
    unfold dispatch. rewrite handleLoad_eq.
    destruct (on_DOMContentLoaded _); [|reflexivity].
    apply (isScrollingUp_measured (with_readyState interactive w)).
  - rewrite updateConfig_eq. cbn [snd]. cbn zeta.
    destruct (truthy_num _); [|reflexivity].
    unfold scrollState. rewrite this_transitions_set. reflexivity.
  - reflexivity.
Qed.

Lemma isScrollingUp_new document options page :
  isScrollingUp (scrollState (new_CustomNavbarEffects document options page))
  = false.
Proof.
  unfold new_CustomNavbarEffects.
  destruct (cacheElements_cases document options page)
    as [(err & els & _ & _ & He) | (e & main & parent & _ & _ & _ & _ & Hc)].
  - rewrite (init_failed _ _ _ _ He). reflexivity.
  - rewrite (init_ok _ _ _ Hc). cbn [snd].
    unfold initialized, scrollState.
    cbn [this with_this this_scrollState with_scrollState isScrollingUp
         with_isInitialized].
    match goal with |- context [measured ?x] =>
      change (isScrollingUp (scrollState (measured x)) = false) end.
    rewrite isScrollingUp_measured.
    unfold bound. destruct (readyState _).
    + unfold scrollState. cbn [this with_listeners].
      rewrite this_transitions_set. reflexivity.
    + unfold scrollState.
      cbn [this with_this this_scrollState with_scrollState isScrollingUp
           with_lastScrollY].
      match goal with |- context [measured ?x] =>
        change (isScrollingUp (scrollState (measured x)) = false) end.
      rewrite isScrollingUp_measured. unfold scrollState.
      cbn [this with_listeners]. rewrite this_transitions_set. reflexivity.
    + unfold scrollState.
      cbn [this with_this this_scrollState with_scrollState isScrollingUp
           with_lastScrollY].
      match goal with |- context [measured ?x] =>
        change (isScrollingUp (scrollState (measured x)) = false) end.
      rewrite isScrollingUp_measured. unfold scrollState.
      cbn [this with_listeners]. rewrite this_transitions_set. reflexivity.
Qed.

(** No method ever writes [scrollState.isScrollingUp]: it is [false] in
    every world the controller can be in. *)
Lemma direction_never_recorded document w :
  reachable document w → isScrollingUp (getScrollState w) = false.
Proof.
  induction 1 as [options page | ev w Hreach IH]; cbn [getScrollState isScrollingUp] in *.
  - apply isScrollingUp_new.
  - rewrite isScrollingUp_step; [exact IH|].
    exact (reachable_consistent document w Hreach).
Qed.

(** C5, on the README page loaded at offset 100 and then scrolled to 50:
    the event is 50 away from the recorded offset 100, past the threshold
    10, and toward the top.  [lastScrollY] becomes 50 and the navbar is
    shown, but [handleScroll] keeps the direction in a local constant and
    the [isScrollingUp] field of the scroll state stays [false]. *)
Theorem scroll_up_direction_not_recorded :
  isInitialized (getScrollState
    (new_CustomNavbarEffects readme_document no_options readme_page_at_100))
  = true
  ∧ lastScrollY (getScrollState
      (new_CustomNavbarEffects readme_document no_options readme_page_at_100))
    = 100
  ∧ lastScrollY (getScrollState (step (ScrollTo 50)
      (new_CustomNavbarEffects readme_document no_options readme_page_at_100)))
    = 50
  ∧ classList (node_get 0%nat (step (ScrollTo 50)
      (new_CustomNavbarEffects readme_document no_options readme_page_at_100)))
    = ["scroll-up"]
  ∧ isScrollingUp (getScrollState (step (ScrollTo 50)
      (new_CustomNavbarEffects readme_document no_options readme_page_at_100)))
    = false.
Proof. repeat (split; [vm_compute; reflexivity|]). vm_compute. reflexivity. Qed.

(** * Further properties of the methods *)

(** ** Reading a node after a method ran *)

Ltac node_cases :=
  repeat first
    [ rewrite node_get_with_this
    | rewrite node_get_update
    | rewrite node_get_opt_update
    | rewrite node_get_restore
    | rewrite node_get_measure ];
  repeat match goal with
         | |- context [decide ?P] => destruct (decide P)
         | |- context [match ?d with Some _ => _ | None => _ end] =>
             destruct d
         | |- context [if truthy_num ?x then _ else _] =>
             destruct (truthy_num x)
         end;
  try reflexivity; try (subst; reflexivity).

Lemma measured_keeps n w :
  classList (node_get n (measured w)) = classList (node_get n w)
  ∧ opacity (style (node_get n (measured w))) = opacity (style (node_get n w))
  ∧ transition (style (node_get n (measured w)))
    = transition (style (node_get n w))
  ∧ offsetWidth (node_get n (measured w)) = offsetWidth (node_get n w).
Proof. unfold measured. repeat split; node_cases. Qed.

Lemma measured_left n w :
  leftEmpty (elems w) = Some n →
  leftEmptyWidth (dimensions (measured w)) = Some (offsetWidth (node_get n w))
  ∧ width (style (node_get n (measured w))) = px (offsetWidth (node_get n w)).
Proof.
  intros Hn. unfold measured. rewrite !dimensions_measure, Hn. split.
  - destruct (rightEmpty (elems w)); reflexivity.
  - rewrite !node_get_measure.
    destruct (decide (Some n = Some n)); [|congruence].
    destruct (decide _); reflexivity.
Qed.

Lemma measured_right n w :
  rightEmpty (elems w) = Some n →
  rightEmptyWidth (dimensions (measured w)) = Some (offsetWidth (node_get n w))
  ∧ width (style (node_get n (measured w))) = px (offsetWidth (node_get n w)).
Proof.
  intros Hn. unfold measured. rewrite !dimensions_measure, Hn.
  cbn [rightEmptyWidth with_rightEmptyWidth].
  rewrite offsetWidth_measure. split; [reflexivity|].
  rewrite node_get_measure.
  destruct (decide (Some n = Some n)); [|congruence].
  cbn [width style with_width]. rewrite offsetWidth_measure. reflexivity.
Qed.

Lemma measured_elsewhere n w :
  leftEmpty (elems w) ≠ Some n → rightEmpty (elems w) ≠ Some n →
  node_get n (measured w) = node_get n w.
Proof.
  intros Hl Hr. unfold measured. rewrite !node_get_measure.
  destruct (decide _); [contradiction|].
  destruct (decide _); [contradiction|]. reflexivity.
Qed.

(** X1: a resize measures again.  [handleResize] returns normally; every
    spacer that is present gets its current rendered width recorded (whatever
    was recorded before) and pinned as inline width; a node that is no
    spacer is left as it is, no node changes its classes, opacity,
    transition or rendered width, and the configuration, the element cache,
    the scroll state, the listeners and the console are untouched. *)
Theorem resize_measures_again (w : World) :
  fst (handleResize w) = Normal tt
  ∧ (∀ n, leftEmpty (elems w) = Some n →
       leftEmptyWidth (dimensions (snd (handleResize w)))
       = Some (offsetWidth (node_get n w))
       ∧ width (style (node_get n (snd (handleResize w))))
         = px (offsetWidth (node_get n w)))
  ∧ (∀ n, rightEmpty (elems w) = Some n →
       rightEmptyWidth (dimensions (snd (handleResize w)))
       = Some (offsetWidth (node_get n w))
       ∧ width (style (node_get n (snd (handleResize w))))
         = px (offsetWidth (node_get n w)))
  ∧ (∀ n, leftEmpty (elems w) ≠ Some n → rightEmpty (elems w) ≠ Some n →
       node_get n (snd (handleResize w)) = node_get n w)
  ∧ (∀ n,
       classList (node_get n (snd (handleResize w))) = classList (node_get n w)
       ∧ opacity (style (node_get n (snd (handleResize w))))
         = opacity (style (node_get n w))
       ∧ transition (style (node_get n (snd (handleResize w))))
         = transition (style (node_get n w))
       ∧ offsetWidth (node_get n (snd (handleResize w)))
         = offsetWidth (node_get n w))
  ∧ config (snd (handleResize w)) = config w
  ∧ elems (snd (handleResize w)) = elems w
  ∧ scrollState (snd (handleResize w)) = scrollState w
  ∧ listeners (snd (handleResize w)) = listeners w
  ∧ console (snd (handleResize w)) = console w.
Proof.
  unfold handleResize. rewrite updateDimensions_eq. cbn [fst snd].
  split; [reflexivity|].
  split; [intros n; apply measured_left|].
  split; [intros n; apply measured_right|].
  split; [intros n; apply measured_elsewhere|].
  split; [intros n; apply measured_keeps|].
  apply frame_measured.
Qed.

Lemma resize_measures_again_witness :
  leftEmptyWidth
    (dimensions (snd (handleResize (step (Layout 1%nat 120) readme_world))))
  = Some 120
  ∧ width (style (node_get 1%nat
      (snd (handleResize (step (Layout 1%nat 120) readme_world))))) = "120px"
  ∧ node_get 5%nat (snd (handleResize (step (Layout 1%nat 120) readme_world)))
    = node_get 5%nat (step (Layout 1%nat 120) readme_world).
Proof.
  destruct (resize_measures_again (step (Layout 1%nat 120) readme_world))
    as (_ & Hl & _ & Hother & _).
  destruct (Hl 1%nat) as [Hrec Hwidth]; [vm_compute; reflexivity|].
  split; [rewrite Hrec; vm_compute; reflexivity|].
  split; [rewrite Hwidth; vm_compute; reflexivity|].
  apply Hother; vm_compute; discriminate.
Defined.

(** ** Transition setup *)

Lemma transitions_set_spacer n w :
  leftEmpty (elems w) = Some n ∨ rightEmpty (elems w) = Some n →
  transition (style (node_get n (transitions_set w)))
  = width_transition (transitionDuration (config w)).
Proof.
  intros Hn. unfold transitions_set. cbn zeta. rewrite !node_get_opt_update.
  destruct (decide (rightEmpty (elems w) = Some n)); [reflexivity|].
  destruct (decide (leftEmpty (elems w) = Some n)); [reflexivity|].
  tauto.
Qed.

Lemma transitions_set_items n w :
  navbarItemsSection (elems w) = Some n →
  leftEmpty (elems w) ≠ Some n → rightEmpty (elems w) ≠ Some n →
  transition (style (node_get n (transitions_set w)))
  = opacity_transition (transitionDuration (config w)).
Proof.
  intros Hn Hl Hr. unfold transitions_set. cbn zeta.
  rewrite !node_get_opt_update.
  destruct (decide (rightEmpty (elems w) = Some n)); [contradiction|].
  destruct (decide (leftEmpty (elems w) = Some n)); [contradiction|].
  destruct (decide (navbarItemsSection (elems w) = Some n)); [|contradiction].
  reflexivity.
Qed.

Lemma transitions_set_elsewhere n w :
  navbarItemsSection (elems w) ≠ Some n →
  leftEmpty (elems w) ≠ Some n → rightEmpty (elems w) ≠ Some n →
  node_get n (transitions_set w) = node_get n w.
Proof.
  intros Hi Hl Hr. unfold transitions_set. cbn zeta.
  rewrite !node_get_opt_update.
  repeat (destruct (decide _); [contradiction|]). reflexivity.
Qed.

Lemma transitions_set_keeps n w :
  classList (node_get n (transitions_set w)) = classList (node_get n w)
  ∧ opacity (style (node_get n (transitions_set w)))
    = opacity (style (node_get n w))
  ∧ width (style (node_get n (transitions_set w)))
    = width (style (node_get n w))
  ∧ offsetWidth (node_get n (transitions_set w)) = offsetWidth (node_get n w).
Proof. unfold transitions_set. cbn zeta. repeat split; node_cases. Qed.

(** X2: [setupTransitions] returns normally and writes only transition
    declarations with the configured duration: the width transition on every
    spacer that is present, the opacity transition on the items section
    (unless that node is also a spacer, whose later write wins).  Any other
    node is left as it is, no node changes its classes, opacity, inline
    width or rendered width, and the controller, the listeners and the
    console are untouched. *)
Theorem setupTransitions_writes_transitions (w : World) :
  fst (setupTransitions w) = Normal tt
  ∧ (∀ n, leftEmpty (elems w) = Some n ∨ rightEmpty (elems w) = Some n →
       transition (style (node_get n (snd (setupTransitions w))))
       = width_transition (transitionDuration (config w)))
  ∧ (∀ n, navbarItemsSection (elems w) = Some n →
       leftEmpty (elems w) ≠ Some n → rightEmpty (elems w) ≠ Some n →
       transition (style (node_get n (snd (setupTransitions w))))
       = opacity_transition (transitionDuration (config w)))
  ∧ (∀ n, navbarItemsSection (elems w) ≠ Some n →
       leftEmpty (elems w) ≠ Some n → rightEmpty (elems w) ≠ Some n →
       node_get n (snd (setupTransitions w)) = node_get n w)
  ∧ (∀ n,
       classList (node_get n (snd (setupTransitions w)))
       = classList (node_get n w)
       ∧ opacity (style (node_get n (snd (setupTransitions w))))
         = opacity (style (node_get n w))
       ∧ width (style (node_get n (snd (setupTransitions w))))
         = width (style (node_get n w))
       ∧ offsetWidth (node_get n (snd (setupTransitions w)))
         = offsetWidth (node_get n w))
  ∧ this (snd (setupTransitions w)) = this w
  ∧ listeners (snd (setupTransitions w)) = listeners w
  ∧ console (snd (setupTransitions w)) = console w.
Proof.
  rewrite setupTransitions_eq. cbn [fst snd].
  split; [reflexivity|].
  split; [intros n; apply transitions_set_spacer|].
  split; [intros n; apply transitions_set_items|].
  split; [intros n; apply transitions_set_elsewhere|].
  split; [intros n; apply transitions_set_keeps|].
  split; [apply this_transitions_set|].
  apply rest_transitions_set.
Qed.

Lemma setupTransitions_writes_transitions_witness :
  transition (style (node_get 3%nat (snd (setupTransitions readme_world))))
  = "width 200ms ease-in-out"
  ∧ transition (style (node_get 5%nat (snd (setupTransitions readme_world))))
    = "opacity 200ms ease-in-out"
  ∧ node_get 0%nat (snd (setupTransitions readme_world))
    = node_get 0%nat readme_world.
Proof.
  destruct (setupTransitions_writes_transitions readme_world)
    as (_ & Hs & Hi & Ho & _).
  split; [rewrite Hs; [reflexivity | right; reflexivity]|].
  split; [rewrite Hi; try reflexivity; vm_compute; discriminate|].
  apply Ho; vm_compute; discriminate.
Defined.

(** ** Reconfiguration, continued *)

Lemma updateConfig_this newConfig w :
  this (snd (updateConfig newConfig w))
  = with_config (spread (config w) newConfig) (this w).
Proof.
  rewrite updateConfig_eq. cbn [snd]. cbn zeta.
  destruct (truthy_num _); [rewrite this_transitions_set|]; reflexivity.
Qed.

(** X3: a truthy duration is applied.  After
    [updateConfig({transitionDuration: d})] with [d] other than 0 the
    configuration holds [d], every spacer that is present carries the width
    transition for [d] and the items section (when it is no spacer) the
    opacity transition for [d]. *)
Theorem updateConfig_applies_duration (d : Z) (w : World) :
  d ≠ 0 →
  transitionDuration
    (getConfig (snd (updateConfig (only f_transitionDuration d) w))) = d
  ∧ (∀ n, leftEmpty (elems w) = Some n ∨ rightEmpty (elems w) = Some n →
       transition (style (node_get n
         (snd (updateConfig (only f_transitionDuration d) w))))
       = width_transition d)
  ∧ (∀ n, navbarItemsSection (elems w) = Some n →
       leftEmpty (elems w) ≠ Some n → rightEmpty (elems w) ≠ Some n →
       transition (style (node_get n
         (snd (updateConfig (only f_transitionDuration d) w))))
       = opacity_transition d).
Proof.
  intros Hd.
  assert (Ht : truthy_num (opt_transitionDuration (only f_transitionDuration d))
               = true).
  { cbn. destruct (Z.eqb_spec d 0); [contradiction | reflexivity]. }
  rewrite getConfig_config, updateConfig_config.
  split; [reflexivity|].
  rewrite updateConfig_eq. cbn [snd]. cbn zeta. rewrite Ht.
  split.
  - intros n Hn. rewrite transitions_set_spacer by exact Hn. reflexivity.
  - intros n Hi Hl Hr. rewrite transitions_set_items by assumption.
    reflexivity.
Qed.

Lemma updateConfig_applies_duration_witness :
  transition (style (node_get 1%nat
    (snd (updateConfig (only f_transitionDuration 250) readme_world))))
  = "width 250ms ease-in-out"
  ∧ transition (style (node_get 5%nat
      (snd (updateConfig (only f_transitionDuration 250) readme_world))))
    = "opacity 250ms ease-in-out".
Proof.
  destruct (updateConfig_applies_duration 250 readme_world) as (_ & Hs & Hi);
    [discriminate|].
  split.
  - rewrite Hs; [reflexivity | left; reflexivity].
  - rewrite Hi; try reflexivity; vm_compute; discriminate.
Defined.

(** X4: whatever the partial record, [updateConfig] returns normally and
    only replaces the configuration and, possibly, transition declarations:
    the cached elements, the recorded widths, the scroll state, the
    listeners and the console are as before, and no node changes its
    classes, opacity, inline width or rendered width.  New selectors are
    never looked up and a new threshold has no effect of its own. *)
Theorem updateConfig_touches_nothing_else (newConfig : Options) (w : World) (n : node) :
  fst (updateConfig newConfig w) = Normal tt
  ∧ elems (snd (updateConfig newConfig w)) = elems w
  ∧ dimensions (snd (updateConfig newConfig w)) = dimensions w
  ∧ scrollState (snd (updateConfig newConfig w)) = scrollState w
  ∧ listeners (snd (updateConfig newConfig w)) = listeners w
  ∧ console (snd (updateConfig newConfig w)) = console w
  ∧ classList (node_get n (snd (updateConfig newConfig w)))
    = classList (node_get n w)
  ∧ opacity (style (node_get n (snd (updateConfig newConfig w))))
    = opacity (style (node_get n w))
  ∧ width (style (node_get n (snd (updateConfig newConfig w))))
    = width (style (node_get n w))
  ∧ offsetWidth (node_get n (snd (updateConfig newConfig w)))
    = offsetWidth (node_get n w).
Proof.
  unfold elems, dimensions, scrollState. rewrite updateConfig_this.
  rewrite updateConfig_eq. cbn [fst snd]. cbn zeta.
  repeat (split; [reflexivity|]).
  destruct (truthy_num _).
  - match goal with |- context [transitions_set ?x] =>
      destruct (rest_transitions_set x) as [-> ->];
      destruct (transitions_set_keeps n x) as (-> & -> & -> & ->)
    end.
    repeat (split; [reflexivity|]). reflexivity.
  - repeat (split; [reflexivity|]). reflexivity.
Qed.

Lemma spread_no_options c : spread c no_options = c.
Proof. destruct c; reflexivity. Qed.


(** X5: [updateConfig({})] changes nothing at all: it returns normally with
    the world it was given. *)
Theorem updateConfig_empty_record (w : World) :
  updateConfig no_options w = (Normal tt, w).
Proof.
  rewrite updateConfig_eq. cbn zeta. cbn [truthy_num opt_transitionDuration no_options].
  f_equal. destruct w as [[cfg e d s] nd y r l co]. unfold with_this, with_config.
  cbn. rewrite spread_no_options. reflexivity.
Qed.

(** X6: updates compose by key.  After [updateConfig({x: v})] followed by
    [updateConfig({y: u})] the configuration has [u] at [y]; when [x] and
    [y] are different fields it also has [v] at [x], every third field is as
    before, and the configuration is the same as after the two updates in
    the other order. *)
Theorem updateConfig_twice
  (x y : Field) (v : field_type x) (u : field_type y) (w : World) :
  field_get y (getConfig (snd (updateConfig (only y u)
                 (snd (updateConfig (only x v) w))))) = u
  ∧ (x ≠ y →
       field_get x (getConfig (snd (updateConfig (only y u)
                      (snd (updateConfig (only x v) w))))) = v
       ∧ (∀ z, z ≠ x → z ≠ y →
            field_get z (getConfig (snd (updateConfig (only y u)
                           (snd (updateConfig (only x v) w)))))
            = field_get z (getConfig w))
       ∧ getConfig (snd (updateConfig (only y u)
                      (snd (updateConfig (only x v) w))))
         = getConfig (snd (updateConfig (only x v)
                        (snd (updateConfig (only y u) w))))).
Proof.
  rewrite !getConfig_config, !updateConfig_config.
  split; [destruct y; reflexivity|].
  intros Hne. split; [|split].
  - destruct x, y; try reflexivity; congruence.
  - intros z Hzx Hzy. destruct x, y, z; try reflexivity; congruence.
  - destruct x, y; try reflexivity; congruence.
Qed.

Lemma updateConfig_twice_witness :
  getConfig (snd (updateConfig (only f_transitionDuration 250)
                    (snd (updateConfig (only f_scrollThreshold 15) readme_world))))
  = getConfig (snd (updateConfig (only f_scrollThreshold 15)
                      (snd (updateConfig (only f_transitionDuration 250)
                              readme_world))))
  ∧ field_get f_scrollThreshold
      (getConfig (snd (updateConfig (only f_transitionDuration 250)
                         (snd (updateConfig (only f_scrollThreshold 15)
                                 readme_world))))) = 15.
Proof.
  destruct (updateConfig_twice f_scrollThreshold f_transitionDuration 15 250
              readme_world) as (_ & H).
  destruct H as (Hx & _ & Hcomm); [discriminate|].
  split; [exact Hcomm | exact Hx].
Defined.

(** ** The scroll handler in any world *)

Lemma showNavbar_throws w :
  container (elems w) = None → ∃ e, showNavbar w = (Throw e, w).
Proof.
  intros H. unfold showNavbar, bind, read, deref, throw. rewrite H. eauto.
Qed.

Lemma hideNavbar_throws w :
  container (elems w) = None → ∃ e, hideNavbar w = (Throw e, w).
Proof.
  intros H. unfold hideNavbar, bind, read, deref, throw. rewrite H. eauto.
Qed.

(** The four ways [handleScroll] can end. *)
Lemma handleScroll_cases w :
  handleScroll w = (Normal tt, w)
  ∨ (∃ e, handleScroll w = (Throw e, w))
  ∨ (∃ c, container (elems w) = Some c
       ∧ isInitialized (scrollState w) = true
       ∧ scrollThreshold (config w)
         ≤ Z.abs (scrollY w - lastScrollY (scrollState w))
       ∧ handleScroll w
         = (Normal tt,
            with_this (fun t =>
              with_scrollState
                (with_lastScrollY (scrollY w) (this_scrollState t)) t)
              (if scrollY w <? lastScrollY (scrollState w)
               then shown c w else hidden c w))).
Proof.
  destruct (isInitialized (scrollState w)) eqn:Hinit.
  2: { left. apply handleScroll_uninitialized. exact Hinit. }
  destruct (Z_lt_le_dec (Z.abs (scrollY w - lastScrollY (scrollState w)))
                        (scrollThreshold (config w))) as [Hnear|Hfar].
  { left. apply handleScroll_quiet. exact Hnear. }
  destruct (container (elems w)) as [c|] eqn:Hc.
  - right. right. exists c. repeat (split; [assumption || reflexivity|]).
    apply handleScroll_eq; assumption.
  - right. left.
    unfold handleScroll, bind, read, ret. rewrite Hinit. cbn [negb].
    apply Z.ltb_ge in Hfar. rewrite Hfar. unfold updateNavbarState.
    destruct (scrollY w <? lastScrollY (scrollState w)).
    + destruct (showNavbar_throws w Hc) as [e ->]. eauto.
    + destruct (hideNavbar_throws w Hc) as [e ->]. eauto.
Qed.

Lemma shown_keeps c n w :
  transition (style (node_get n (shown c w)))
  = transition (style (node_get n w))
  ∧ offsetWidth (node_get n (shown c w)) = offsetWidth (node_get n w).
Proof. unfold shown, mark. split; node_cases. Qed.

Lemma hidden_keeps c n w :
  transition (style (node_get n (hidden c w)))
  = transition (style (node_get n w))
  ∧ offsetWidth (node_get n (hidden c w)) = offsetWidth (node_get n w).
Proof. unfold hidden, mark. split; node_cases. Qed.

(** X7: in any world, however it ends, [handleScroll] leaves the
    configuration, the element cache, the recorded widths, the initialized
    flag, the direction field and the listeners as they were, and changes
    no node's transition or rendered width. *)
Theorem handleScroll_leaves_caches (w : World) (n : node) :
  config (snd (handleScroll w)) = config w
  ∧ elems (snd (handleScroll w)) = elems w
  ∧ dimensions (snd (handleScroll w)) = dimensions w
  ∧ isInitialized (scrollState (snd (handleScroll w)))
    = isInitialized (scrollState w)
  ∧ isScrollingUp (scrollState (snd (handleScroll w)))
    = isScrollingUp (scrollState w)
  ∧ listeners (snd (handleScroll w)) = listeners w
  ∧ transition (style (node_get n (snd (handleScroll w))))
    = transition (style (node_get n w))
  ∧ offsetWidth (node_get n (snd (handleScroll w)))
    = offsetWidth (node_get n w).
Proof.
  destruct (handleScroll_cases w) as [-> | [[e ->] | (c & _ & _ & _ & ->)]];
    cbn [snd]; try (repeat (split; [reflexivity|]); reflexivity).
  unfold config, elems, dimensions, scrollState.
  cbn [this with_this this_config this_elements this_dimensions
       this_scrollState with_scrollState isInitialized isScrollingUp
       with_lastScrollY listeners].
  rewrite !node_get_with_this.
  destruct (scrollY w <? lastScrollY (this_scrollState (this w))).
  - rewrite this_shown. destruct (rest_shown c w) as [-> _].
    destruct (shown_keeps c n w) as [-> ->].
    repeat (split; [reflexivity|]); reflexivity.
  - rewrite this_hidden. destruct (rest_hidden c w) as [-> _].
    destruct (hidden_keeps c n w) as [-> ->].
    repeat (split; [reflexivity|]); reflexivity.
Qed.

(** ** Classes other than the two markers *)

Lemma classList_remove_keeps token other l :
  other ≠ token → In other (classList_remove token l) ↔ In other l.
Proof.
  intros Hne. unfold classList_remove. rewrite filter_In.
  apply String.eqb_neq in Hne. rewrite Hne. cbn. tauto.
Qed.

Lemma marker_false token :
  marker token = false → token ≠ "scroll-up" ∧ token ≠ "scroll-down".
Proof.
  unfold marker. intros H. apply orb_false_elim in H as [H1 H2].
  split; apply String.eqb_neq; assumption.
Qed.

Lemma classList_shown_at c n w :
  classList (node_get n (shown c w))
  = if decide (c = n)
    then classList_add "scroll-up"
           (classList_remove "scroll-down" (classList (node_get n w)))
    else classList (node_get n w).
Proof.
  unfold shown.
  rewrite !classList_restore, classList_opt_update_opacity.
  unfold mark. rewrite !node_get_update.
  destruct (decide (c = n)) as [->|]; [|reflexivity].
  destruct (decide (n = n)); [reflexivity | congruence].
Qed.

Lemma classList_hidden_at c n w :
  classList (node_get n (hidden c w))
  = if decide (c = n)
    then classList_add "scroll-down"
           (classList_remove "scroll-up" (classList (node_get n w)))
    else classList (node_get n w).
Proof.
  unfold hidden.
  rewrite !classList_opt_update_width, classList_opt_update_opacity.
  unfold mark. rewrite !node_get_update.
  destruct (decide (c = n)) as [->|]; [|reflexivity].
  destruct (decide (n = n)); [reflexivity | congruence].
Qed.

Lemma handleScroll_other_classes token n w :
  marker token = false →
  In token (classList (node_get n (snd (handleScroll w))))
  ↔ In token (classList (node_get n w)).
Proof.
  intros Hm. destruct (marker_false token Hm) as [Hup Hdown].
  destruct (handleScroll_cases w) as [-> | [[e ->] | (c & _ & _ & _ & ->)]];
    cbn [snd]; try tauto.
  rewrite node_get_with_this.
  destruct (scrollY w <? lastScrollY (scrollState w)).
  - rewrite classList_shown_at. destruct (decide (c = n)); [|tauto].
    rewrite classList_add_other, classList_remove_keeps by assumption. tauto.
  - rewrite classList_hidden_at. destruct (decide (c = n)); [|tauto].
    rewrite classList_add_other, classList_remove_keeps by assumption. tauto.
Qed.

(** X8: no event and no public method adds or removes a class other than
    'scroll-up' and 'scroll-down': for every other token, every node and
    every world, membership in the class list is the same before and after
    the step. *)
Theorem other_classes_untouched
  (ev : Event) (w : World) (n : node) (token : string) :
  marker token = false →
  In token (classList (node_get n (step ev w)))
  ↔ In token (classList (node_get n w)).
Proof.
  intros Hm. destruct ev as [y|m rendered| | |newConfig|]; cbn [step].
  - unfold dispatch. destruct (on_scroll _); [|tauto].
    pose proof (handleScroll_other_classes token n (with_scrollY y w) Hm) as H.
    destruct (handleScroll (with_scrollY y w)) as [[[]|e] w']; exact H.
  - rewrite node_get_update. destruct (decide (m = n)) as [->|]; tauto.
  - unfold dispatch, handleResize. rewrite updateDimensions_eq.
    destruct (on_resize _); [|tauto].
    destruct (measured_keeps n w) as (-> & _). tauto.
  - destruct (readyState w); try tauto.
    unfold dispatch. rewrite handleLoad_eq.
    destruct (on_DOMContentLoaded _); [|tauto].
    rewrite node_get_with_this.
    destruct (measured_keeps n (with_readyState interactive w)) as (-> & _).
    tauto.
  - rewrite updateConfig_eq. cbn [snd]. cbn zeta.
    destruct (truthy_num _); [|tauto].
    match goal with |- context [transitions_set ?x] =>
      destruct (transitions_set_keeps n x) as (-> & _) end.
    tauto.
  - tauto.
Qed.

Lemma other_classes_untouched_witness :
  In "sticky" (classList (node_get 0%nat
    (step (ScrollTo 50)
       (node_update 0%nat (with_classList (fun _ => ["sticky"])) readme_world)))).
Proof.
  apply (other_classes_untouched (ScrollTo 50)
           (node_update 0%nat (with_classList (fun _ => ["sticky"]))
              readme_world) 0%nat "sticky").
  - reflexivity.
  - vm_compute. left. reflexivity.
Defined.

(** ** What a scroll event records *)

Lemma scrollY_shown c w : scrollY (shown c w) = scrollY w.
Proof.
  unfold shown, restore, opt_update.
  repeat match goal with
         | |- context [match ?d with Some _ => _ | None => _ end] =>
             destruct d
         | |- context [if truthy_num ?x then _ else _] =>
             destruct (truthy_num x)
         end; reflexivity.
Qed.

Lemma scrollY_hidden c w : scrollY (hidden c w) = scrollY w.
Proof.
  unfold hidden, opt_update.
  repeat match goal with
         | |- context [match ?d with Some _ => _ | None => _ end] =>
             destruct d
         end; reflexivity.
Qed.

(** X9: after successful initialization a scroll event at least the
    threshold away from the recorded offset records the new offset,
    whichever the direction: [lastScrollY] is the offset of the event, the
    controller stays initialized, and the configuration, the cached elements
    and the recorded widths are as before. *)
Theorem qualifying_scroll_records_offset
  (document : Document) (w : World) (y : Z) :
  reachable document w →
  isInitialized (scrollState w) = true →
  scrollThreshold (config w) ≤ Z.abs (y - lastScrollY (scrollState w)) →
  lastScrollY (getScrollState (step (ScrollTo y) w)) = y
  ∧ isInitialized (getScrollState (step (ScrollTo y) w)) = true
  ∧ scrollY (step (ScrollTo y) w) = y
  ∧ config (step (ScrollTo y) w) = config w
  ∧ elems (step (ScrollTo y) w) = elems w
  ∧ dimensions (step (ScrollTo y) w) = dimensions w.
Proof.
  intros Hreach Hinit Hfar.
  pose proof (reachable_consistent document w Hreach) as Hw.
  destruct (initialized_container w Hw Hinit) as [c Hc].
  rewrite (step_scroll_far w y c Hw Hinit Hfar Hc).
  unfold getScrollState, config, elems, dimensions, scrollState in *.
  cbn [this with_this this_config this_elements this_dimensions
       this_scrollState with_scrollState lastScrollY isInitialized
       with_lastScrollY scrollY].
  destruct (y <? lastScrollY (this_scrollState (this w))).
  - rewrite this_shown, scrollY_shown. cbn [this with_scrollY scrollY].
    split; [reflexivity|]. split; [exact Hinit|].
    repeat (split; [reflexivity|]). reflexivity.
  - rewrite this_hidden, scrollY_hidden. cbn [this with_scrollY scrollY].
    split; [reflexivity|]. split; [exact Hinit|].
    repeat (split; [reflexivity|]). reflexivity.
Qed.

Lemma qualifying_scroll_records_offset_witness :
  lastScrollY (getScrollState (step (ScrollTo 50) readme_world)) = 50
  ∧ lastScrollY (getScrollState
      (step (ScrollTo 5) (step (ScrollTo 50) readme_world))) = 5.
Proof.
  split.
  - apply (qualifying_scroll_records_offset readme_document readme_world 50).
    + apply readme_world_reachable.
    + vm_compute. reflexivity.
    + vm_compute. discriminate.
  - apply (qualifying_scroll_records_offset readme_document
             (step (ScrollTo 50) readme_world) 5).
    + apply reachable_step, readme_world_reachable.
    + vm_compute. reflexivity.
    + vm_compute. discriminate.
Defined.

Lemma step_scroll_quiet y w :
  Z.abs (y - lastScrollY (scrollState w)) < scrollThreshold (config w) →
  step (ScrollTo y) w = with_scrollY y w.
Proof.
  intros H. cbn [step]. apply dispatch_returns.
  apply handleScroll_quiet. exact H.
Qed.

(** X10: small movements are measured against the recorded offset, not
    against each other.  A run of scroll events each of which is closer than
    the threshold to the recorded offset changes nothing, however far apart
    the events are from one another: the controller, every node, the
    listeners and the console are as before the run. *)
Theorem quiet_scrolls_change_nothing (ys : list Z) (w : World) :
  Forall (fun y =>
    Z.abs (y - lastScrollY (scrollState w)) < scrollThreshold (config w)) ys →
  this (run (map ScrollTo ys) w) = this w
  ∧ nodes (run (map ScrollTo ys) w) = nodes w
  ∧ listeners (run (map ScrollTo ys) w) = listeners w
  ∧ console (run (map ScrollTo ys) w) = console w.
Proof.
  revert w. induction ys as [|y ys IH]; intros w Hall.
  - repeat split.
  - change (map ScrollTo (y :: ys)) with (ScrollTo y :: map ScrollTo ys).
    rewrite run_cons.
    inversion Hall as [|? ? Hy Hys]; subst.
    rewrite (step_scroll_quiet y w Hy).
    apply (IH (with_scrollY y w)). exact Hys.
Qed.

Lemma quiet_scrolls_change_nothing_witness :
  this (run (map ScrollTo [9; -9; 9; -9]) readme_world) = this readme_world
  ∧ nodes (run (map ScrollTo [9; -9; 9; -9]) readme_world)
    = nodes readme_world.
Proof.
  destruct (quiet_scrolls_change_nothing [9; -9; 9; -9] readme_world)
    as (Ht & Hn & _).
  - repeat constructor.
  - split; assumption.
Defined.

(** X11: an event at the recorded offset counts as scrolling down.  With a
    threshold of zero or less every scroll event qualifies, so after
    successful initialization a scroll event that does not move the page
    hides the navbar: 'scroll-down' is on the container, the items section
    has opacity '0' and every spacer that is present has inline width
    '0px'. *)
Theorem motionless_scroll_hides (document : Document) (w : World) :
  reachable document w →
  isInitialized (scrollState w) = true →
  scrollThreshold (config w) ≤ 0 →
  (∃ c i,
     container (elems w) = Some c ∧ navbarItemsSection (elems w) = Some i
     ∧ In "scroll-down"
         (classList (node_get c
            (step (ScrollTo (lastScrollY (scrollState w))) w)))
     ∧ ¬ In "scroll-up"
         (classList (node_get c
            (step (ScrollTo (lastScrollY (scrollState w))) w)))
     ∧ opacity (style (node_get i
         (step (ScrollTo (lastScrollY (scrollState w))) w))) = "0")
  ∧ (∀ n, leftEmpty (elems w) = Some n ∨ rightEmpty (elems w) = Some n →
       width (style (node_get n
         (step (ScrollTo (lastScrollY (scrollState w))) w))) = "0px").
Proof.
  intros Hreach Hinit Hthr.
  pose proof (reachable_consistent document w Hreach) as Hw.
  destruct (initialized_container w Hw Hinit) as [c Hc].
  destruct (initialized_items w Hw Hinit) as [i Hi].
  assert (Hfar : scrollThreshold (config w)
                 ≤ Z.abs (lastScrollY (scrollState w)
                          - lastScrollY (scrollState w)))
    by (rewrite Z.sub_diag; exact Hthr).
  rewrite (step_scroll_far w _ c Hw Hinit Hfar Hc), Z.ltb_irrefl.
  split.
  - exists c, i. split; [exact Hc|]. split; [exact Hi|].
    rewrite !node_get_with_this, classList_hidden.
    split; [|split].
    + apply markers_swapped. discriminate.
    + apply markers_swapped. discriminate.
    + apply opacity_hidden. exact Hi.
  - intros n Hn. rewrite node_get_with_this. apply width_hidden. exact Hn.
Qed.

Lemma motionless_scroll_hides_witness :
  width (style (node_get 1%nat
    (step (ScrollTo 0)
       (step (CallUpdateConfig (only f_scrollThreshold 0)) readme_world))))
  = "0px".
Proof.
  destruct (motionless_scroll_hides readme_document
              (step (CallUpdateConfig (only f_scrollThreshold 0)) readme_world))
    as (_ & Hwidth).
  - apply reachable_step, readme_world_reachable.
  - vm_compute. reflexivity.
  - vm_compute. discriminate.
  - apply (Hwidth 1%nat). left. vm_compute. reflexivity.
Defined.

(** ** Applying the same state twice *)

Lemma element_ext (a b : Element) :
  classList a = classList b →
  transition (style a) = transition (style b) →
  opacity (style a) = opacity (style b) →
  width (style a) = width (style b) →
  offsetWidth a = offsetWidth b →
  a = b.
Proof.
  destruct a as [ca [ta oa wa] fa], b as [cb [tb ob wb] fb]. cbn.
  intros -> -> -> -> ->. reflexivity.
Qed.

Lemma classList_remove_absent token l :
  ¬ In token l → classList_remove token l = l.
Proof.
  unfold classList_remove. induction l as [|x l IH]; intros Hn; [reflexivity|].
  cbn. destruct (String.eqb_spec x token) as [->|Hne].
  - exfalso. apply Hn. left. reflexivity.
  - cbn. rewrite IH; [reflexivity|]. intros H. apply Hn. right. exact H.
Qed.

Lemma classList_add_present token l :
  In token l → classList_add token l = l.
Proof.
  intros Hin. unfold classList_add.
  destruct (existsb (String.eqb token) l) eqn:E; [reflexivity|].
  assert (existsb (String.eqb token) l = true); [|congruence].
  apply existsb_exists. exists token. split; [exact Hin|].
  apply String.eqb_refl.
Qed.

Lemma mark_twice gone there l :
  there ≠ gone →
  classList_add there
    (classList_remove gone (classList_add there (classList_remove gone l)))
  = classList_add there (classList_remove gone l).
Proof.
  intros Hne.
  destruct (markers_swapped gone there l Hne) as [Hgone Hthere].
  rewrite (classList_remove_absent gone _ Hgone).
  apply classList_add_present. exact Hthere.
Qed.

Lemma opacity_shown_at c n w :
  opacity (style (node_get n (shown c w)))
  = if decide (navbarItemsSection (elems w) = Some n) then "1"
    else opacity (style (node_get n w)).
Proof.
  unfold shown. rewrite !opacity_restore, node_get_opt_update.
  destruct (decide _); [reflexivity|].
  unfold mark. rewrite !node_get_update.
  repeat (destruct (decide _); subst); reflexivity.
Qed.

Lemma opacity_hidden_at c n w :
  opacity (style (node_get n (hidden c w)))
  = if decide (navbarItemsSection (elems w) = Some n) then "0"
    else opacity (style (node_get n w)).
Proof.
  unfold hidden. rewrite !opacity_opt_update_width, node_get_opt_update.
  destruct (decide _); [reflexivity|].
  unfold mark. rewrite !node_get_update.
  repeat (destruct (decide _); subst); reflexivity.
Qed.

(** The inline width [restore] leaves on a node that had width [x]. *)
Lemma width_restore o d n w :
  width (style (node_get n (restore o d w)))
  = if decide (o = Some n) then
      match d with
      | Some m => if truthy_num (Some m) then px m
                  else width (style (node_get n w))
      | None => width (style (node_get n w))
      end
    else width (style (node_get n w)).
Proof.
  rewrite node_get_restore. destruct (decide _); [|reflexivity].
  destruct d as [m|]; [|reflexivity]. destruct (truthy_num _); reflexivity.
Qed.

Lemma shown_twice c n w :
  node_get n (shown c (shown c w)) = node_get n (shown c w).
Proof.
  assert (Ht : this (shown c w) = this w) by apply this_shown.
  apply element_ext.
  - rewrite (classList_shown_at c n (shown c w)), classList_shown_at.
    destruct (decide (c = n)); [|reflexivity].
    apply mark_twice. discriminate.
  - rewrite (proj1 (shown_keeps c n (shown c w))). reflexivity.
  - rewrite (opacity_shown_at c n (shown c w)). unfold elems. rewrite Ht.
    fold (elems w). rewrite opacity_shown_at.
    destruct (decide _); reflexivity.
  - unfold shown at 1. rewrite !width_restore, width_shown_inner.
    unfold elems, dimensions. rewrite Ht. fold (elems w) (dimensions w).
    unfold shown. rewrite !width_restore, width_shown_inner.
    repeat match goal with
           | |- context [decide ?P] => destruct (decide P)
           | |- context [match ?d with Some _ => _ | None => _ end] =>
               destruct d
           | |- context [if truthy_num ?x then _ else _] =>
               destruct (truthy_num x) eqn:?
           end; congruence.
  - rewrite (proj2 (shown_keeps c n (shown c w))). reflexivity.
Qed.

Lemma width_hidden_at c n w :
  width (style (node_get n (hidden c w)))
  = if decide (rightEmpty (elems w) = Some n) then "0px"
    else if decide (leftEmpty (elems w) = Some n) then "0px"
    else width (style (node_get n w)).
Proof.
  unfold hidden. rewrite !node_get_opt_update.
  destruct (decide _); [reflexivity|].
  destruct (decide _); [reflexivity|].
  destruct (decide _); cbn [width style with_opacity];
    apply width_mark.
Qed.

Lemma hidden_twice c n w :
  node_get n (hidden c (hidden c w)) = node_get n (hidden c w).
Proof.
  assert (Ht : this (hidden c w) = this w) by apply this_hidden.
  apply element_ext.
  - rewrite (classList_hidden_at c n (hidden c w)), classList_hidden_at.
    destruct (decide (c = n)); [|reflexivity].
    apply mark_twice. discriminate.
  - rewrite (proj1 (hidden_keeps c n (hidden c w))). reflexivity.
  - rewrite (opacity_hidden_at c n (hidden c w)). unfold elems. rewrite Ht.
    fold (elems w). rewrite opacity_hidden_at.
    destruct (decide _); reflexivity.
  - rewrite (width_hidden_at c n (hidden c w)). unfold elems. rewrite Ht.
    fold (elems w). rewrite width_hidden_at.
    repeat (destruct (decide _); try reflexivity).
  - rewrite (proj2 (hidden_keeps c n (hidden c w))). reflexivity.
Qed.

(** [showNavbar] and [hideNavbar] read the cached elements and the recorded
    widths only, so they commute with a change of the scroll offsets. *)
Lemma shown_moved c y last w :
  shown c (with_scrollY y (with_this (fun t =>
    with_scrollState (with_lastScrollY last (this_scrollState t)) t) w))
  = with_scrollY y (with_this (fun t =>
      with_scrollState (with_lastScrollY last (this_scrollState t)) t)
      (shown c w)).
Proof.
  unfold shown, restore, opt_update, elems, dimensions.
  cbn [this with_this with_scrollY this_elements this_dimensions
       with_scrollState].
  repeat match goal with
         | |- context [match ?d with Some _ => _ | None => _ end] =>
             destruct d
         | |- context [if truthy_num ?x then _ else _] =>
             destruct (truthy_num x)
         end; reflexivity.
Qed.

Lemma hidden_moved c y last w :
  hidden c (with_scrollY y (with_this (fun t =>
    with_scrollState (with_lastScrollY last (this_scrollState t)) t) w))
  = with_scrollY y (with_this (fun t =>
      with_scrollState (with_lastScrollY last (this_scrollState t)) t)
      (hidden c w)).
Proof.
  unfold hidden, opt_update, elems.
  cbn [this with_this with_scrollY this_elements with_scrollState].
  repeat match goal with
         | |- context [match ?d with Some _ => _ | None => _ end] =>
             destruct d
         end; reflexivity.
Qed.

(** X12: applying a state again changes no node.  After successful
    initialization, when two scroll events in a row both qualify and go in
    the same direction, the second one leaves every node exactly as the
    first one left it (classes, inline style and rendered width). *)
Theorem same_direction_scroll_changes_no_node
  (document : Document) (w : World) (y1 y2 : Z) (n : node) :
  reachable document w →
  isInitialized (scrollState w) = true →
  scrollThreshold (config w) ≤ Z.abs (y1 - lastScrollY (scrollState w)) →
  scrollThreshold (config w) ≤ Z.abs (y2 - y1) →
  (y1 < lastScrollY (scrollState w) ∧ y2 < y1)
  ∨ (lastScrollY (scrollState w) ≤ y1 ∧ y1 ≤ y2) →
  node_get n (step (ScrollTo y2) (step (ScrollTo y1) w))
  = node_get n (step (ScrollTo y1) w).
Proof.
  intros Hreach Hinit Hfar1 Hfar2 Hdir.
  pose proof (reachable_consistent document w Hreach) as Hw.
  pose proof (consistent_step (ScrollTo y1) w Hw) as Hw1.
  destruct (initialized_container w Hw Hinit) as [c Hc].
  rewrite (step_scroll_far w y1 c Hw Hinit Hfar1 Hc) in *.
  set (state1 := if y1 <? lastScrollY (scrollState w)
                 then shown c (with_scrollY y1 w)
                 else hidden c (with_scrollY y1 w)) in *.
  assert (Hthis : this state1 = this w).
  { subst state1. destruct (_ <? _);
      [rewrite this_shown | rewrite this_hidden]; reflexivity. }
  set (w1 := with_this (fun t =>
               with_scrollState (with_lastScrollY y1 (this_scrollState t)) t)
               state1) in *.
  assert (Hinit1 : isInitialized (scrollState w1) = true).
  { subst w1. unfold scrollState. cbn. rewrite Hthis. exact Hinit. }
  assert (Hcfg1 : config w1 = config w).
  { subst w1. unfold config. cbn. rewrite Hthis. reflexivity. }
  assert (Hfar : scrollThreshold (config w1)
                 ≤ Z.abs (y2 - lastScrollY (scrollState w1)))
    by (rewrite Hcfg1; exact Hfar2).
  assert (Hc1 : container (elems w1) = Some c).
  { subst w1. unfold elems. cbn. rewrite Hthis. exact Hc. }
  rewrite (step_scroll_far w1 y2 c Hw1 Hinit1 Hfar Hc1).
  change (lastScrollY (scrollState w1)) with y1.
  rewrite node_get_with_this. subst w1.
  destruct Hdir as [[Hup1 Hup2] | [Hdown1 Hdown2]].
  - apply Z.ltb_lt in Hup1, Hup2. subst state1. rewrite Hup1, Hup2.
    rewrite shown_moved. apply shown_twice.
  - apply Z.ltb_ge in Hdown1, Hdown2. subst state1. rewrite Hdown1, Hdown2.
    rewrite hidden_moved. apply hidden_twice.
Qed.

Lemma same_direction_scroll_changes_no_node_witness :
  node_get 1%nat (step (ScrollTo 120) (step (ScrollTo 50) readme_world))
  = node_get 1%nat (step (ScrollTo 50) readme_world)
  ∧ node_get 0%nat (step (ScrollTo 120) (step (ScrollTo 50) readme_world))
    = node_get 0%nat (step (ScrollTo 50) readme_world).
Proof.
  split;
    apply (same_direction_scroll_changes_no_node readme_document readme_world
             50 120);
    first [ apply readme_world_reachable
          | vm_compute; reflexivity
          | vm_compute; discriminate
          | right; vm_compute; split; discriminate ].
Defined.

(** ** Construction, continued *)

Lemma lookups_inv document cfg e :
  lookups document cfg = Normal e →
  querySelector document (containerSelector cfg) = Returns (container e)
  ∧ querySelector document (ctaBtnContainerSelector cfg)
    = Returns (ctaBtnContainer e)
  ∧ querySelector document (logoContainerSelector cfg)
    = Returns (logoContainer e)
  ∧ querySelector document (navbarMainSectionSelector cfg)
    = Returns (navbarMainSection e)
  ∧ querySelector document (navbarItemsSectionSelector cfg)
    = Returns (navbarItemsSection e).
Proof.
  unfold lookups. intros H.
  destruct (querySelector document (containerSelector cfg)); [|discriminate].
  destruct (querySelector document (ctaBtnContainerSelector cfg));
    [|discriminate].
  destruct (querySelector document (logoContainerSelector cfg));
    [|discriminate].
  destruct (querySelector document (navbarMainSectionSelector cfg));
    [|discriminate].
  destruct (querySelector document (navbarItemsSectionSelector cfg));
    [|discriminate].
  injection H as <-. repeat split.
Qed.

(** X13: construction succeeds exactly when the five lookups return, the
    three required ones with an element, and the main section has a parent
    element.  Then nothing is logged and the controller listens for scroll.
    Otherwise, whatever the reason (a lookup that throws, a required
    element that is not found, a main section without parent), exactly one
    failure is logged, the controller is not initialized, no listener is
    registered, no width is recorded and no node of the page is touched. *)
Theorem construction_succeeds_iff
  (document : Document) (options : Options) (page : Page) :
  (isInitialized (getScrollState (new_CustomNavbarEffects document options page))
   = true
   ↔ resolvable document (spread defaults options))
  ∧ (resolvable document (spread defaults options) →
       console (new_CustomNavbarEffects document options page) = []
       ∧ on_scroll (listeners (new_CustomNavbarEffects document options page))
         = true)
  ∧ (¬ resolvable document (spread defaults options) →
       (∃ e, console (new_CustomNavbarEffects document options page)
             = [("CustomNavbarEffects initialization failed:", e)])
       ∧ listeners (new_CustomNavbarEffects document options page)
         = mkListeners false false false
       ∧ dimensions (new_CustomNavbarEffects document options page)
         = mkDimensions None None
       ∧ nodes (new_CustomNavbarEffects document options page)
         = page_nodes page).
Proof.
  unfold new_CustomNavbarEffects.
  destruct (cacheElements_cases document options page)
    as [(err & els & _ & _ & Hthrow)
       | (e & main & parent & Hlook & Hm & Hmain & Hp & Hc)].
  - assert (Hno : ¬ resolvable document (spread defaults options)).
    { intros (c & cta & logo & main & i & parent
              & Hc & Hcta & Hlogo & Hmain & Hi & Hp).
      pose proof (cacheElements_resolved document options page c cta logo
                    main i parent Hc Hcta Hlogo Hmain Hi Hp) as Hok.
      rewrite Hok in Hthrow. discriminate Hthrow. }
    rewrite (init_failed _ _ _ _ Hthrow). cbn [snd].
    split; [split; [discriminate | intros H; contradiction]|].
    split; [intros H; contradiction|].
    intros _. split; [eexists; reflexivity|]. repeat split.
  - assert (Hyes : resolvable document (spread defaults options)).
    { destruct (lookups_inv _ _ _ Hlook) as (Hc' & Hcta & Hlogo & Hmain' & Hi).
      apply missingElements_nil in Hm as ([c Hcs] & _ & [i His]).
      rewrite Hcs in Hc'. rewrite Hmain in Hmain'. rewrite His in Hi.
      exists c, (ctaBtnContainer e), (logoContainer e), main, i, parent.
      repeat (split; [assumption|]). exact Hp. }
    rewrite (init_ok _ _ _ Hc). cbn [snd].
    match goal with |- context [initialized (bound (transitions_set ?x))] =>
      destruct (frame_init_tail x) as (_ & Hco & Hinit);
      destruct (frame_bound (transitions_set x)) as (_ & _ & _ & Hl & _);
      destruct (frame_measured (bound (transitions_set x)))
        as (_ & _ & _ & Hl' & _)
    end.
    split; [split; [intros _; exact Hyes | intros _; exact Hinit]|].
    split; [|intros H; contradiction].
    intros _. split; [exact Hco|].
    unfold initialized. cbn [listeners with_this]. rewrite Hl'. exact Hl.
Qed.

Lemma readme_resolvable : resolvable readme_document (spread defaults no_options).
Proof.
  exists 0%nat, (Some 6%nat), (Some 4%nat), 2%nat, 5%nat, 0%nat.
  repeat split.
Qed.

Lemma construction_succeeds_iff_witness :
  isInitialized (getScrollState
    (new_CustomNavbarEffects readme_document no_options readme_page)) = true
  ∧ isInitialized (getScrollState
      (new_CustomNavbarEffects readme_document
         (only f_ctaBtnContainerSelector EmptyString) readme_page)) = false
  ∧ nodes (new_CustomNavbarEffects readme_document
             (only f_ctaBtnContainerSelector EmptyString) readme_page)
    = page_nodes readme_page.
Proof.
  destruct (construction_succeeds_iff readme_document no_options readme_page)
    as ([_ Hinit] & _).
  destruct (construction_succeeds_iff readme_document
              (only f_ctaBtnContainerSelector EmptyString) readme_page)
    as ([Honly _] & _ & Hfail).
  assert (Hno : ¬ resolvable readme_document
                  (spread defaults (only f_ctaBtnContainerSelector EmptyString))).
  { intros (c & cta & logo & main & i & parent & _ & Hcta & _).
    discriminate Hcta. }
  split; [apply Hinit, readme_resolvable|].
  split; [|apply Hfail; exact Hno].
  match goal with |- ?flag = false => destruct flag end; [|reflexivity].
  exfalso. apply Hno, Honly. reflexivity.
Defined.

(** X14: a main section without a parent element.  When the five lookups
    return, the three required ones with an element, but the main section
    is the root of the document, reading the children of its parent throws
    a TypeError; [init] catches and logs it, the controller is not
    initialized and registers no listener, and the element cache holds what
    the lookups returned, with both spacers absent. *)
Theorem orphan_main_section
  (document : Document) (options : Options) (page : Page)
  (c main i : node) (cta logo : option node) :
  querySelector document (containerSelector (spread defaults options))
  = Returns (Some c) →
  querySelector document (ctaBtnContainerSelector (spread defaults options))
  = Returns cta →
  querySelector document (logoContainerSelector (spread defaults options))
  = Returns logo →
  querySelector document (navbarMainSectionSelector (spread defaults options))
  = Returns (Some main) →
  querySelector document (navbarItemsSectionSelector (spread defaults options))
  = Returns (Some i) →
  parentElement document main = None →
  (∃ message,
     console (new_CustomNavbarEffects document options page)
     = [("CustomNavbarEffects initialization failed:", TypeError message)])
  ∧ isInitialized
      (getScrollState (new_CustomNavbarEffects document options page)) = false
  ∧ listeners (new_CustomNavbarEffects document options page)
    = mkListeners false false false
  ∧ elems (new_CustomNavbarEffects document options page)
    = mkElements (Some c) cta logo (Some main) (Some i) None None
  ∧ nodes (new_CustomNavbarEffects document options page) = page_nodes page.
Proof.
  intros Hc Hcta Hlogo Hmain Hi Hp. unfold new_CustomNavbarEffects.
  pose proof (lookups_returned document (spread defaults options)
                (Some c) cta logo (Some main) (Some i)
                Hc Hcta Hlogo Hmain Hi) as Hlook.
  destruct (cacheElements_orphan document (fresh options page) _ main Hlook)
    as [message Hthrow];
    [apply missingElements_nil;
     cbn [container navbarMainSection navbarItemsSection]; eauto
    | reflexivity | exact Hp |].
  rewrite (init_failed _ _ _ _ Hthrow). cbn [snd].
  split; [exists message; reflexivity|]. repeat split.
Qed.

Lemma orphan_main_section_witness :
  isInitialized (getScrollState
    (new_CustomNavbarEffects orphan_document no_options readme_page)) = false
  ∧ listeners (new_CustomNavbarEffects orphan_document no_options readme_page)
    = mkListeners false false false.
Proof.
  destruct (orphan_main_section orphan_document no_options readme_page
              0%nat 2%nat 5%nat (Some 6%nat) (Some 4%nat))
    as (_ & Hinit & Hl & _); try reflexivity.
  split; assumption.
Defined.

(** X24: a selector that is not valid.  When one of the five lookups throws,
    the rest of [cacheElements] does not run: [init] catches and logs the
    error of the first lookup that throws, [this.elements] is still the
    empty object, the controller is not initialized, no listener is
    registered, no width is recorded and no node of the page is touched;
    this is so even when every required element is in the document. *)
Theorem invalid_selector_fails_construction
  (document : Document) (options : Options) (page : Page) (err : JsError) :
  lookups document (spread defaults options) = Throw err →
  console (new_CustomNavbarEffects document options page)
  = [("CustomNavbarEffects initialization failed:", err)]
  ∧ elems (new_CustomNavbarEffects document options page)
    = mkElements None None None None None None None
  ∧ isInitialized
      (getScrollState (new_CustomNavbarEffects document options page)) = false
  ∧ listeners (new_CustomNavbarEffects document options page)
    = mkListeners false false false
  ∧ dimensions (new_CustomNavbarEffects document options page)
    = mkDimensions None None
  ∧ nodes (new_CustomNavbarEffects document options page) = page_nodes page.
Proof.
  intros Hthrow. unfold new_CustomNavbarEffects.
  rewrite (init_failed _ _ _ _
             (cacheElements_invalid document (fresh options page) err Hthrow)).
  repeat split.
Qed.

Lemma invalid_selector_fails_construction_witness :
  console (new_CustomNavbarEffects readme_document
             (only f_ctaBtnContainerSelector EmptyString) readme_page)
  = [("CustomNavbarEffects initialization failed:", empty_selector)]
  ∧ isInitialized (getScrollState
      (new_CustomNavbarEffects readme_document
         (only f_ctaBtnContainerSelector EmptyString) readme_page)) = false.
Proof.
  destruct (invalid_selector_fails_construction readme_document
              (only f_ctaBtnContainerSelector EmptyString) readme_page
              empty_selector) as (Hconsole & _ & Hinit & _);
    [reflexivity|].
  split; assumption.
Defined.

(** ** The world right after a successful construction *)


Lemma transitions_set_env w :
  scrollY (transitions_set w) = scrollY w
  ∧ readyState (transitions_set w) = readyState w.
Proof.
  unfold transitions_set, opt_update. cbn zeta.
  destruct (rightEmpty (elems w)), (leftEmpty (elems w)),
    (navbarItemsSection (elems w)); split; reflexivity.
Qed.

Lemma listeners_bound w :
  listeners (bound w)
  = mkListeners true true
      (match readyState w with
       | loading => true
       | _ => on_DOMContentLoaded (listeners w)
       end).
Proof.
  unfold bound. destruct (readyState w); try reflexivity.
  all: cbn [listeners with_this];
    match goal with |- context [measured ?x] =>
      destruct (frame_measured x) as (_ & _ & _ & -> & _) end; reflexivity.
Qed.

Lemma lastScrollY_bound w :
  lastScrollY (scrollState (bound w))
  = match readyState w with
    | loading => lastScrollY (scrollState w)
    | _ => scrollY w
    end.
Proof. unfold bound. destruct (readyState w); reflexivity. Qed.

Lemma bound_keeps n w :
  classList (node_get n (bound w)) = classList (node_get n w)
  ∧ opacity (style (node_get n (bound w))) = opacity (style (node_get n w))
  ∧ transition (style (node_get n (bound w)))
    = transition (style (node_get n w))
  ∧ offsetWidth (node_get n (bound w)) = offsetWidth (node_get n w).
Proof.
  unfold bound. destruct (readyState w);
    try (repeat split; reflexivity).
  all: rewrite node_get_with_this;
    match goal with |- context [measured ?x] =>
      destruct (measured_keeps n x) as (-> & -> & -> & ->) end;
    repeat split; reflexivity.
Qed.

(** What the tail of [init] leaves on a spacer. *)
Lemma init_tail_spacer n w :
  leftEmpty (elems w) = Some n ∨ rightEmpty (elems w) = Some n →
  recorded_width n (initialized (bound (transitions_set w)))
  = Some (offsetWidth (node_get n w))
  ∧ width (style (node_get n (initialized (bound (transitions_set w)))))
    = px (offsetWidth (node_get n w))
  ∧ transition (style (node_get n (initialized (bound (transitions_set w)))))
    = width_transition (transitionDuration (config w)).
Proof.
  intros Hn.
  set (w2 := bound (transitions_set w)).
  assert (He : elems w2 = elems w).
  { subst w2. destruct (frame_bound (transitions_set w)) as (_ & -> & _).
    unfold elems. rewrite this_transitions_set. reflexivity. }
  assert (Hoff : offsetWidth (node_get n w2) = offsetWidth (node_get n w)).
  { subst w2. destruct (bound_keeps n (transitions_set w)) as (_ & _ & _ & ->).
    apply transitions_set_keeps. }
  assert (Htr : transition (style (node_get n w2))
                = width_transition (transitionDuration (config w))).
  { subst w2. destruct (bound_keeps n (transitions_set w)) as (_ & _ & -> & _).
    apply transitions_set_spacer. exact Hn. }
  unfold initialized, recorded_width, elems, dimensions.
  cbn [this with_this this_elements this_dimensions with_scrollState].
  rewrite !node_get_with_this.
  fold (elems (measured w2)) (dimensions (measured w2)).
  destruct (frame_measured w2) as (_ & Hem & _).
  rewrite Hem, He.
  destruct (measured_keeps n w2) as (_ & _ & -> & _).
  split; [|split; [|exact Htr]].
  - destruct (decide (leftEmpty (elems w) = Some n)) as [Hl|Hl].
    + rewrite <- He in Hl. destruct (measured_left n w2 Hl) as [-> _].
      rewrite Hoff. reflexivity.
    + destruct Hn as [Hn|Hn]; [contradiction|].
      rewrite <- He in Hn. destruct (measured_right n w2 Hn) as [-> _].
      rewrite Hoff. reflexivity.
  - rewrite <- Hoff. rewrite <- He in Hn. destruct Hn as [Hn|Hn].
    + apply (measured_left n w2 Hn).
    + apply (measured_right n w2 Hn).
Qed.

(** X15: what a successful construction leaves behind.  Every spacer that is
    present (child 0 or 2 of the parent of the main section) has the width
    the page rendered it at recorded and pinned as inline width, and carries
    the width transition of the configured duration; the scroll and the
    resize listener are registered, and the DOMContentLoaded listener
    exactly when the document was still loading. *)
Theorem construction_measures_spacers
  (document : Document) (options : Options) (page : Page)
  (c main i parent n : node) (cta logo : option node) :
  querySelector document (containerSelector (spread defaults options))
  = Returns (Some c) →
  querySelector document (ctaBtnContainerSelector (spread defaults options))
  = Returns cta →
  querySelector document (logoContainerSelector (spread defaults options))
  = Returns logo →
  querySelector document (navbarMainSectionSelector (spread defaults options))
  = Returns (Some main) →
  querySelector document (navbarItemsSectionSelector (spread defaults options))
  = Returns (Some i) →
  parentElement document main = Some parent →
  children document parent !! 0%nat = Some n
  ∨ children document parent !! 2%nat = Some n →
  recorded_width n (new_CustomNavbarEffects document options page)
  = Some (offsetWidth (default blank (page_nodes page !! n)))
  ∧ width (style (node_get n (new_CustomNavbarEffects document options page)))
    = px (offsetWidth (default blank (page_nodes page !! n)))
  ∧ transition
      (style (node_get n (new_CustomNavbarEffects document options page)))
    = width_transition (transitionDuration (spread defaults options))
  ∧ listeners (new_CustomNavbarEffects document options page)
    = mkListeners true true
        (match page_readyState page with loading => true | _ => false end).
Proof.
  intros Hc Hcta Hlogo Hmain Hi Hp Hn.
  pose proof (cacheElements_resolved document options page c cta logo main i
                parent Hc Hcta Hlogo Hmain Hi Hp) as Hfound.
  unfold new_CustomNavbarEffects. rewrite (init_ok _ _ _ Hfound). cbn [snd].
  match goal with |- context [initialized (bound (transitions_set ?x))] =>
    set (w1 := x) end.
  destruct (init_tail_spacer n w1) as (Hrec & Hwidth & Htr).
  { destruct Hn as [Hn|Hn]; [left | right]; exact Hn. }
  split; [exact Hrec|]. split; [exact Hwidth|]. split; [exact Htr|].
  unfold initialized. cbn [listeners with_this].
  destruct (frame_measured (bound (transitions_set w1))) as (_ & _ & _ & -> & _).
  rewrite listeners_bound.
  destruct (transitions_set_env w1) as [_ ->].
  destruct (rest_transitions_set w1) as [-> _].
  subst w1. cbn [readyState with_this fresh listeners on_DOMContentLoaded].
  destruct (page_readyState page); reflexivity.
Qed.

Lemma construction_measures_spacers_witness :
  recorded_width 3%nat
    (new_CustomNavbarEffects readme_document (only f_transitionDuration 300)
       loading_page) = Some 60
  ∧ transition (style (node_get 3%nat
      (new_CustomNavbarEffects readme_document (only f_transitionDuration 300)
         loading_page))) = "width 300ms ease-in-out"
  ∧ listeners
      (new_CustomNavbarEffects readme_document (only f_transitionDuration 300)
         loading_page) = mkListeners true true true.
Proof.
  destruct (construction_measures_spacers readme_document
              (only f_transitionDuration 300) loading_page
              0%nat 2%nat 5%nat 0%nat 3%nat (Some 6%nat) (Some 4%nat))
    as (Hrec & _ & Htr & Hl); try reflexivity.
  - right. reflexivity.
  - split; [rewrite Hrec; reflexivity|]. split; [rewrite Htr; reflexivity|].
    exact Hl.
Defined.

(** ** The offset recorded at load *)

(** X16: the first scroll is measured against the offset at load.  After a
    successful construction on a document that is no longer loading,
    [lastScrollY] is the scroll offset of the page at that moment; on a
    document that is still loading the load handler is deferred and
    [lastScrollY] is 0. *)
Theorem construction_records_load_offset
  (document : Document) (options : Options) (page : Page)
  (c main i parent : node) (cta logo : option node) :
  querySelector document (containerSelector (spread defaults options))
  = Returns (Some c) →
  querySelector document (ctaBtnContainerSelector (spread defaults options))
  = Returns cta →
  querySelector document (logoContainerSelector (spread defaults options))
  = Returns logo →
  querySelector document (navbarMainSectionSelector (spread defaults options))
  = Returns (Some main) →
  querySelector document (navbarItemsSectionSelector (spread defaults options))
  = Returns (Some i) →
  parentElement document main = Some parent →
  lastScrollY (getScrollState (new_CustomNavbarEffects document options page))
  = match page_readyState page with
    | loading => 0
    | _ => page_scrollY page
    end.
Proof.
  intros Hc Hcta Hlogo Hmain Hi Hp.
  pose proof (cacheElements_resolved document options page c cta logo main i
                parent Hc Hcta Hlogo Hmain Hi Hp) as Hfound.
  unfold new_CustomNavbarEffects. rewrite (init_ok _ _ _ Hfound). cbn [snd].
  match goal with |- context [initialized (bound (transitions_set ?x))] =>
    set (w1 := x) end.
  unfold getScrollState, initialized, scrollState.
  cbn [lastScrollY this with_this this_scrollState with_scrollState
       with_isInitialized].
  fold (scrollState (measured (bound (transitions_set w1)))).
  destruct (frame_measured (bound (transitions_set w1))) as (_ & _ & -> & _).
  rewrite lastScrollY_bound.
  destruct (transitions_set_env w1) as [-> ->].
  unfold scrollState. rewrite this_transitions_set.
  subst w1. cbn. reflexivity.
Qed.

Lemma construction_records_load_offset_witness :
  lastScrollY (getScrollState
    (new_CustomNavbarEffects readme_document no_options readme_page_at_100))
  = 100
  ∧ lastScrollY (getScrollState
      (new_CustomNavbarEffects readme_document no_options loading_page)) = 0.
Proof.
  split.
  - apply (construction_records_load_offset readme_document no_options
             readme_page_at_100 0%nat 2%nat 5%nat 0%nat
             (Some 6%nat) (Some 4%nat)); reflexivity.
  - apply (construction_records_load_offset readme_document no_options
             loading_page 0%nat 2%nat 5%nat 0%nat
             (Some 6%nat) (Some 4%nat)); reflexivity.
Defined.

(** X17: the deferred load handler.  While the document is loading and the
    DOMContentLoaded listener is registered, the event runs [handleLoad]:
    the spacers are measured again and [lastScrollY] becomes the current
    scroll offset, with the initialized flag, the configuration and the
    cached elements unchanged. *)
Theorem content_loaded_records_offset (w : World) :
  readyState w = loading →
  on_DOMContentLoaded (listeners w) = true →
  lastScrollY (getScrollState (step DOMContentLoaded w)) = scrollY w
  ∧ (∀ n, leftEmpty (elems w) = Some n →
       leftEmptyWidth (dimensions (step DOMContentLoaded w))
       = Some (offsetWidth (node_get n w))
       ∧ width (style (node_get n (step DOMContentLoaded w)))
         = px (offsetWidth (node_get n w)))
  ∧ (∀ n, rightEmpty (elems w) = Some n →
       rightEmptyWidth (dimensions (step DOMContentLoaded w))
       = Some (offsetWidth (node_get n w))
       ∧ width (style (node_get n (step DOMContentLoaded w)))
         = px (offsetWidth (node_get n w)))
  ∧ isInitialized (getScrollState (step DOMContentLoaded w))
    = isInitialized (getScrollState w)
  ∧ config (step DOMContentLoaded w) = config w
  ∧ elems (step DOMContentLoaded w) = elems w.
Proof.
  intros Hloading Hlistens.
  assert (Hstep : step DOMContentLoaded w
                  = with_this (fun t =>
                      with_scrollState
                        (with_lastScrollY (scrollY w) (this_scrollState t)) t)
                      (measured (with_readyState interactive w))).
  { cbn [step]. rewrite Hloading. unfold dispatch.
    cbn [listeners with_readyState]. rewrite Hlistens, handleLoad_eq.
    reflexivity. }
  rewrite Hstep.
  set (w0 := with_readyState interactive w).
  destruct (frame_measured w0) as (Hcfg & He & Hs & _).
  split; [reflexivity|].
  split; [intros n Hn; rewrite node_get_with_this;
          apply (measured_left n w0 Hn)|].
  split; [intros n Hn; rewrite node_get_with_this;
          apply (measured_right n w0 Hn)|].
  split.
  { unfold getScrollState, scrollState in *.
    cbn [isInitialized this with_this this_scrollState with_scrollState
         with_lastScrollY].
    rewrite Hs. reflexivity. }
  split; [exact Hcfg | exact He].
Qed.

Lemma content_loaded_records_offset_witness :
  lastScrollY (getScrollState
    (step DOMContentLoaded
       (step (ScrollTo 7)
          (new_CustomNavbarEffects readme_document no_options loading_page))))
  = 7.
Proof.
  destruct (content_loaded_records_offset
              (step (ScrollTo 7)
                 (new_CustomNavbarEffects readme_document no_options
                    loading_page))) as (Hlast & _);
    [reflexivity | reflexivity |].
  rewrite Hlast. reflexivity.
Defined.

(** ** After teardown *)

Lemma step_isInitialized ev w :
  isInitialized (scrollState (step ev w))
  = match ev with
    | CallDestroy => false
    | _ => isInitialized (scrollState w)
    end.
Proof.
  destruct ev as [y|m rendered| | |newConfig|]; cbn [step].
  - unfold dispatch. destruct (on_scroll _); [|reflexivity].
    destruct (handleScroll_cases (with_scrollY y w))
      as [-> | [[e ->] | (c & _ & _ & _ & ->)]]; try reflexivity.
    unfold scrollState. cbn [this with_this this_scrollState with_scrollState
                             isInitialized with_lastScrollY].
    destruct (_ <? _); [rewrite this_shown | rewrite this_hidden];
      reflexivity.
  - reflexivity.
  - unfold dispatch, handleResize. rewrite updateDimensions_eq.
    destruct (on_resize _); [|reflexivity].
    destruct (frame_measured w) as (_ & _ & -> & _). reflexivity.
  - destruct (readyState w); try reflexivity.
    unfold dispatch. rewrite handleLoad_eq.
    destruct (on_DOMContentLoaded _); [|reflexivity].
    unfold scrollState. cbn [this with_this this_scrollState with_scrollState
                             isInitialized with_lastScrollY].
    fold (scrollState (measured (with_readyState interactive w))).
    destruct (frame_measured (with_readyState interactive w))
      as (_ & _ & -> & _). reflexivity.
  - unfold scrollState. rewrite updateConfig_this. reflexivity.
  - reflexivity.
Qed.

Lemma step_unheard ev w :
  listeners w = mkListeners false false false →
  listeners (step ev w) = mkListeners false false false
  ∧ (page_event ev = true →
       this (step ev w) = this w
       ∧ console (step ev w) = console w
       ∧ ∀ n, classList (node_get n (step ev w)) = classList (node_get n w)
              ∧ style (node_get n (step ev w)) = style (node_get n w)).
Proof.
  intros Hl. destruct ev as [y|m rendered| | |newConfig|]; cbn [step].
  - unfold dispatch. cbn [listeners with_scrollY]. rewrite Hl.
    cbn [on_scroll]. split; [exact Hl|]. intros _. repeat split.
  - split; [exact Hl|]. intros _. split; [reflexivity|].
    split; [reflexivity|]. intros n. rewrite node_get_update.
    destruct (decide (m = n)) as [->|]; split; reflexivity.
  - unfold dispatch. rewrite Hl. cbn [on_resize].
    split; [exact Hl|]. intros _. repeat split.
  - destruct (readyState w).
    + unfold dispatch. cbn [listeners with_readyState]. rewrite Hl.
      cbn [on_DOMContentLoaded]. split; [exact Hl|]. intros _. repeat split.
    + split; [exact Hl|]. intros _. repeat split.
    + split; [exact Hl|]. intros _. repeat split.
  - split; [|discriminate].
    rewrite updateConfig_eq. cbn [snd]. cbn zeta.
    destruct (truthy_num _); [|exact Hl].
    match goal with |- context [transitions_set ?x] =>
      destruct (rest_transitions_set x) as [-> _] end. exact Hl.
  - split; [reflexivity | discriminate].
Qed.

Lemma run_unheard evs w n :
  isInitialized (scrollState w) = false →
  listeners w = mkListeners false false false →
  isInitialized (scrollState (run evs w)) = false
  ∧ listeners (run evs w) = mkListeners false false false
  ∧ (forallb page_event evs = true →
       this (run evs w) = this w
       ∧ console (run evs w) = console w
       ∧ classList (node_get n (run evs w)) = classList (node_get n w)
       ∧ style (node_get n (run evs w)) = style (node_get n w)).
Proof.
  revert w. induction evs as [|ev evs IH]; intros w Hinit Hl.
  - repeat split; assumption.
  - rewrite run_cons.
    destruct (step_unheard ev w Hl) as [Hl' Hpage].
    assert (Hinit' : isInitialized (scrollState (step ev w)) = false).
    { rewrite step_isInitialized. destruct ev; try exact Hinit. reflexivity. }
    destruct (IH (step ev w) Hinit' Hl') as (H1 & H2 & H3).
    split; [exact H1|]. split; [exact H2|].
    intros Hall. cbn [forallb] in Hall.
    apply andb_true_iff in Hall as [Hev Hevs].
    destruct (Hpage Hev) as (Ht & Hc & Hn).
    destruct (H3 Hevs) as (-> & -> & -> & ->).
    destruct (Hn n) as [-> ->]. repeat split; assumption.
Qed.

(** X18: a destroyed controller stays destroyed.  After [destroy], whatever
    follows (scroll, resize, DOMContentLoaded, layout, [updateConfig],
    [destroy] again), the initialized flag stays false and no listener is
    registered again; and as long as only events of the page follow, the
    controller object, the console and the classes and inline style of
    every node stay as [destroy] left them. *)
Theorem destroyed_stays_destroyed (evs : list Event) (w : World) (n : node) :
  isInitialized (getScrollState (run evs (step CallDestroy w))) = false
  ∧ listeners (run evs (step CallDestroy w)) = mkListeners false false false
  ∧ (forallb page_event evs = true →
       this (run evs (step CallDestroy w)) = this (step CallDestroy w)
       ∧ console (run evs (step CallDestroy w)) = console w
       ∧ classList (node_get n (run evs (step CallDestroy w)))
         = classList (node_get n w)
       ∧ style (node_get n (run evs (step CallDestroy w)))
         = style (node_get n w)).
Proof.
  cbn [step]. rewrite destroy_eq. cbn [snd].
  match goal with |- context [run evs ?x] => set (w' := x) end.
  destruct (run_unheard evs w' n) as (H1 & H2 & H3); try reflexivity.
  split; [exact H1|]. split; [exact H2|]. exact H3.
Qed.

Lemma destroyed_stays_destroyed_witness :
  style (node_get 1%nat
    (run [Layout 1%nat 0; Resize; ScrollTo 50; DOMContentLoaded; ScrollTo 5]
       (step CallDestroy readme_world)))
  = style (node_get 1%nat readme_world).
Proof.
  destruct (destroyed_stays_destroyed
              [Layout 1%nat 0; Resize; ScrollTo 50; DOMContentLoaded; ScrollTo 5]
              readme_world 1%nat) as (_ & _ & H).
  apply H. reflexivity.
Defined.

(** ** A resize while a spacer is rendered at zero width *)

Lemma step_listeners ev w :
  ev ≠ CallDestroy → listeners (step ev w) = listeners w.
Proof.
  intros Hev. destruct ev as [y|m rendered| | |newConfig|]; cbn [step];
    try congruence.
  - unfold dispatch. destruct (on_scroll _); [|reflexivity].
    destruct (handleScroll_cases (with_scrollY y w))
      as [-> | [[e ->] | (c & _ & _ & _ & ->)]]; try reflexivity.
    cbn [listeners with_this].
    destruct (_ <? _);
      [apply (rest_shown c (with_scrollY y w))
      | apply (rest_hidden c (with_scrollY y w))].
  - reflexivity.
  - unfold dispatch, handleResize. rewrite updateDimensions_eq.
    destruct (on_resize _); [|reflexivity]. apply frame_measured.
  - destruct (readyState w); try reflexivity.
    unfold dispatch. rewrite handleLoad_eq.
    destruct (on_DOMContentLoaded _); [|reflexivity].
    cbn [listeners with_this].
    destruct (frame_measured (with_readyState interactive w))
      as (_ & _ & _ & -> & _). reflexivity.
  - rewrite updateConfig_eq. cbn [snd]. cbn zeta.
    destruct (truthy_num _); [|reflexivity].
    match goal with |- context [transitions_set ?x] =>
      destruct (rest_transitions_set x) as [-> _] end. reflexivity.
Qed.

Lemma resize_listens_step ev w :
  resize_listens w → resize_listens (step ev w).
Proof.
  unfold resize_listens. intros Hw. rewrite step_isInitialized.
  destruct ev; try discriminate;
    intros H; rewrite step_listeners by discriminate; exact (Hw H).
Qed.

Lemma resize_listens_new document options page :
  resize_listens (new_CustomNavbarEffects document options page).
Proof.
  unfold resize_listens, new_CustomNavbarEffects.
  destruct (cacheElements_cases document options page)
    as [(e & els & _ & _ & He) | (e0 & main & parent & _ & _ & _ & _ & Hc)].
  - rewrite (init_failed _ _ _ _ He). discriminate.
  - rewrite (init_ok _ _ _ Hc). cbn [snd]. intros _.
    unfold initialized. cbn [listeners with_this].
    match goal with |- context [measured ?x] =>
      destruct (frame_measured x) as (_ & _ & _ & -> & _) end.
    rewrite listeners_bound. reflexivity.
Qed.

Lemma reachable_resize_listens document w :
  reachable document w → resize_listens w.
Proof.
  induction 1 as [options page | ev w _ IH].
  - apply resize_listens_new.
  - apply resize_listens_step, IH.
Qed.

Lemma reachable_run document evs w :
  reachable document w → reachable document (run evs w).
Proof.
  revert w. induction evs as [|ev evs IH]; intros w Hw; [exact Hw|].
  rewrite run_cons. apply IH, reachable_step, Hw.
Qed.

Lemma scroll_step_caches y w :
  elems (step (ScrollTo y) w) = elems w
  ∧ dimensions (step (ScrollTo y) w) = dimensions w.
Proof.
  cbn [step]. unfold dispatch. destruct (on_scroll _); [|split; reflexivity].
  destruct (handleScroll_cases (with_scrollY y w))
    as [-> | [[e ->] | (c & _ & _ & _ & ->)]]; try (split; reflexivity).
  unfold elems, dimensions.
  cbn [this with_this this_elements this_dimensions with_scrollState].
  destruct (_ <? _); [rewrite this_shown | rewrite this_hidden];
    split; reflexivity.
Qed.

Lemma run_scrolls_caches ys w :
  elems (run (map ScrollTo ys) w) = elems w
  ∧ dimensions (run (map ScrollTo ys) w) = dimensions w.
Proof.
  revert w. induction ys as [|y ys IH]; intros w; [split; reflexivity|].
  change (map ScrollTo (y :: ys)) with (ScrollTo y :: map ScrollTo ys).
  rewrite run_cons.
  destruct (IH (step (ScrollTo y) w)) as [-> ->]. apply scroll_step_caches.
Qed.

(** X19: a resize that finds a spacer rendered at zero width makes the
    collapse stick.  After successful initialization, if a present spacer is
    rendered zero pixels wide when a resize event fires, zero is recorded
    for it and pinned, and no scroll event after that, in either direction,
    gives it a width again: its inline width stays '0px' through any run of
    scroll events. *)
Theorem resize_at_zero_width_sticks
  (document : Document) (w : World) (n : node) (ys : list Z) :
  reachable document w →
  isInitialized (scrollState w) = true →
  leftEmpty (elems w) = Some n ∨ rightEmpty (elems w) = Some n →
  recorded_width n (step Resize (step (Layout n 0) w)) = Some 0
  ∧ width (style (node_get n
      (run (map ScrollTo ys) (step Resize (step (Layout n 0) w))))) = "0px".
Proof.
  intros Hreach Hinit Hn.
  set (w0 := step (Layout n 0) w).
  assert (Hreach0 : reachable document w0) by (apply reachable_step, Hreach).
  assert (Hlistens : on_resize (listeners w0) = true)
    by (apply (reachable_resize_listens document w0 Hreach0); exact Hinit).
  assert (Hzero : offsetWidth (node_get n w0) = 0).
  { subst w0. cbn [step]. rewrite node_get_update.
    destruct (decide (n = n)); [reflexivity | congruence]. }
  assert (Hstep : step Resize w0 = measured w0).
  { cbn [step]. unfold dispatch, handleResize.
    rewrite Hlistens, updateDimensions_eq. reflexivity. }
  assert (He0 : elems w0 = elems w) by reflexivity.
  assert (Hrec : recorded_width n (measured w0) = Some 0).
  { unfold recorded_width.
    destruct (frame_measured w0) as (_ & -> & _). rewrite He0.
    destruct (decide (leftEmpty (elems w) = Some n)) as [Hl|Hl].
    - rewrite <- He0 in Hl. destruct (measured_left n w0 Hl) as [-> _].
      rewrite Hzero. reflexivity.
    - destruct Hn as [Hn|Hn]; [contradiction|].
      rewrite <- He0 in Hn. destruct (measured_right n w0 Hn) as [-> _].
      rewrite Hzero. reflexivity. }
  rewrite Hstep. split; [exact Hrec|].
  set (w2 := run (map ScrollTo ys) (measured w0)).
  assert (Hreach2 : reachable document w2).
  { subst w2. apply reachable_run. rewrite <- Hstep.
    apply reachable_step, Hreach0. }
  pose proof (reachable_consistent document w2 Hreach2) as Hw2.
  destruct (run_scrolls_caches ys (measured w0)) as [He2 Hd2].
  fold w2 in He2, Hd2.
  destruct (frame_measured w0) as (_ & Hem & _).
  unfold recorded_width in Hrec. rewrite Hem, He0 in Hrec.
  destruct (decide (leftEmpty (elems w) = Some n)) as [Hl|Hl].
  - destruct (left_spacer_ok w2 Hw2 n) as (m & Hm & Hwidth).
    { rewrite He2, Hem, He0. exact Hl. }
    apply Hwidth. rewrite Hd2, Hrec in Hm. congruence.
  - destruct Hn as [Hn|Hn]; [contradiction|].
    destruct (right_spacer_ok w2 Hw2 n) as (m & Hm & Hwidth).
    { rewrite He2, Hem, He0. exact Hn. }
    apply Hwidth. rewrite Hd2, Hrec in Hm. congruence.
Qed.

Lemma resize_at_zero_width_sticks_witness :
  width (style (node_get 1%nat
    (run (map ScrollTo [50; 5])
       (step Resize (step (Layout 1%nat 0) readme_world))))) = "0px"
  ∧ width (style (node_get 3%nat
      (run (map ScrollTo [50; 5])
         (step Resize (step (Layout 1%nat 0) readme_world))))) = "60px".
Proof.
  destruct (resize_at_zero_width_sticks readme_document readme_world 1%nat
              [50; 5]) as (_ & Hstuck).
  - apply readme_world_reachable.
  - reflexivity.
  - left. reflexivity.
  - split; [exact Hstuck | vm_compute; reflexivity].
Defined.

(** ** What gets logged *)

Lemma step_console ev w : consistent w → console (step ev w) = console w.
Proof.
  intros Hw. destruct ev as [y|m rendered| | |newConfig|]; cbn [step].
  - assert (Hy : consistent (with_scrollY y w))
      by (revert Hw; apply consistent_frame; reflexivity).
    unfold dispatch. destruct (on_scroll _); [|reflexivity].
    pose proof (handleScroll_returns _ Hy) as Hret.
    destruct (handleScroll_cases (with_scrollY y w))
      as [H | [[e H] | (c & _ & _ & _ & H)]]; rewrite H in *;
      try reflexivity; try discriminate.
    cbn [console with_this].
    destruct (_ <? _);
      [apply (rest_shown c (with_scrollY y w))
      | apply (rest_hidden c (with_scrollY y w))].
  - reflexivity.
  - unfold dispatch, handleResize. rewrite updateDimensions_eq.
    destruct (on_resize _); [|reflexivity]. apply frame_measured.
  - destruct (readyState w); try reflexivity.
    unfold dispatch. rewrite handleLoad_eq.
    destruct (on_DOMContentLoaded _); [|reflexivity].
    cbn [console with_this].
    destruct (frame_measured (with_readyState interactive w))
      as (_ & _ & _ & _ & ->). reflexivity.
  - rewrite updateConfig_eq. cbn [snd]. cbn zeta.
    destruct (truthy_num _); [|reflexivity].
    match goal with |- context [transitions_set ?x] =>
      destruct (rest_transitions_set x) as [_ ->] end. reflexivity.
  - reflexivity.
Qed.

Lemma console_new document options page :
  console (new_CustomNavbarEffects document options page) = []
  ∨ ∃ e, console (new_CustomNavbarEffects document options page)
         = [("CustomNavbarEffects initialization failed:", e)].
Proof.
  unfold new_CustomNavbarEffects.
  destruct (cacheElements_cases document options page)
    as [(e & els & _ & _ & He) | (e0 & main & parent & _ & _ & _ & _ & Hc)].
  - right. exists e. rewrite (init_failed _ _ _ _ He). reflexivity.
  - left. rewrite (init_ok _ _ _ Hc). cbn [snd].
    match goal with |- context [initialized (bound (transitions_set ?x))] =>
      destruct (frame_init_tail x) as (_ & -> & _) end. reflexivity.
Qed.

(** X20: no handler ever throws.  In every world the controller can be in,
    no event and no public method logs anything: a handler that runs
    returns normally (the container it dereferences is there whenever the
    initialized flag is set).  So all the console ever holds is the one
    failure message of a construction that failed. *)
Theorem handlers_never_throw (document : Document) (w : World) (ev : Event) :
  reachable document w →
  console (step ev w) = console w
  ∧ fst (handleScroll w) = Normal tt
  ∧ (console w = []
     ∨ ∃ e, console w = [("CustomNavbarEffects initialization failed:", e)]).
Proof.
  intros Hreach.
  pose proof (reachable_consistent document w Hreach) as Hw.
  split; [apply step_console; exact Hw|].
  split; [apply handleScroll_returns; exact Hw|].
  clear ev Hw. induction Hreach as [options page | ev w Hreach IH].
  - apply console_new.
  - rewrite step_console by exact (reachable_consistent document w Hreach).
    exact IH.
Qed.

Lemma handlers_never_throw_witness :
  console (step (ScrollTo 5)
             (run [ScrollTo 50; Layout 1%nat 0; Resize] readme_world))
  = [].
Proof.
  destruct (handlers_never_throw readme_document
              (run [ScrollTo 50; Layout 1%nat 0; Resize] readme_world)
              (ScrollTo 5)) as (Hstep & _).
  - apply reachable_run, readme_world_reachable.
  - rewrite Hstep. vm_compute. reflexivity.
Defined.

(** ** The two markers exclude each other *)

Lemma step_classList ev w n :
  classList (node_get n (step ev w)) = classList (node_get n w)
  ∨ classList (node_get n (step ev w))
    = classList_add "scroll-up"
        (classList_remove "scroll-down" (classList (node_get n w)))
  ∨ classList (node_get n (step ev w))
    = classList_add "scroll-down"
        (classList_remove "scroll-up" (classList (node_get n w))).
Proof.
  destruct ev as [y|m rendered| | |newConfig|]; cbn [step].
  - unfold dispatch. destruct (on_scroll _); [|left; reflexivity].
    destruct (handleScroll_cases (with_scrollY y w))
      as [-> | [[e ->] | (c & _ & _ & _ & ->)]];
      try (left; reflexivity).
    rewrite node_get_with_this.
    destruct (_ <? _).
    + rewrite classList_shown_at.
      destruct (decide (c = n)); [right; left | left]; reflexivity.
    + rewrite classList_hidden_at.
      destruct (decide (c = n)); [right; right | left]; reflexivity.
  - left. rewrite node_get_update. destruct (decide _); subst; reflexivity.
  - left. unfold dispatch, handleResize. rewrite updateDimensions_eq.
    destruct (on_resize _); [|reflexivity].
    destruct (measured_keeps n w) as (-> & _). reflexivity.
  - left. destruct (readyState w); try reflexivity.
    unfold dispatch. rewrite handleLoad_eq.
    destruct (on_DOMContentLoaded _); [|reflexivity].
    rewrite node_get_with_this.
    destruct (measured_keeps n (with_readyState interactive w)) as (-> & _).
    reflexivity.
  - left. rewrite updateConfig_eq. cbn [snd]. cbn zeta.
    destruct (truthy_num _); [|reflexivity].
    match goal with |- context [transitions_set ?x] =>
      destruct (transitions_set_keeps n x) as (-> & _) end.
    reflexivity.
  - left. reflexivity.
Qed.

(** X21: no step ever leaves a node with both markers.  If a node does not
    carry 'scroll-up' and 'scroll-down' together before an event or a call,
    it does not carry them together after it, in any world. *)
Theorem markers_stay_exclusive (ev : Event) (w : World) (n : node) :
  ¬ (In "scroll-up" (classList (node_get n w))
     ∧ In "scroll-down" (classList (node_get n w))) →
  ¬ (In "scroll-up" (classList (node_get n (step ev w)))
     ∧ In "scroll-down" (classList (node_get n (step ev w)))).
Proof.
  intros Hbefore [Hup Hdown].
  destruct (step_classList ev w n) as [H | [H | H]]; rewrite H in *.
  - apply Hbefore. split; assumption.
  - apply (proj1 (markers_swapped "scroll-down" "scroll-up"
                    (classList (node_get n w)) ltac:(discriminate))).
    exact Hdown.
  - apply (proj1 (markers_swapped "scroll-up" "scroll-down"
                    (classList (node_get n w)) ltac:(discriminate))).
    exact Hup.
Qed.

Lemma markers_stay_exclusive_witness :
  ¬ (In "scroll-up" (classList (node_get 0%nat
       (step (ScrollTo 5) (step (ScrollTo 50) readme_world))))
     ∧ In "scroll-down" (classList (node_get 0%nat
         (step (ScrollTo 5) (step (ScrollTo 50) readme_world))))).
Proof.
  apply (markers_stay_exclusive (ScrollTo 5) (step (ScrollTo 50) readme_world)).
  vm_compute. intros [[H|[]] _]. discriminate H.
Defined.

(** ** The configuration at construction *)

Lemma config_new document options page :
  config (new_CustomNavbarEffects document options page)
  = spread defaults options.
Proof.
  unfold new_CustomNavbarEffects.
  destruct (cacheElements_cases document options page)
    as [(e & els & _ & _ & He) | (e0 & main & parent & _ & _ & _ & _ & Hc)].
  - rewrite (init_failed _ _ _ _ He). reflexivity.
  - rewrite (init_ok _ _ _ Hc). cbn [snd].
    match goal with |- context [initialized (bound (transitions_set ?x))] =>
      set (w1 := x) end.
    transitivity (config (measured (bound (transitions_set w1))));
      [reflexivity|].
    destruct (frame_measured (bound (transitions_set w1))) as (-> & _).
    destruct (frame_bound (transitions_set w1)) as (-> & _).
    unfold config. rewrite this_transitions_set. reflexivity.
Qed.

(** X22: the constructor merges the options over the defaults, whether
    [init] succeeds or not: [getConfig()] right after [new
    CustomNavbarEffects({x: v})] has [v] in field [x] and the default in
    every other field, and with no options at all it is the defaults. *)
Theorem construction_config
  (document : Document) (page : Page) (x : Field) (v : field_type x) :
  field_get x (getConfig (new_CustomNavbarEffects document (only x v) page))
  = v
  ∧ (∀ y, y ≠ x →
       field_get y (getConfig (new_CustomNavbarEffects document (only x v) page))
       = field_get y defaults)
  ∧ getConfig (new_CustomNavbarEffects document no_options page) = defaults.
Proof.
  rewrite !getConfig_config, !config_new.
  split; [destruct x; reflexivity|].
  split; [|reflexivity].
  intros y Hy. destruct x, y; try reflexivity; congruence.
Qed.

Lemma construction_config_witness :
  field_get f_scrollThreshold
    (getConfig (new_CustomNavbarEffects empty_document
                  (only f_transitionDuration 300) readme_page)) = 10.
Proof.
  destruct (construction_config empty_document readme_page
              f_transitionDuration 300) as (_ & Hother & _).
  apply (Hother f_scrollThreshold). discriminate.
Defined.

(** ** A new threshold *)

(** X23: the threshold is read at every scroll event.  Right after
    [updateConfig({scrollThreshold: t})] a scroll event closer than [t] to
    the recorded offset changes nothing but the window's own offset,
    whatever the threshold was before; the update itself leaves the recorded
    offset alone. *)
Theorem new_threshold_governs_next_scroll (t y : Z) (w : World) :
  Z.abs (y - lastScrollY (scrollState w)) < t →
  lastScrollY (scrollState (step (CallUpdateConfig (only f_scrollThreshold t)) w))
  = lastScrollY (scrollState w)
  ∧ step (ScrollTo y) (step (CallUpdateConfig (only f_scrollThreshold t)) w)
    = with_scrollY y (step (CallUpdateConfig (only f_scrollThreshold t)) w).
Proof.
  intros Hnear.
  assert (Hs : scrollState (step (CallUpdateConfig (only f_scrollThreshold t)) w)
               = scrollState w).
  { cbn [step]. unfold scrollState. rewrite updateConfig_this. reflexivity. }
  split; [rewrite Hs; reflexivity|].
  apply step_scroll_quiet. rewrite Hs.
  cbn [step]. rewrite updateConfig_config. exact Hnear.
Qed.

Lemma new_threshold_governs_next_scroll_witness :
  nodes (step (ScrollTo 50)
           (step (CallUpdateConfig (only f_scrollThreshold 80)) readme_world))
  = nodes readme_world.
Proof.
  destruct (new_threshold_governs_next_scroll 80 50 readme_world) as [_ H].
  - vm_compute. reflexivity.
  - rewrite H. vm_compute. reflexivity.
Defined.
